(** * FSNS: flight status machine, subscription lifecycle and notification
      dispatch, embedded from the JavaScript sources.

    Conventions of the embedding.
    - A JavaScript [Date] is its epoch value in milliseconds, an integer
      ([Z]); an absent date ([undefined]) is [None].  A [Date] object is
      always truthy, so [Some 0] is truthy as well.
    - [new Date()] / [Date.now()] is the parameter [now] of an operation.
    - An [async] method that may [throw] returns an [Outcome]; the mutated
      document ([this]) is returned next to it, because a JavaScript method
      that throws after an assignment leaves the assignment in place.
    - Collaborators (mail transport, document store) are parameters, and so
      is the validation of a document against its schema, which Mongoose
      runs at the start of every [save()].
    - A string is its UTF-8 bytes; a path declared [trim: true] stores
      [trim] of the string assigned to it. *)

From Stdlib Require Import ZArith Bool List Lia Ascii.
From stdpp Require Import base option list strings gmap pretty.
From Equations Require Import Equations.

Local Open Scope Z_scope.

(** ** JavaScript exceptions *)

Module Js.

(** The error values the embedded code constructs.  [Error] is the plain
    built-in class; the other three are subclasses of [FlightError]
    (errors/FlightErrors). *)
Inductive JsError : Type :=
| Error (message : string)
| FlightNotFoundError (flightNumber : string)
| FlightStatusError (message currentStatus requestedStatus : string)
                    (allowedTransitions : list string)
| FlightDatabaseError (message operation originalError : string).

(** [error instanceof FlightError] *)
Definition instanceof_FlightError (e : JsError) : bool :=
  match e with
  | Error _ => false
  | _ => true
  end.

(** [error.message] *)
Definition message_of (e : JsError) : string :=
  match e with
  | Error m => m
  | FlightNotFoundError fn => "Flight " +:+ fn +:+ " not found"
  | FlightStatusError m _ _ _ => m
  | FlightDatabaseError m _ _ => m
  end.

Inductive Outcome (A : Type) : Type :=
| Returned (a : A)
| Thrown (e : JsError).
Arguments Returned {A} a.
Arguments Thrown {A} e.

(** [await m; k]: an exception of [m] skips [k]. *)
Definition bind {A B} (m : Outcome A) (k : A -> Outcome B) : Outcome B :=
  match m with
  | Returned a => k a
  | Thrown e => Thrown e
  end.

(** [try { m } catch (error) { h error }] *)
Definition try_catch {A} (m : Outcome A) (h : JsError -> Outcome A) : Outcome A :=
  match m with
  | Returned a => Returned a
  | Thrown e => h e
  end.

Definition is_thrown {A} (m : Outcome A) : bool :=
  match m with
  | Returned _ => false
  | Thrown _ => true
  end.

(** Truthiness of an optional string: [undefined], [null] and the empty
    string are falsy. *)
Definition truthy (s : option string) : bool :=
  match s with
  | Some s => negb (String.eqb s "")
  | None => false
  end.

(** The code points [String.prototype.trim] removes, WhiteSpace and
    LineTerminator of ECMAScript, by their UTF-8 bytes: one byte for
    U+0009..U+000D and U+0020, two for U+00A0, three for U+1680,
    U+2000..U+200A, U+2028, U+2029, U+202F, U+205F, U+3000 and U+FEFF. *)
Definition byte (c : ascii) : N := N_of_ascii c.

Definition ws1 (a : ascii) : bool :=
  ((9 <=? byte a) && (byte a <=? 13) || (byte a =? 32))%N.

Definition ws2 (a b : ascii) : bool :=
  ((byte a =? 194) && (byte b =? 160))%N.

Definition ws3 (a b c : ascii) : bool :=
  ((byte a =? 225) && (byte b =? 154) && (byte c =? 128)
   || (byte a =? 226) && (byte b =? 128)
      && ((128 <=? byte c) && (byte c <=? 138)
          || (byte c =? 168) || (byte c =? 169) || (byte c =? 175))
   || (byte a =? 226) && (byte b =? 129) && (byte c =? 159)
   || (byte a =? 227) && (byte b =? 128) && (byte c =? 128)
   || (byte a =? 239) && (byte b =? 187) && (byte c =? 191))%N.

(** The text without the white space it starts with; [w2] and [w3]
    recognise a two-byte and a three-byte character at the head. *)
Fixpoint strip (w2 : ascii -> ascii -> bool) (w3 : ascii -> ascii -> ascii -> bool)
         (l : list ascii) : list ascii :=
  match l with
  | a :: r =>
    if ws1 a then strip w2 w3 r
    else
      match r with
      | b :: r' =>
        if w2 a b then strip w2 w3 r'
        else
          match r' with
          | c :: r'' => if w3 a b c then strip w2 w3 r'' else l
          | [] => l
          end
      | [] => l
      end
  | [] => []
  end.

(** [String.prototype.trimStart] *)
Definition trimStart (l : list ascii) : list ascii := strip ws2 ws3 l.

(** [String.prototype.trimEnd]: the same scan over the reversed text, where
    the bytes of a character come last byte first. *)
Definition trimEnd (l : list ascii) : list ascii :=
  rev (strip (fun a b => ws2 b a) (fun a b c => ws3 c b a) (rev l)).

(** [String.prototype.trim], what a [trim: true] path of a schema applies
    to a string assigned to it. *)
Definition trim (s : string) : string :=
  String.string_of_list_ascii (trimEnd (trimStart (String.list_ascii_of_string s))).

End Js.

Export Js.

(** ** models/Flight.js *)

Module Flight.

Inductive FlightStatus : Type :=
| SCHEDULED | DELAYED | BOARDING | DEPARTED
| IN_AIR | ARRIVED | CANCELLED | DIVERTED.

#[global] Instance FlightStatus_eq_dec : EqDecision FlightStatus.
Proof. solve_decision. Defined.

(** The string value of each key of [FLIGHT_STATUSES]. *)
Definition FLIGHT_STATUSES (s : FlightStatus) : string :=
  match s with
  | SCHEDULED => "Scheduled"
  | DELAYED => "Delayed"
  | BOARDING => "Boarding"
  | DEPARTED => "Departed"
  | IN_AIR => "In-Air"
  | ARRIVED => "Arrived"
  | CANCELLED => "Cancelled"
  | DIVERTED => "Diverted"
  end.

(** [Object.values(FLIGHT_STATUSES)], in declaration order. *)
Definition all_statuses : list FlightStatus :=
  [SCHEDULED; DELAYED; BOARDING; DEPARTED; IN_AIR; ARRIVED; CANCELLED; DIVERTED].

(** The status a string denotes, when
    [Object.values(FLIGHT_STATUSES).includes(s)]. *)
Definition status_of_string (s : string) : option FlightStatus :=
  List.find (fun st => String.eqb (FLIGHT_STATUSES st) s) all_statuses.

Record StatusHistory : Type := mkStatusHistory {
  sh_status : FlightStatus;
  sh_timestamp : Z;
  sh_reason : string;
  sh_updatedBy : string;
  sh_metadata : list (string * string)
}.

Record Delay : Type := mkDelay {
  minutes : Z;
  reason : string;
  description : option string
}.

Record Times : Type := mkTimes {
  scheduled : option Z;
  estimated : option Z;
  actual : option Z
}.

Record Gate : Type := mkGate {
  airport : string;
  terminal : option string;
  gate : option string
}.

Record Flight : Type := mkFlight {
  flightNumber : string;
  origin : Gate;
  destination : Gate;
  departure : Times;
  arrival : Times;
  status_current : FlightStatus;
  status_history : list StatusHistory;
  delay : Delay;
  lastUpdated : Z
}.

Definition set_delay_minutes (m : Z) (f : Flight) : Flight :=
  mkFlight (flightNumber f) (origin f) (destination f) (departure f) (arrival f)
           (status_current f) (status_history f)
           (mkDelay m (reason (delay f)) (description (delay f)))
           (lastUpdated f).

(** The local [delayMinutes] of [calculateDelay], before the clamp.
    [currentTime > undefined] is false in JavaScript. *)
Definition delayMinutes (currentTime : Z) (dep : Times) : Z :=
  match actual dep, scheduled dep with
  | Some a, Some s => (a - s) / (1000 * 60)
  | _, _ =>
    match estimated dep, scheduled dep with
    | Some e, Some s => (e - s) / (1000 * 60)
    | _, _ =>
      match scheduled dep with
      | Some s =>
        if (currentTime >? s) && negb (bool_decide (is_Some (actual dep)))
        then (currentTime - s) / (1000 * 60)
        else 0
      | None => 0
      end
    end
  end.

(** [FlightSchema.methods.calculateDelay]: the value returned and the
    mutated document. *)
Definition calculateDelay (currentTime : Z) (f : Flight) : Z * Flight :=
  let m := Z.max 0 (delayMinutes currentTime (departure f)) in
  (m, set_delay_minutes m f).

(** The virtual [isDelayed]. *)
Definition isDelayed (f : Flight) : bool := minutes (delay f) >? 0.

(** [FlightSchema.pre('save')]; [scheduledModified] is
    [isModified('schedule.departure.scheduled') ||
     isModified('schedule.arrival.scheduled')].  A comparison with an
    absent date is false. *)
Definition pre_save (now : Z) (scheduledModified : bool) (f : Flight)
  : Outcome Flight :=
  let f1 := mkFlight (flightNumber f) (origin f) (destination f) (departure f)
                     (arrival f) (status_current f) (status_history f)
                     (delay f) now in
  let bad_order :=
    match scheduled (departure f1), scheduled (arrival f1) with
    | Some d, Some a => d >=? a
    | _, _ => false
    end in
  if scheduledModified && bad_order
  then Thrown (Error "Departure time must be before arrival time")
  else if String.eqb (airport (origin f1)) (airport (destination f1))
  then Thrown (Error "Origin and destination airports cannot be the same")
  else Returned f1.

(** [this.save()]: Mongoose validates the document against the schema,
    then runs the hook above.  [validate] is that validation (the formats,
    enumerations and bounds the schema declares): the message of the
    [ValidationError] it rejects with, [None] for a document that passes.  A
    [ValidationError] is an [Error] outside the [FlightError] classes. *)
Definition save (validate : Flight -> option string) (now : Z)
           (scheduledModified : bool) (f : Flight) : Outcome Flight :=
  match validate f with
  | Some m => Thrown (Error m)
  | None => pre_save now scheduledModified f
  end.

(** [FlightSchema.methods.updateStatus].  The result pairs the outcome of
    the final [save()] with the in-memory document, which keeps its
    mutations when [save()] rejects.  The entry pushed goes through the
    setters of [StatusHistorySchema]: [updatedBy] is stored trimmed, and so
    is [reason], which neither starts nor ends with white space. *)
Definition updateStatus (validate : Flight -> option string) (now : Z)
           (newStatus : string) (updatedBy : string)
           (metadata : list (string * string)) (f : Flight)
  : Outcome Flight * Flight :=
  match status_of_string newStatus with
  | None => (Thrown (Error ("Invalid status: " +:+ newStatus)), f)
  | Some st =>
    let oldStatus := status_current f in
    let entry :=
      mkStatusHistory oldStatus now
        ("Changed from " +:+ FLIGHT_STATUSES oldStatus +:+ " to " +:+ newStatus)
        (trim updatedBy) metadata in
    let dep :=
      if bool_decide (st = DEPARTED) && negb (bool_decide (is_Some (actual (departure f))))
      then mkTimes (scheduled (departure f)) (estimated (departure f)) (Some now)
      else departure f in
    let arr :=
      if bool_decide (st = ARRIVED) && negb (bool_decide (is_Some (actual (arrival f))))
      then mkTimes (scheduled (arrival f)) (estimated (arrival f)) (Some now)
      else arrival f in
    let f1 := mkFlight (flightNumber f) (origin f) (destination f) dep arr
                       st (status_history f ++ [entry]) (delay f) now in
    let f2 := snd (calculateDelay now f1) in
    (save validate now false f2, f2)
  end.

(** [FlightSchema.methods.addDelay]: one estimated time moved by [m]
    minutes; without an estimate the scheduled time is the base, and
    [undefined.getTime()] is a [TypeError] when that is absent too. *)
Definition shift_estimated (m : Z) (t : Times) : option Times :=
  match estimated t with
  | Some e => Some (mkTimes (scheduled t) (Some (e + m * 60000)) (actual t))
  | None =>
    match scheduled t with
    | Some s => Some (mkTimes (scheduled t) (Some (s + m * 60000)) (actual t))
    | None => None
    end
  end.

Definition getTime_of_undefined : JsError :=
  Error "Cannot read properties of undefined (reading 'getTime')".

(** [addDelay(minutes, reason, description)]; the two string arguments carry
    their defaults, and [delay.description] is a [trim: true] path.  The
    assignments made before a [TypeError] stay in the document. *)
Definition addDelay (validate : Flight -> option string) (now : Z) (m : Z)
           (reason_arg description_arg : string) (f : Flight)
  : Outcome Flight * Flight :=
  let d := mkDelay (Z.max 0 (minutes (delay f) + m)) reason_arg
                   (Some (trim description_arg)) in
  let with_times dep arr stamp :=
    mkFlight (flightNumber f) (origin f) (destination f) dep arr
             (status_current f) (status_history f) d stamp in
  match shift_estimated m (departure f) with
  | None => (Thrown getTime_of_undefined, with_times (departure f) (arrival f) (lastUpdated f))
  | Some dep =>
    match shift_estimated m (arrival f) with
    | None => (Thrown getTime_of_undefined, with_times dep (arrival f) (lastUpdated f))
    | Some arr =>
      let f1 := with_times dep arr now in
      (save validate now false f1, f1)
    end
  end.

(** Character classes of the validators' patterns. *)
Definition is_upper (c : ascii) : bool :=
  ((65 <=? nat_of_ascii c) && (nat_of_ascii c <=? 90))%nat.

Definition is_digit (c : ascii) : bool :=
  ((48 <=? nat_of_ascii c) && (nat_of_ascii c <=? 57))%nat.

(** [[A-Z0-9]] *)
Definition is_alnum (c : ascii) : bool := is_upper c || is_digit c.

(** The longest prefix whose characters satisfy [p], and the rest. *)
Fixpoint span (p : ascii -> bool) (l : list ascii) : list ascii * list ascii :=
  match l with
  | c :: l' =>
    if p c then (c :: fst (span p l'), snd (span p l')) else ([], l)
  | [] => ([], [])
  end.

Definition between (lo hi n : nat) : bool := ((lo <=? n) && (n <=? hi))%nat.

(** [/^[A-Z]{2}[0-9]{1,4}[A-Z]?$/.test(s)]: letters and digits are disjoint,
    so the digits matched are the whole run of digits after the two letters. *)
Definition iataFlightNumber_test (s : string) : bool :=
  match String.list_ascii_of_string s with
  | a :: b :: rest =>
    is_upper a && is_upper b &&
    between 1 4 (length (fst (span is_digit rest))) &&
    match snd (span is_digit rest) with
    | [] => true
    | [c] => is_upper c
    | _ => false
    end
  | _ => false
  end.

(** [/^[A-Z]{3}$/.test(s)] *)
Definition iataAirportCode_test (s : string) : bool :=
  match String.list_ascii_of_string s with
  | [a; b; c] => is_upper a && is_upper b && is_upper c
  | _ => false
  end.

(** [/^[A-Z0-9]{2,3}$/.test(s)] *)
Definition airlineCode_test (s : string) : bool :=
  between 2 3 (length (String.list_ascii_of_string s)) &&
  forallb is_alnum (String.list_ascii_of_string s).

(** [/^[A-Z]{1,2}-[A-Z0-9]{3,5}$/.test(s)] *)
Definition aircraftRegistration_test (s : string) : bool :=
  between 1 2 (length (fst (span is_upper (String.list_ascii_of_string s)))) &&
  match snd (span is_upper (String.list_ascii_of_string s)) with
  | "-"%char :: r => between 3 5 (length r) && forallb is_alnum r
  | _ => false
  end.

Definition validateIATAFlightNumber (flightNumber_arg : string) : Outcome bool :=
  if iataFlightNumber_test flightNumber_arg then Returned true
  else Thrown (Error "Flight number must follow IATA format (e.g., AA123, UA1234A)").

Definition validateIATAAirportCode (airportCode : string) : Outcome bool :=
  if iataAirportCode_test airportCode then Returned true
  else Thrown (Error "Airport code must be a valid 3-letter IATA code (e.g., JFK, LAX)").

Definition validateAirlineCode (airlineCode : string) : Outcome bool :=
  if airlineCode_test airlineCode then Returned true
  else Thrown (Error "Airline code must be a valid 2-3 character IATA code (e.g., AA, UA, QF)").

(** [validateAircraftRegistration]: a falsy registration is accepted. *)
Definition validateAircraftRegistration (registration : option string) : Outcome bool :=
  if negb (truthy registration) then Returned true
  else if aircraftRegistration_test (default "" registration) then Returned true
  else Thrown (Error "Aircraft registration must follow format XX-XXXXX (e.g., N123AB, PK-ABC)").

End Flight.

(** ** services/FlightService.js *)

Module FlightService.
Import Flight.

(** [this.statusTransitions], keyed by the current status. *)
Definition statusTransitions (s : FlightStatus) : list FlightStatus :=
  match s with
  | SCHEDULED => [DELAYED; BOARDING; CANCELLED]
  | DELAYED => [BOARDING; CANCELLED]
  | BOARDING => [DEPARTED; CANCELLED]
  | DEPARTED => [IN_AIR; DIVERTED]
  | IN_AIR => [ARRIVED; DIVERTED]
  | ARRIVED => []
  | CANCELLED => []
  | DIVERTED => [ARRIVED]
  end.

(** The array stored under [statusTransitions[currentStatus]]: strings. *)
Definition allowedTransitions (s : FlightStatus) : list string :=
  map FLIGHT_STATUSES (statusTransitions s).

(** [validateStatusTransition]: [allowedTransitions.includes(newStatus)]. *)
Definition validateStatusTransition (currentStatus : FlightStatus)
           (newStatus : string) : bool :=
  existsb (String.eqb newStatus) (allowedTransitions currentStatus).

Record DelayUpdate : Type := mkDelayUpdate {
  du_minutes : option Z;
  du_reason : option string;
  du_description : option string
}.

(** [updateData.gate.departure] / [.arrival]. *)
Record GateUpdate : Type := mkGateUpdate {
  gu_gate : option string;
  gu_terminal : option string
}.

(** The fields of [updateData] that [updateFlightStatus] reads.
    [ud_departure] is [updateData.schedule.departure] when both objects are
    present; a time that is [Some] there is a key of that object. *)
Record UpdateData : Type := mkUpdateData {
  ud_status : option string;
  ud_reason : option string;
  ud_metadata : option (list (string * string));
  ud_departure : option Times;
  ud_arrival : option Times;
  ud_gate_departure : option GateUpdate;
  ud_gate_arrival : option GateUpdate;
  ud_delay : option DelayUpdate
}.

Definition or_else {A} (new old : option A) : option A :=
  match new with
  | Some v => Some v
  | None => old
  end.

Definition update_times (u : option Times) (t : Times) : Times :=
  match u with
  | Some k => mkTimes (or_else (scheduled k) (scheduled t))
                      (or_else (estimated k) (estimated t))
                      (or_else (actual k) (actual t))
  | None => t
  end.

Definition update_gate (u : option GateUpdate) (g : Gate) : Gate :=
  match u with
  | Some k => mkGate (airport g) (or_else (gu_terminal k) (terminal g))
                     (or_else (gu_gate k) (gate g))
  | None => g
  end.

(** The three [delay.*] entries of [updateFields]: [minutes] when it is not
    [undefined], [reason] and [description] when truthy. *)
Definition update_delay (u : option DelayUpdate) (d : Delay) : Delay :=
  match u with
  | Some k =>
    mkDelay (match du_minutes k with Some m => m | None => minutes d end)
            (match du_reason k with
             | Some r => if truthy (Some r) then r else reason d
             | None => reason d
             end)
            (match du_description k with
             | Some x => if truthy (Some x) then Some x else description d
             | None => description d
             end)
  | None => d
  end.

Definition has_time_keys (u : option Times) : bool :=
  match u with
  | Some k => bool_decide (is_Some (scheduled k)) || bool_decide (is_Some (estimated k))
              || bool_decide (is_Some (actual k))
  | None => false
  end.

Definition has_delay_keys (u : option DelayUpdate) : bool :=
  match u with
  | Some k => bool_decide (is_Some (du_minutes k)) || truthy (du_reason k)
              || truthy (du_description k)
  | None => false
  end.

(** [Object.keys(updateFields).length > 0] *)
Definition has_updateFields (ud : UpdateData) : bool :=
  has_time_keys (ud_departure ud) || has_time_keys (ud_arrival ud)
  || bool_decide (is_Some (ud_gate_departure ud))
  || bool_decide (is_Some (ud_gate_arrival ud))
  || has_delay_keys (ud_delay ud).

(** [Flight.findByIdAndUpdate(flight._id, updateFields)] on the stored
    document (no save hook runs). *)
Definition apply_updateFields (now : Z) (ud : UpdateData) (f : Flight) : Flight :=
  mkFlight (flightNumber f)
           (update_gate (ud_gate_departure ud) (origin f))
           (update_gate (ud_gate_arrival ud) (destination f))
           (update_times (ud_departure ud) (departure f))
           (update_times (ud_arrival ud) (arrival f))
           (status_current f) (status_history f)
           (update_delay (ud_delay ud) (delay f))
           now.

(** [newStatus && newStatus !== oldStatus] *)
Definition status_changing (oldStatus : FlightStatus) (newStatus : option string) : bool :=
  match newStatus with
  | Some s => truthy (Some s) && negb (String.eqb s (FLIGHT_STATUSES oldStatus))
  | None => false
  end.

(** The [try] block of [updateFlightStatus].  [store] is the document
    [Flight.findOne({flightNumber, isActive: true})] resolves to, if any;
    the second component is that stored document afterwards.  The
    notification hook at the end is left out: it runs inside its own
    [try]/[catch], whose handler only logs. *)
Definition updateFlightStatus_try (validate : Flight -> option string) (now : Z)
           (store : option Flight)
           (flightNumber : string) (ud : UpdateData) (updatedBy : string)
  : Outcome Flight * option Flight :=
  match store with
  | None => (Thrown (FlightNotFoundError flightNumber), store)
  | Some flight =>
    let oldStatus := status_current flight in
    let newStatus := ud_status ud in
    let changing := status_changing oldStatus newStatus in
    let s := default "" newStatus in
    if changing && negb (validateStatusTransition oldStatus s)
    then (Thrown (FlightStatusError
                    ("Invalid status transition from " +:+ FLIGHT_STATUSES oldStatus
                       +:+ " to " +:+ s)
                    (FLIGHT_STATUSES oldStatus) s (allowedTransitions oldStatus)),
          store)
    else
      let saved :=
        if changing
        then fst (updateStatus validate now s updatedBy (default [] (ud_metadata ud))
                               flight)
        else Returned flight in
      match saved with
      | Thrown e => (Thrown e, store)
      | Returned stored =>
        let updated :=
          if has_updateFields ud then apply_updateFields now ud stored else stored in
        (Returned updated, Some updated)
      end
  end.

(** [updateFlightStatus]: the [catch] rethrows a [FlightError] and wraps
    anything else in a [FlightDatabaseError].  The value returned stands
    for [formatFlightData(updatedFlight)], a projection of the document. *)
Definition updateFlightStatus (validate : Flight -> option string) (now : Z)
           (store : option Flight)
           (flightNumber : string) (ud : UpdateData) (updatedBy : string)
  : Outcome Flight * option Flight :=
  let r := updateFlightStatus_try validate now store flightNumber ud updatedBy in
  (try_catch (fst r)
     (fun error =>
        if instanceof_FlightError error then Thrown error
        else Thrown (FlightDatabaseError
                       "Failed to update flight status due to database error"
                       "UPDATE_FLIGHT_STATUS" (message_of error))),
   snd r).

(** A request that only names a status. *)
Definition status_request (s : string) : UpdateData :=
  mkUpdateData (Some s) None None None None None None None.

(** [Math.ceil(a / b)] on integers. *)
Definition ceil_div (a b : Z) : Z := - ((- a) / b).

(** The [skip] and the [pagination] object of [getFlights]. *)
Record Pagination : Type := mkPagination {
  pg_page : Z;
  pg_limit : Z;
  pg_totalCount : Z;
  pg_totalPages : Z;
  pg_hasNextPage : bool;
  pg_hasPrevPage : bool
}.

Definition skip_of (page limit : Z) : Z := (page - 1) * limit.

Definition pagination (page limit totalCount : Z) : Pagination :=
  mkPagination page limit totalCount (ceil_div totalCount limit)
               (page <? ceil_div totalCount limit) (page >? 1).

(** A time as [validateSchedule] receives it: absent (falsy), a value
    [new Date] cannot parse, or a date. *)
Inductive TimeInput : Type :=
| Missing
| Unparsable
| At (t : Z).

(** [schedule.departure] / [schedule.arrival]: [None] when the object is
    absent, else its [scheduled] member. *)
Record ScheduleInput : Type := mkScheduleInput {
  si_departure : option TimeInput;
  si_arrival : option TimeInput
}.

(** An entry of the [errors] array: [field] and [message]. *)
Record Issue : Type := mkIssue {
  issue_field : string;
  issue_message : string
}.

(** [validateSchedule(schedule, errors)]: the array after the call.  A
    comparison with an Invalid Date is false. *)
Definition validateSchedule (schedule : ScheduleInput) (errors : list Issue) : list Issue :=
  let e1 :=
    match si_departure schedule with
    | None => errors ++ [mkIssue "schedule.departure" "Departure schedule is required"]
    | Some Missing =>
      errors ++ [mkIssue "schedule.departure.scheduled" "Scheduled departure time is required"]
    | Some _ => errors
    end in
  let e2 :=
    match si_arrival schedule with
    | None => e1 ++ [mkIssue "schedule.arrival" "Arrival schedule is required"]
    | Some Missing =>
      e1 ++ [mkIssue "schedule.arrival.scheduled" "Scheduled arrival time is required"]
    | Some _ => e1
    end in
  match si_departure schedule, si_arrival schedule with
  | Some (At depTime), Some (At arrTime) =>
    if depTime >=? arrTime
    then e2 ++ [mkIssue "schedule" "Departure time must be before arrival time"]
    else e2
  | _, _ => e2
  end.

(** A sequence of statuses, each an allowed transition of the one before. *)
Fixpoint valid_path (from : FlightStatus) (path : list FlightStatus) : bool :=
  match path with
  | [] => true
  | s :: rest => validateStatusTransition from (FLIGHT_STATUSES s) && valid_path s rest
  end.

(** The number of transitions a flight in a given status can still make. *)
Definition remaining_transitions (s : FlightStatus) : nat :=
  match s with
  | SCHEDULED => 6
  | DELAYED => 5
  | BOARDING => 4
  | DEPARTED => 3
  | IN_AIR => 2
  | DIVERTED => 1
  | ARRIVED => 0
  | CANCELLED => 0
  end.

(** One call of [updateFlightStatus] as a caller issues it. *)
Record Request : Type := mkRequest {
  rq_now : Z;
  rq_data : UpdateData;
  rq_updatedBy : string
}.

(** The stored document after a series of calls for the same flight. *)
Definition run_requests (validate : Flight -> option string) (fn : string)
           (store : option Flight) (rs : list Request)
  : option Flight :=
  fold_left (fun st r => snd (updateFlightStatus validate (rq_now r) st fn (rq_data r)
                                                 (rq_updatedBy r)))
            rs store.

End FlightService.

(** ** services/FlightService.js, utility methods *)

Module FlightServiceUtility.

(** What [calculateDelay(scheduledTime, actualTime)] of the service settles
    with: its report, or the field of the [FlightValidationError] it throws. *)
Inductive DelayReport : Type :=
| Report (delayMinutes : Z) (isDelayed_flag : bool)
| InvalidTime (field : string).

(** The service's own [calculateDelay].  [scheduledTime] is the epoch value
    [new Date(scheduledTime)] has, [None] for an Invalid Date; [actualTime]
    is [None] when the argument is falsy, [Some None] when it is truthy but
    gives an Invalid Date. *)
Definition calculateDelay (now : Z) (scheduledTime : option Z)
           (actualTime : option (option Z)) : DelayReport :=
  match scheduledTime with
  | None => InvalidTime "scheduledTime"
  | Some sched =>
    match actualTime with
    | Some None => InvalidTime "actualTime"
    | _ =>
      let act := match actualTime with Some (Some a) => a | _ => now end in
      let delayMinutes := (act - sched) / (1000 * 60) in
      Report (Z.max 0 delayMinutes) (delayMinutes >? 0)
    end
  end.

End FlightServiceUtility.

(** ** models/Subscription.js *)

Module Subscription.

Inductive SUBSCRIPTION_STATUS : Type :=
| PENDING | ACTIVE | INACTIVE | UNSUBSCRIBED | EXPIRED.

(** [NOTIFICATION_TYPES] *)
Definition STATUS_CHANGES : string := "status_changes".
(** [NOTIFICATION_METHODS] *)
Definition EMAIL : string := "email".
Definition SMS : string := "sms".
Definition PUSH : string := "push".

(** [notificationPreferences.<type>?.enabled] for the types the dispatcher
    reads; [None] is [undefined]. *)
Record NotificationPreferences : Type := mkPreferences {
  status_changes : option bool;
  delays : option bool;
  cancellations : option bool;
  boarding_calls : option bool
}.

Record NotificationRecord : Type := mkRecord {
  nr_type : string;
  nr_method : string;
  nr_status : string;
  nr_messageId : option string;
  nr_error : option string
}.

Record NotificationStats : Type := mkStats {
  totalSent : Z;
  emailsSent : Z;
  smsSent : Z;
  pushSent : Z;
  lastNotificationSent : option Z;
  notificationHistory : list NotificationRecord
}.

Record Verification : Type := mkVerification {
  isVerified : bool;
  verificationToken : option string;
  verificationTokenExpires : option Z;
  verifiedAt : option Z;
  verificationAttempts : Z
}.

Record Unsubscribe : Type := mkUnsubscribe {
  token : option string;
  isUnsubscribed : bool;
  unsubscribedAt : option Z;
  reason : option string;
  feedback : option string
}.

Record GDPRCompliance : Type := mkGDPR {
  consentDate : option Z;
  dataRetentionDays : option Z
}.

(** Mongoose's change tracking, as far as the save hook consults it. *)
Record Tracking : Type := mkTracking {
  isNew : bool;
  modified_dataRetentionDays : bool;
  modified_consentDate : bool
}.

Record Subscription : Type := mkSubscription {
  email : string;
  flightNumber : string;
  flightDate : Z;
  status : SUBSCRIPTION_STATUS;
  verification : Verification;
  unsubscribe : Unsubscribe;
  notificationPreferences : option NotificationPreferences;
  notificationStats : NotificationStats;
  gdprCompliance : GDPRCompliance;
  expiresAt : option Z;
  isActive : bool;
  tracking : Tracking
}.

Definition with_verification (v : Verification) (s : Subscription) : Subscription :=
  mkSubscription (email s) (flightNumber s) (flightDate s) (status s) v
                 (unsubscribe s) (notificationPreferences s) (notificationStats s)
                 (gdprCompliance s) (expiresAt s) (isActive s) (tracking s).

Definition with_unsubscribe (u : Unsubscribe) (s : Subscription) : Subscription :=
  mkSubscription (email s) (flightNumber s) (flightDate s) (status s) (verification s)
                 u (notificationPreferences s) (notificationStats s)
                 (gdprCompliance s) (expiresAt s) (isActive s) (tracking s).

Definition with_status (st : SUBSCRIPTION_STATUS) (active : bool) (s : Subscription)
  : Subscription :=
  mkSubscription (email s) (flightNumber s) (flightDate s) st (verification s)
                 (unsubscribe s) (notificationPreferences s) (notificationStats s)
                 (gdprCompliance s) (expiresAt s) active (tracking s).

Definition with_stats (n : NotificationStats) (s : Subscription) : Subscription :=
  mkSubscription (email s) (flightNumber s) (flightDate s) (status s) (verification s)
                 (unsubscribe s) (notificationPreferences s) n
                 (gdprCompliance s) (expiresAt s) (isActive s) (tracking s).

Definition with_expiresAt (e : option Z) (s : Subscription) : Subscription :=
  mkSubscription (email s) (flightNumber s) (flightDate s) (status s) (verification s)
                 (unsubscribe s) (notificationPreferences s) (notificationStats s)
                 (gdprCompliance s) e (isActive s) (tracking s).

Definition with_tracking (t : Tracking) (s : Subscription) : Subscription :=
  mkSubscription (email s) (flightNumber s) (flightDate s) (status s) (verification s)
                 (unsubscribe s) (notificationPreferences s) (notificationStats s)
                 (gdprCompliance s) (expiresAt s) (isActive s) t.

Definition day_ms : Z := 24 * 60 * 60 * 1000.

(** The virtual [isExpired]: [this.expiresAt && new Date() > this.expiresAt]. *)
Definition isExpired (now : Z) (s : Subscription) : bool :=
  match expiresAt s with
  | Some e => now >? e
  | None => false
  end.

(** The virtual [isVerificationExpired]. *)
Definition isVerificationExpired (now : Z) (s : Subscription) : bool :=
  match verificationTokenExpires (verification s) with
  | Some e => now >? e
  | None => false
  end.

(** [gdprExpiry] of the save hook, when [dataRetentionDays] (a non-zero
    number) and [consentDate] are both truthy. *)
Definition gdprExpiry (g : GDPRCompliance) : option Z :=
  match dataRetentionDays g, consentDate g with
  | Some d, Some c => if d =? 0 then None else Some (c + d * day_ms)
  | _, _ => None
  end.

(** The last block of the save hook: the recomputation that a change of
    the retention days or of the consent date triggers. *)
Definition recompute_expiry (s : Subscription) : Subscription :=
  if modified_dataRetentionDays (tracking s) || modified_consentDate (tracking s)
  then match gdprExpiry (gdprCompliance s) with
       | Some g =>
         match expiresAt s with
         | None => with_expiresAt (Some g) s
         | Some e => if g <? e then with_expiresAt (Some g) s else s
         end
       | None => s
       end
  else s.

Section Methods.

(** [crypto.randomBytes(32).toString('hex')], by draw. *)
Variable randomHex : nat -> string.
(** The validation of a document against the schema, at a given time
    ([validateFutureDate] reads the clock): the message of the
    [ValidationError] it rejects with, [None] for a document that passes. *)
Variable validate : Z -> Subscription -> option string.
(** The write of the document store: [None] when it succeeds, the error
    it rejects with otherwise. *)
Variable persist : Subscription -> option JsError.

(** [SubscriptionSchema.pre('save')] *)
Definition pre_save (now : Z) (s : Subscription) : Subscription :=
  let new := isNew (tracking s) in
  let s1 :=
    if new && negb (truthy (verificationToken (verification s)))
    then with_verification
           (mkVerification (isVerified (verification s)) (Some (randomHex 0))
                           (Some (now + 24 * 60 * 60 * 1000))
                           (verifiedAt (verification s))
                           (verificationAttempts (verification s))) s
    else s in
  let s2 :=
    if new && negb (truthy (token (unsubscribe s1)))
    then with_unsubscribe
           (mkUnsubscribe (Some (randomHex 1)) (isUnsubscribed (unsubscribe s1))
                          (unsubscribedAt (unsubscribe s1)) (reason (unsubscribe s1))
                          (feedback (unsubscribe s1))) s1
    else s1 in
  let s3 :=
    if new && negb (bool_decide (is_Some (expiresAt s2)))
    then with_expiresAt (Some (flightDate s2 + 7 * 24 * 60 * 60 * 1000)) s2
    else s2 in
  recompute_expiry s3.

(** [this.save()]: Mongoose validates the document, then runs the hook,
    then writes; a rejected validation leaves the hook and the write out.  A
    document that was written is no longer new and has no modified path. *)
Definition save (now : Z) (s : Subscription) : Outcome Subscription * Subscription :=
  match validate now s with
  | Some m => (Thrown (Error m), s)
  | None =>
    let s1 := pre_save now s in
    match persist s1 with
    | Some e => (Thrown e, s1)
    | None =>
      let s2 := with_tracking (mkTracking false false false) s1 in
      (Returned s2, s2)
    end
  end.

(** [SubscriptionSchema.methods.verify] *)
Definition verify (now : Z) (tok : option string) (s : Subscription)
  : Outcome Subscription * Subscription :=
  let v := verification s in
  if isVerified v then (Thrown (Error "Subscription is already verified"), s)
  else if isVerificationExpired now s
  then (Thrown (Error "Verification token has expired"), s)
  else if verificationAttempts v >=? 5
  then (Thrown (Error "Maximum verification attempts exceeded"), s)
  else if negb (bool_decide (verificationToken v = tok))
  then
    let s1 := with_verification
                (mkVerification (isVerified v) (verificationToken v)
                                (verificationTokenExpires v) (verifiedAt v)
                                (verificationAttempts v + 1)) s in
    let r := save now s1 in
    (bind (fst r) (fun _ => Thrown (Error "Invalid verification token")), snd r)
  else
    let s1 := with_verification
                (mkVerification true None None (Some now) (verificationAttempts v)) s in
    save now (with_status ACTIVE (isActive s1) s1).

(** [SubscriptionSchema.methods.unsubscribeUser]; the defaults of
    [reason] and [feedback] replace an [undefined] argument, and both paths
    are [trim: true]. *)
Definition unsubscribeUser (now : Z) (tok : option string)
           (reason_arg feedback_arg : option string) (s : Subscription)
  : Outcome Subscription * Subscription :=
  let u := unsubscribe s in
  if isUnsubscribed u then (Thrown (Error "Already unsubscribed"), s)
  else if truthy tok && negb (bool_decide (token u = tok))
  then (Thrown (Error "Invalid unsubscribe token"), s)
  else
    let s1 := with_unsubscribe
                (mkUnsubscribe (token u) true (Some now)
                               (Some (trim (default "user_request" reason_arg)))
                               (Some (trim (default "" feedback_arg)))) s in
    save now (with_status UNSUBSCRIBED false s1).

(** [SubscriptionSchema.methods.reactivate] *)
Definition reactivate (now : Z) (s : Subscription)
  : Outcome Subscription * Subscription :=
  let u := unsubscribe s in
  if negb (isUnsubscribed u) then (Thrown (Error "Subscription is not unsubscribed"), s)
  else if isExpired now s
  then (Thrown (Error "Cannot reactivate expired subscription"), s)
  else
    let s1 := with_unsubscribe (mkUnsubscribe (token u) false None None None) s in
    save now (with_status (if isVerified (verification s) then ACTIVE else PENDING)
                          true s1).

(** [Array.prototype.slice(-n)]: the last [n] elements. *)
Definition slice_last {A} (n : nat) (l : list A) : list A :=
  drop (length l - n)%nat l.

(** [SubscriptionSchema.methods.addNotification]; [status], [messageId]
    and [error] already carry their defaults. *)
Definition addNotification (now : Z) (type method status_arg : string)
           (messageId error : option string) (s : Subscription)
  : Outcome Subscription * Subscription :=
  let n := notificationStats s in
  let bump (m : string) (c : Z) := if String.eqb method m then c + 1 else c in
  let pushed := notificationHistory n ++ [mkRecord type method status_arg messageId error] in
  let history :=
    if (100 <? length pushed)%nat then slice_last 50 pushed else pushed in
  save now (with_stats
              (mkStats (totalSent n + 1) (bump EMAIL (emailsSent n))
                       (bump SMS (smsSent n)) (bump PUSH (pushSent n))
                       (Some now) history) s).

End Methods.

(** The virtual [daysUntilExpiry]: [Math.ceil] of the remaining time in
    days, [null] without an expiry. *)
Definition daysUntilExpiry (now : Z) (s : Subscription) : option Z :=
  match expiresAt s with
  | Some e => Some (- ((- (e - now)) / (1000 * 60 * 60 * 24)))
  | None => None
  end.

(** [SubscriptionSchema.methods.requestDeletion].  The two
    [rightToBeForgatten] fields it sets are outside the record; what is left
    is the [save()] and the [true] it returns. *)
Definition requestDeletion (randomHex : nat -> string)
           (validate : Z -> Subscription -> option string)
           (persist : Subscription -> option JsError) (now : Z) (s : Subscription)
  : Outcome bool * Subscription :=
  let r := save randomHex validate persist now s in
  (bind (fst r) (fun _ => Returned true), snd r).

End Subscription.

(** ** services/NotificationService.js *)

Module NotificationService.
Import Subscription.

Record RateLimit : Type := mkRateLimit {
  maxPerHour : Z;
  maxPerDay : Z
}.

Record Config : Type := mkConfig {
  retryAttempts : Z;
  retryDelay : Z;
  rateLimit : RateLimit
}.

(** The fields of the service object the embedded methods use.
    [rateLimitStore] is the [Map] from bucket key to count. *)
Record Service : Type := mkService {
  config : Config;
  rateLimitStore : gmap string Z;
  isEnabled : bool
}.

(** What [sendEmail] resolves to, and what [sendStatusChangeEmail] and
    [retryFailedNotification] return. *)
Record EmailResult : Type := mkEmailResult {
  success : bool;
  messageId : option string;
  error : option string
}.

(** One entry of [results.details]. *)
Record Detail : Type := mkDetail {
  d_email : string;
  d_status : string;
  d_messageId : option string;
  d_error : option string;
  d_message : option string
}.

(** The four shapes of object [notifyStatusChange] returns. *)
Inductive BatchResult : Type :=
| ServiceDisabled
    (* { success: true, message: 'Service disabled' } *)
| NoSubscriptions
    (* { success: true, notificationsSent: 0, message: 'No subscriptions found' } *)
| Processed (notificationsSent notificationsFailed : Z) (details : list Detail)
    (* { success: true, notificationsSent, notificationsFailed, details } *)
| Failure (error : string)
    (* { success: false, error, notificationsSent: 0, notificationsFailed: 0 } *).

(** Truthiness of [prefs?.<type>?.enabled]. *)
Definition enabled (sel : NotificationPreferences -> option bool) (s : Subscription)
  : bool :=
  match notificationPreferences s with
  | Some p => default false (sel p)
  | None => false
  end.

(** [shouldNotifyStatusChange]; the result is the truthiness of the value
    returned, which is how the caller uses it. *)
Definition shouldNotifyStatusChange (s : Subscription) (oldStatus newStatus : string)
  : bool :=
  if negb (enabled status_changes s) then false
  else if String.eqb oldStatus newStatus then false
  else if String.eqb newStatus (Flight.FLIGHT_STATUSES Flight.BOARDING)
  then enabled boarding_calls s || enabled status_changes s
  else if String.eqb newStatus (Flight.FLIGHT_STATUSES Flight.DELAYED)
  then enabled delays s || enabled status_changes s
  else if String.eqb newStatus (Flight.FLIGHT_STATUSES Flight.CANCELLED)
  then enabled cancellations s || enabled status_changes s
  else enabled status_changes s.

Definition hourlyKey (email : string) (now : Z) : string :=
  email +:+ ":hour:" +:+ pretty (now / (60 * 60 * 1000)).

Definition dailyKey (email : string) (now : Z) : string :=
  email +:+ ":day:" +:+ pretty (now / (24 * 60 * 60 * 1000)).

(** [this.rateLimitStore.get(key) || 0] *)
Definition count (svc : Service) (key : string) : Z :=
  default 0 (rateLimitStore svc !! key).

Definition checkRateLimit (svc : Service) (now : Z) (email : string) : bool :=
  let hourCount := count svc (hourlyKey email now) in
  let dayCount := count svc (dailyKey email now) in
  if hourCount >=? maxPerHour (rateLimit (config svc)) then false
  else if dayCount >=? maxPerDay (rateLimit (config svc)) then false
  else true.

(** [updateRateLimit]; the two timers it arms delete the keys after their
    window has passed and are not part of the embedding. *)
Definition updateRateLimit (svc : Service) (now : Z) (email : string) : Service :=
  let hourlyCount := count svc (hourlyKey email now) in
  let dailyCount := count svc (dailyKey email now) in
  mkService (config svc)
            (<[dailyKey email now := dailyCount + 1]>
               (<[hourlyKey email now := hourlyCount + 1]> (rateLimitStore svc)))
            (isEnabled svc).

Definition resetRateLimit (svc : Service) (now : Z) (email : string) : Service :=
  mkService (config svc)
            (delete (dailyKey email now) (delete (hourlyKey email now) (rateLimitStore svc)))
            (isEnabled svc).

Section Dispatch.

Variable randomHex : nat -> string.
Variable validate : Z -> Subscription -> option string.
Variable persist : Subscription -> option JsError.
(** [Subscription.findActiveByFlight(flightNumber, scheduledDeparture)] *)
Variable findActiveByFlight : string -> option Z -> Outcome (list Subscription).
(** [generateStatusChangeEmailContent] followed by [sendEmail(message)],
    as a function of the subscription the message is built for. *)
Variable sendEmail : Subscription -> Outcome EmailResult.

(** [sendStatusChangeEmail]: every exception becomes a failed result. *)
Definition sendStatusChangeEmail (s : Subscription) : EmailResult :=
  match sendEmail s with
  | Returned result => mkEmailResult true (messageId result) None
  | Thrown e => mkEmailResult false None (Some (message_of e))
  end.

(** The accumulator of the loop: [results] and the documents processed
    so far, as they are in memory afterwards. *)
Record Batch : Type := mkBatch {
  sent : Z;
  failed : Z;
  details : list Detail;
  documents : list Subscription
}.

(** The handler of the [try] around one subscription. *)
Definition record_error (b : Batch) (s : Subscription) (e : JsError) : Batch :=
  mkBatch (sent b) (failed b + 1)
          (details b ++ [mkDetail (email s) "error" None (Some (message_of e)) None])
          (documents b ++ [s]).

(** One iteration of [for (const subscription of subscriptions)]. *)
Definition process (svc : Service) (now : Z) (oldStatus newStatus : string)
           (b : Batch) (s : Subscription) : Batch :=
  if negb (shouldNotifyStatusChange s oldStatus newStatus)
  then mkBatch (sent b) (failed b) (details b) (documents b ++ [s])
  else if negb (checkRateLimit svc now (email s))
  then mkBatch (sent b) (failed b)
               (details b ++ [mkDetail (email s) "rate_limited" None None
                                       (Some "Rate limit exceeded")])
               (documents b ++ [s])
  else
    let notificationResult := sendStatusChangeEmail s in
    let b1 :=
      if success notificationResult
      then mkBatch (sent b + 1) (failed b) (details b) (documents b)
      else mkBatch (sent b) (failed b + 1) (details b) (documents b) in
    let r :=
      if success notificationResult
      then addNotification randomHex validate persist now STATUS_CHANGES EMAIL "sent"
                           (messageId notificationResult) None s
      else addNotification randomHex validate persist now STATUS_CHANGES EMAIL "failed"
                           None (error notificationResult) s in
    match fst r with
    | Thrown e => record_error b1 (snd r) e
    | Returned _ =>
      mkBatch (sent b1) (failed b1)
              (details b1 ++
                 [mkDetail (email s)
                           (if success notificationResult then "sent" else "failed")
                           (messageId notificationResult) (error notificationResult)
                           None])
              (documents b1 ++ [snd r])
    end.

(** The [try] block of [notifyStatusChange]: the result and the
    subscription documents as the loop left them.  The service object
    is read only. *)
Definition notifyStatusChange_try (svc : Service) (now : Z) (flight : Flight.Flight)
           (oldStatus : string) : Outcome BatchResult * list Subscription :=
  if negb (isEnabled svc) then (Returned ServiceDisabled, [])
  else
    match findActiveByFlight (Flight.flightNumber flight)
                             (Flight.scheduled (Flight.departure flight)) with
    | Thrown e => (Thrown e, [])
    | Returned subscriptions =>
      if (length subscriptions =? 0)%nat then (Returned NoSubscriptions, subscriptions)
      else
        let b := fold_left
                   (process svc now oldStatus
                            (Flight.FLIGHT_STATUSES (Flight.status_current flight)))
                   subscriptions (mkBatch 0 0 [] []) in
        (Returned (Processed (sent b) (failed b) (details b)), documents b)
    end.

(** [notifyStatusChange]: the outer handler turns any exception into a
    result object. *)
Definition notifyStatusChange (svc : Service) (now : Z) (flight : Flight.Flight)
           (oldStatus : string)
  : Outcome BatchResult * Service * list Subscription :=
  let r := notifyStatusChange_try svc now flight oldStatus in
  (try_catch (fst r) (fun e => Returned (Failure (message_of e))), svc, snd r).

End Dispatch.

Inductive RetryEvent : Type :=
| Wait (ms : Z)
| Send (attempt : Z).

Section Retry.

Variable cfg : Config.
(** [sendEmail(notificationData.message)] as performed on a given
    attempt. *)
Variable sendEmail_at : Z -> Outcome EmailResult.

Definition after (pre : list RetryEvent) (r : Outcome EmailResult * list RetryEvent)
  : Outcome EmailResult * list RetryEvent :=
  (fst r, pre ++ snd r).

(** [retryFailedNotification(notificationData, attempt)]: the value the
    promise settles with and the waits and sends performed, in order. *)
Equations? retryFailedNotification (attempt : Z)
  : Outcome EmailResult * list RetryEvent
  by wf (Z.to_nat (retryAttempts cfg + 1 - attempt)) lt :=
  retryFailedNotification attempt with decide (attempt > retryAttempts cfg) => {
    | left _ =>
      (Returned (mkEmailResult false None (Some "Max retry attempts reached")), []);
    | right _ with sendEmail_at attempt => {
      | Returned result with success result => {
        | true => (Returned result, [Wait (retryDelay cfg * attempt); Send attempt]);
        | false => after [Wait (retryDelay cfg * attempt); Send attempt]
                         (retryFailedNotification (attempt + 1)) };
      | Thrown e with decide (attempt < retryAttempts cfg) => {
        | left _ => after [Wait (retryDelay cfg * attempt); Send attempt]
                          (retryFailedNotification (attempt + 1));
        | right _ =>
          (Returned (mkEmailResult false None (Some (message_of e))),
           [Wait (retryDelay cfg * attempt); Send attempt]) } } }.
Proof. all: lia. Qed.

End Retry.

(** The retry schedule in the words of the specification: [n] tries numbered
    from [first], each preceded by a wait of [retryDelay * attemptNumber]. *)
Definition backoff_schedule (cfg : Config) (first n : Z) : list RetryEvent :=
  flat_map (fun k => [Wait (retryDelay cfg * k); Send k]) (seqZ first n).

(** A send that did not succeed: it threw, or resolved without [success]. *)
Definition send_failed (o : Outcome EmailResult) : Prop :=
  match o with
  | Returned result => success result = false
  | Thrown _ => True
  end.

(** [hay.includes(needle)] *)
Fixpoint includes (needle hay : string) : bool :=
  String.prefix needle hay ||
  match hay with
  | EmptyString => false
  | String _ rest => includes needle rest
  end.

(** The three shapes of object [processDataDeletionRequest] returns. *)
Inductive DeletionResult : Type :=
| NoData
    (* { success: true, message: 'No data found' } *)
| Marked (subscriptionsMarked : nat)
    (* { success: true, subscriptionsMarked, message } *)
| DeletionFailed (error : string)
    (* { success: false, error } *).

Section Deletion.

Variable randomHex : nat -> string.
Variable validate : Z -> Subscription -> option string.
Variable persist : Subscription -> option JsError.
(** [Subscription.find({ email: email.toLowerCase() })] *)
Variable find : string -> Outcome (list Subscription).

(** [for (const subscription of subscriptions) await
    subscription.requestDeletion()]: the loop stops at the first rejection. *)
Fixpoint mark_for_deletion (now : Z) (l : list Subscription)
  : Outcome unit * list Subscription :=
  match l with
  | [] => (Returned tt, [])
  | s :: rest =>
    let r := requestDeletion randomHex validate persist now s in
    match fst r with
    | Thrown e => (Thrown e, snd r :: rest)
    | Returned _ =>
      let r' := mark_for_deletion now rest in
      (fst r', snd r :: snd r')
    end
  end.

(** [processDataDeletionRequest(email)]: the result, the service object and
    the subscription documents afterwards. *)
Definition processDataDeletionRequest (svc : Service) (now : Z) (email : string)
  : DeletionResult * Service * list Subscription :=
  match find email with
  | Thrown e => (DeletionFailed (message_of e), svc, [])
  | Returned subscriptions =>
    if (length subscriptions =? 0)%nat then (NoData, svc, subscriptions)
    else
      let r := mark_for_deletion now subscriptions in
      match fst r with
      | Thrown e => (DeletionFailed (message_of e), svc, snd r)
      | Returned _ =>
        (Marked (length subscriptions),
         mkService (config svc)
                   (filter (fun kv => includes email (fst kv) = false) (rateLimitStore svc))
                   (isEnabled svc),
         snd r)
      end
  end.

End Deletion.

(** The number of entries of [results.details] with a given status. *)
Definition tally (st : string) (ds : list Detail) : Z :=
  Z.of_nat (length (List.filter (fun d => String.eqb (d_status d) st) ds)).

(** The time a trace spends waiting. *)
Fixpoint total_wait (trace : list RetryEvent) : Z :=
  match trace with
  | [] => 0
  | Wait ms :: rest => ms + total_wait rest
  | Send _ :: rest => total_wait rest
  end.

End NotificationService.

(** ** Concrete documents used by the examples *)

Module Samples.
Import Flight FlightService.

(** AA123, JFK to LAX, scheduled 08:00Z, still [Scheduled]. *)
Definition aa123 : Flight :=
  mkFlight "AA123" (mkGate "JFK" None None) (mkGate "LAX" None None)
           (mkTimes (Some 28800000) None None)
           (mkTimes (Some 50400000) None None)
           SCHEDULED [] (mkDelay 0 "Other" None) 0.

(** The same flight, boarding. *)
Definition aa123_boarding : Flight :=
  mkFlight "AA123" (mkGate "JFK" None None) (mkGate "LAX" None None)
           (mkTimes (Some 28800000) None None)
           (mkTimes (Some 50400000) None None)
           BOARDING [] (mkDelay 0 "Other" None) 0.

(** The same flight, cancelled. *)
Definition aa123_cancelled : Flight :=
  mkFlight "AA123" (mkGate "JFK" None None) (mkGate "LAX" None None)
           (mkTimes (Some 28800000) None None)
           (mkTimes (Some 50400000) None None)
           CANCELLED [] (mkDelay 0 "Other" None) 0.

(** Departed at 08:30Z. *)
Definition aa123_departed : Flight :=
  mkFlight "AA123" (mkGate "JFK" None None) (mkGate "LAX" None None)
           (mkTimes (Some 28800000) None (Some 30600000))
           (mkTimes (Some 50400000) None None)
           DEPARTED [] (mkDelay 0 "Other" None) 0.

Definition no_notifications : Subscription.NotificationStats :=
  Subscription.mkStats 0 0 0 0 None [].

(** A stored, pending subscription of passenger@example.com to AA123. *)
Definition passenger (prefs : Subscription.NotificationPreferences)
  : Subscription.Subscription :=
  Subscription.mkSubscription
    "passenger@example.com" "AA123" 28800000 Subscription.PENDING
    (Subscription.mkVerification false (Some "c0ffee") (Some 86400000) None 0)
    (Subscription.mkUnsubscribe (Some "deadbeef") false None None None)
    (Some prefs) no_notifications
    (Subscription.mkGDPR (Some 0) (Some 365))
    (Some 633600000) true
    (Subscription.mkTracking false false false).

(** A subscription of late@example.com to the AA123 of the day before. *)
Definition late_passenger : Subscription.Subscription :=
  Subscription.mkSubscription
    "late@example.com" "AA123" (-57600000) Subscription.ACTIVE
    (Subscription.mkVerification true None None (Some (-60000000)) 0)
    (Subscription.mkUnsubscribe (Some "feedface") false None None None)
    (Some (Subscription.mkPreferences (Some true) (Some true) (Some true) (Some false)))
    no_notifications
    (Subscription.mkGDPR (Some (-60000000)) (Some 365))
    (Some 547200000) true
    (Subscription.mkTracking false false false).

(** The schema defaults of the four preferences. *)
Definition default_prefs : Subscription.NotificationPreferences :=
  Subscription.mkPreferences (Some true) (Some true) (Some true) (Some false).

(** Cancellations wanted, general status changes switched off. *)
Definition cancellations_only : Subscription.NotificationPreferences :=
  Subscription.mkPreferences (Some false) (Some false) (Some true) (Some false).

(** A subscription whose history holds 100 records. *)
Definition frequent_flyer : Subscription.Subscription :=
  Subscription.with_stats
    (Subscription.mkStats 100 100 0 0 (Some 500)
       (replicate 100 (Subscription.mkRecord "status_changes" "email" "sent" None None)))
    (passenger default_prefs).

(** A subscription expiring three days after consent, whose retention days
    have just been raised to ten years. *)
Definition retention_raised : Subscription.Subscription :=
  Subscription.mkSubscription
    "passenger@example.com" "AA123" 28800000 Subscription.ACTIVE
    (Subscription.mkVerification true None None (Some 1000) 0)
    (Subscription.mkUnsubscribe (Some "deadbeef") false None None None)
    (Some default_prefs) no_notifications
    (Subscription.mkGDPR (Some 0) (Some 3650))
    (Some 259200000) true
    (Subscription.mkTracking false true false).

Definition randomHex (n : nat) : string :=
  match n with
  | O => "aaaa"
  | _ => "bbbb"
  end.

(** What the validators of [SubscriptionSchema] decide on the fields of the
    record, in a process whose local time is UTC: [validateFutureDate]
    compares the midnight of [flightDate] with the midnight of today, and
    [unsubscribe.reason] has to be one of the values of its [enum]. *)
Definition unsubscribe_reasons : list string :=
  ["user_request"; "bounce"; "spam_complaint"; "admin_action"; "gdpr_request"; "expired"].

Definition midnight (t : Z) : Z := t / Subscription.day_ms * Subscription.day_ms.

Definition flightDate_message : string :=
  "flightDate: Flight date must be today or in the future".

Definition reason_message (r : string) : string :=
  "unsubscribe.reason: `" +:+ r +:+ "` is not a valid enum value for path `unsubscribe.reason`.".

Definition validate_utc (now : Z) (s : Subscription.Subscription) : option string :=
  let past := midnight (Subscription.flightDate s) <? midnight now in
  let outside :=
    match Subscription.reason (Subscription.unsubscribe s) with
    | Some r => if existsb (String.eqb r) unsubscribe_reasons then None else Some r
    | None => None
    end in
  match past, outside with
  | false, None => None
  | true, None => Some ("Subscription validation failed: " +:+ flightDate_message)
  | false, Some r => Some ("Subscription validation failed: " +:+ reason_message r)
  | true, Some r =>
    Some ("Subscription validation failed: " +:+ flightDate_message +:+ ", "
            +:+ reason_message r)
  end.

(** What the validators of [FlightSchema] decide on the fields of the
    record: the IATA formats, the non-negative delay and the [enum] of
    [delay.reason] ([DELAY_REASONS]); the message names the first path that
    fails. *)
Definition delay_reasons : list string :=
  ["Weather"; "Technical"; "Crew"; "Air Traffic Control"; "Security"; "Passenger";
   "Airport Operations"; "Aircraft Change"; "Other"].

Definition validate_flight (f : Flight) : option string :=
  if negb (iataFlightNumber_test (flightNumber f))
  then Some "Flight validation failed: flightNumber: Flight number must follow IATA format (e.g., AA123, UA1234A)"
  else if negb (iataAirportCode_test (airport (origin f)))
  then Some "Flight validation failed: route.origin.airport: Airport code must be a valid 3-letter IATA code (e.g., JFK, LAX)"
  else if negb (iataAirportCode_test (airport (destination f)))
  then Some "Flight validation failed: route.destination.airport: Airport code must be a valid 3-letter IATA code (e.g., JFK, LAX)"
  else if minutes (delay f) <? 0
  then Some "Flight validation failed: delay.minutes: Delay minutes cannot be negative"
  else if negb (existsb (String.eqb (reason (delay f))) delay_reasons)
  then Some ("Flight validation failed: delay.reason: `" +:+ reason (delay f)
               +:+ "` is not a valid enum value for path `reason`.")
  else None.

(** AA123 with a [delay.reason] outside the enumeration, as an update
    through [findByIdAndUpdate] can leave it. *)
Definition aa123_fog : Flight :=
  mkFlight "AA123" (mkGate "JFK" None None) (mkGate "LAX" None None)
           (mkTimes (Some 28800000) None None)
           (mkTimes (Some 50400000) None None)
           SCHEDULED [] (mkDelay 0 "Fog" None) 0.

(** A store whose writes succeed. *)
Definition persist_ok (_ : Subscription.Subscription) : option JsError := None.

(** The console transport: every send succeeds. *)
Definition console (_ : Subscription.Subscription)
  : Outcome NotificationService.EmailResult :=
  Returned (NotificationService.mkEmailResult true (Some "console-1") None).

(** A service with [maxPerHour = 1] and an empty rate-limit store. *)
Definition one_per_hour : NotificationService.Service :=
  NotificationService.mkService
    (NotificationService.mkConfig 3 300000 (NotificationService.mkRateLimit 1 1000))
    ∅ true.

(** A transport that rejects every send. *)
Definition transport_down (_ : Z) : Outcome NotificationService.EmailResult :=
  Thrown (Error "Temporary failure").

(** A transport that rejects the first send and accepts the second. *)
Definition second_try (attempt : Z) : Outcome NotificationService.EmailResult :=
  if attempt =? 2
  then Returned (NotificationService.mkEmailResult true (Some "sendgrid-1") None)
  else Thrown (Error "Temporary failure").

End Samples.

(** * Properties *)

(** ** Flight status machine *)

Section FlightStatusMachine.
Import Flight FlightService.

Variable validate : Flight -> option string.

Lemma existsb_eqb_absent (s : string) (l : list string) :
  ~ In s l -> existsb (String.eqb s) l = false.
Proof.
  induction l as [|x l IH]; simpl; intros Hnot; [reflexivity|].
  destruct (String.eqb_spec s x) as [->|_].
  - exfalso. apply Hnot. now left.
  - apply IH. intros Hin. apply Hnot. now right.
Qed.

Lemma status_of_string_name (st : FlightStatus) :
  status_of_string (FLIGHT_STATUSES st) = Some st.
Proof. destruct st; reflexivity. Qed.

(** What [updateStatus] leaves in the document: the new status, one more
    history entry that records the previous status, a clamped delay. *)
Lemma updateStatus_applies now st by_ md f :
  let f' := snd (updateStatus validate now (FLIGHT_STATUSES st) by_ md f) in
  status_current f' = st /\
  (exists entry, status_history f' = status_history f ++ [entry] /\
                 sh_status entry = status_current f /\ sh_timestamp entry = now) /\
  0 <= minutes (delay f').
Proof.
  unfold updateStatus. rewrite status_of_string_name. simpl.
  split; [reflexivity|]. split; [|apply Z.le_max_l].
  eexists. repeat split; reflexivity.
Qed.

(** Scheduled to Boarding is applied and stored. *)
Example updateFlightStatus_boarding :
  exists f', updateFlightStatus Samples.validate_flight 1000 (Some Samples.aa123) "AA123"
                                (status_request "Boarding") "System"
             = (Returned f', Some f') /\
             status_current f' = BOARDING /\ length (status_history f') = 1%nat.
Proof. eexists. repeat split; reflexivity. Qed.

(** The clamp of [calculateDelay]. *)
Lemma calculateDelay_nonneg (now : Z) (f : Flight) : 0 <= fst (calculateDelay now f).
Proof. unfold calculateDelay. simpl. apply Z.le_max_l. Qed.

(** C2: [calculateDelay] stores the value it returns in [delay.minutes];
    that value is never negative, for absent timestamps too; and with a
    scheduled departure [s] it is the clamp to [>= 0] of the whole minutes
    of (actual - s) when an actual departure is recorded, else of
    (estimated - s) when an estimated departure is recorded, else of
    (now - s) when now is past [s], else of 0. *)
Theorem calculateDelay_priority (now : Z) (f : Flight) :
  minutes (delay (snd (calculateDelay now f))) = fst (calculateDelay now f) /\
  0 <= minutes (delay (snd (calculateDelay now f))) /\
  forall s : Z, scheduled (departure f) = Some s ->
    fst (calculateDelay now f) =
    Z.max 0 (match actual (departure f) with
             | Some a => (a - s) / 60000
             | None =>
               match estimated (departure f) with
               | Some e => (e - s) / 60000
               | None => if now >? s then (now - s) / 60000 else 0
               end
             end).
Proof.
  split; [reflexivity|]. split; [apply (calculateDelay_nonneg now f)|].
  intros s Hs. unfold calculateDelay, delayMinutes. simpl fst. rewrite Hs.
  destruct (actual (departure f)) as [a|]; [reflexivity|].
  destruct (estimated (departure f)) as [e|]; [reflexivity|].
  rewrite andb_true_r. reflexivity.
Qed.

(** Scenario 4 of the specification: scheduled 08:00Z, actual 08:30Z. *)
Lemma calculateDelay_priority_witness :
  scheduled (departure Samples.aa123_departed) = Some 28800000 /\
  fst (calculateDelay 0 Samples.aa123_departed) = 30 /\
  isDelayed (snd (calculateDelay 0 Samples.aa123_departed)) = true.
Proof.
  split; [reflexivity|]. split; [|reflexivity].
  destruct (calculateDelay_priority 0 Samples.aa123_departed) as (_ & _ & H).
  rewrite (H 28800000); reflexivity.
Defined.

(** C1, as stated, fails: the pair (Scheduled, Scheduled) is not in the
    transition table, yet a request for the status the flight already has
    is not rejected: [updateFlightStatus] returns the flight.  Nor is a
    request whose status is the empty string, which is in no allowed set
    either. *)
Lemma same_status_request_not_rejected :
  ~ In SCHEDULED (statusTransitions (status_current Samples.aa123)) /\
  updateFlightStatus Samples.validate_flight 1000 (Some Samples.aa123) "AA123"
                     (status_request (FLIGHT_STATUSES SCHEDULED)) "System"
  = (Returned Samples.aa123, Some Samples.aa123) /\
  ~ In "" (allowedTransitions (status_current Samples.aa123)) /\
  updateFlightStatus Samples.validate_flight 1000 (Some Samples.aa123) "AA123"
                     (status_request "") "System"
  = (Returned Samples.aa123, Some Samples.aa123).
Proof.
  split; [|split; [reflexivity|split; [|reflexivity]]];
    simpl; intros [H|[H|[H|[]]]]; discriminate H.
Qed.

(** A request whose status is the current one, or is falsy, skips both the
    transition check and [updateStatus]. *)
Lemma updateFlightStatus_no_change now f fn ud by_ :
  status_changing (status_current f) (ud_status ud) = false ->
  exists f', updateFlightStatus validate now (Some f) fn ud by_ = (Returned f', Some f') /\
             status_current f' = status_current f /\
             status_history f' = status_history f.
Proof.
  intros Hc. unfold updateFlightStatus, updateFlightStatus_try. rewrite Hc. simpl.
  destruct (has_updateFields ud); eexists; repeat split; reflexivity.
Qed.

(** C1 (amended): for a requested status [s] that is not the empty string,
    differs from the current one and is not in the allowed set of the
    current status, [updateFlightStatus] throws a [FlightStatusError]
    carrying the current status, the requested status and the allowed set,
    and the stored flight (status, history, delay) is unchanged; a request
    whose status is the current one, or the empty string, is not rejected,
    and leaves status and history as they are. *)
Theorem updateFlightStatus_invalid_transition (now : Z) (f : Flight)
        (fn : string) (ud : UpdateData) (by_ : string) (s : string) :
  ud_status ud = Some s ->
  (s <> "" ->
   s <> FLIGHT_STATUSES (status_current f) ->
   ~ In s (allowedTransitions (status_current f)) ->
   updateFlightStatus validate now (Some f) fn ud by_ =
   (Thrown (FlightStatusError
              ("Invalid status transition from " +:+ FLIGHT_STATUSES (status_current f)
                 +:+ " to " +:+ s)
              (FLIGHT_STATUSES (status_current f)) s
              (allowedTransitions (status_current f))),
    Some f)) /\
  (s = "" \/ s = FLIGHT_STATUSES (status_current f) ->
   exists f', updateFlightStatus validate now (Some f) fn ud by_ = (Returned f', Some f') /\
              status_current f' = status_current f /\
              status_history f' = status_history f).
Proof.
  intros Hs. split.
  - intros Hne Hdiff Hnot.
    unfold updateFlightStatus, updateFlightStatus_try. rewrite Hs.
    unfold status_changing, validateStatusTransition. simpl.
    rewrite (existsb_eqb_absent _ _ Hnot).
    destruct (String.eqb_spec s "") as [E|_]; [contradiction|].
    destruct (String.eqb_spec s (FLIGHT_STATUSES (status_current f))) as [E|_];
      [contradiction|].
    reflexivity.
  - intros Heq. apply updateFlightStatus_no_change.
    rewrite Hs. unfold status_changing.
    destruct Heq as [->| ->]; [reflexivity|].
    rewrite String.eqb_refl. apply andb_false_r.
Qed.

End FlightStatusMachine.

(** The test of the repository: Scheduled to Arrived is rejected. *)
Lemma updateFlightStatus_invalid_transition_witness :
  fst (FlightService.updateFlightStatus
         Samples.validate_flight 1000 (Some Samples.aa123) "AA123"
         (FlightService.status_request "Arrived") "System")
  = Thrown (FlightStatusError "Invalid status transition from Scheduled to Arrived"
                              "Scheduled" "Arrived"
                              ["Delayed"; "Boarding"; "Cancelled"]).
Proof.
  destruct (updateFlightStatus_invalid_transition
              Samples.validate_flight 1000 Samples.aa123 "AA123"
              (FlightService.status_request "Arrived") "System" "Arrived")
    as [H _]; [reflexivity |].
  rewrite H; [reflexivity | discriminate | discriminate |].
  simpl. intros [E|[E|[E|[]]]]; discriminate E.
Defined.

(** ** Subscription lifecycle *)

Section SubscriptionLifecycle.
Import Subscription.

Variable randomHex : nat -> string.
Variable validate : Z -> Subscription -> option string.
Variable persist : Subscription -> option JsError.

Ltac split_hook :=
  repeat match goal with
         | |- context [if ?b then _ else _] => destruct b
         | |- context [match ?x with _ => _ end] => destruct x
         end.

(** The recomputation touches [expiresAt] only. *)
Lemma recompute_expiry_frame (s : Subscription) :
  verification (recompute_expiry s) = verification s /\
  unsubscribe (recompute_expiry s) = unsubscribe s /\
  notificationStats (recompute_expiry s) = notificationStats s /\
  status (recompute_expiry s) = status s /\
  isActive (recompute_expiry s) = isActive s.
Proof. unfold recompute_expiry. split_hook; repeat split; reflexivity. Qed.

(** The save hook keeps the statistics, the status, the active flag and
    the verified and unsubscribed flags. *)
Lemma pre_save_frame (now : Z) (s : Subscription) :
  let s' := pre_save randomHex now s in
  notificationStats s' = notificationStats s /\
  status s' = status s /\
  isActive s' = isActive s /\
  isVerified (verification s') = isVerified (verification s) /\
  isUnsubscribed (unsubscribe s') = isUnsubscribed (unsubscribe s) /\
  unsubscribedAt (unsubscribe s') = unsubscribedAt (unsubscribe s) /\
  reason (unsubscribe s') = reason (unsubscribe s) /\
  feedback (unsubscribe s') = feedback (unsubscribe s).
Proof.
  unfold pre_save.
  match goal with |- context [recompute_expiry ?x] =>
    destruct (recompute_expiry_frame x) as (Hv & Hu & Hn & Hst & Ha)
  end.
  cbv zeta. rewrite Hv, Hu, Hn, Hst, Ha.
  split_hook; repeat split; reflexivity.
Qed.

(** For a document that is already stored, the hook is the recomputation. *)
Lemma pre_save_stored (now : Z) (s : Subscription) :
  isNew (tracking s) = false -> pre_save randomHex now s = recompute_expiry s.
Proof. intros H. unfold pre_save. rewrite H. reflexivity. Qed.

(** What [save()] leaves as it is in the in-memory document, whether it
    settles or rejects: the statistics, the status, the active flag, the
    verified flag and the record of the unsubscription. *)
Lemma save_frame (now : Z) (s : Subscription) :
  let s' := snd (save randomHex validate persist now s) in
  notificationStats s' = notificationStats s /\
  status s' = status s /\
  isActive s' = isActive s /\
  isVerified (verification s') = isVerified (verification s) /\
  isUnsubscribed (unsubscribe s') = isUnsubscribed (unsubscribe s) /\
  unsubscribedAt (unsubscribe s') = unsubscribedAt (unsubscribe s) /\
  reason (unsubscribe s') = reason (unsubscribe s) /\
  feedback (unsubscribe s') = feedback (unsubscribe s).
Proof.
  unfold save.
  destruct (validate now s); [repeat split; reflexivity|].
  destruct (persist _); exact (pre_save_frame now s).
Qed.

(** For a document that is already stored, [save()] keeps the verification
    fields and the unsubscribe fields as well. *)
Lemma save_stored_fields (now : Z) (s : Subscription) :
  isNew (tracking s) = false ->
  verification (snd (save randomHex validate persist now s)) = verification s /\
  unsubscribe (snd (save randomHex validate persist now s)) = unsubscribe s.
Proof.
  intros Hnew. unfold save.
  destruct (validate now s); [split; reflexivity|].
  destruct (recompute_expiry_frame s) as (Hv & Hu & _).
  destruct (persist _); simpl; rewrite (pre_save_stored now s Hnew), Hv, Hu;
    split; reflexivity.
Qed.

(** Nothing in [save()] touches the recipient address. *)
Lemma save_email (now : Z) (s : Subscription) :
  email (snd (save randomHex validate persist now s)) = email s.
Proof.
  unfold save, pre_save, recompute_expiry.
  destruct (validate now s); [reflexivity|].
  destruct (persist _); simpl; split_hook; reflexivity.
Qed.

(** [save()] settles with the in-memory document, or rejects with the
    [ValidationError], or with the error of the write. *)
Lemma save_outcome (now : Z) (s : Subscription) :
  match validate now s with
  | Some m => fst (save randomHex validate persist now s) = Thrown (Error m)
  | None =>
    match persist (pre_save randomHex now s) with
    | None => fst (save randomHex validate persist now s)
              = Returned (snd (save randomHex validate persist now s))
    | Some e => fst (save randomHex validate persist now s) = Thrown e
    end
  end.
Proof. unfold save. destruct (validate now s); [|destruct (persist _)]; reflexivity. Qed.

(** A [save()] that settles settles with the in-memory document. *)
Lemma save_returned (now : Z) (s s' : Subscription) :
  fst (save randomHex validate persist now s) = Returned s' ->
  s' = snd (save randomHex validate persist now s).
Proof.
  unfold save. destruct (validate now s); [discriminate|].
  destruct (persist _); [discriminate|]. simpl. congruence.
Qed.

(** *** History bound *)

Lemma slice_last_length {A} (n : nat) (l : list A) :
  (n <= length l)%nat -> length (slice_last n l) = n.
Proof. intros H. unfold slice_last. rewrite length_drop. lia. Qed.

Lemma slice_last_suffix {A} (n : nat) (l : list A) :
  exists dropped, l = dropped ++ slice_last n l.
Proof.
  exists (take (length l - n) l). unfold slice_last.
  symmetry. apply take_drop.
Qed.

(** C5: a history of at most 100 entries has at most 100 entries after
    [addNotification]; when the appended record takes the length over 100,
    exactly 50 entries remain and they are the end of the appended history,
    in the same order (the entries dropped are the oldest); otherwise the
    history is the old one with the record appended. *)
Theorem addNotification_history_bound (now : Z) (type method st : string)
        (mid err : option string) (s : Subscription) :
  let h := notificationHistory (notificationStats s) in
  let pushed := h ++ [mkRecord type method st mid err] in
  let h' := notificationHistory
              (notificationStats
                 (snd (addNotification randomHex validate persist now type method st mid err s))) in
  ((length h <= 100)%nat -> (length h' <= 100)%nat) /\
  ((100 < length pushed)%nat ->
   length h' = 50%nat /\ exists dropped, pushed = dropped ++ h') /\
  ((length pushed <= 100)%nat -> h' = pushed).
Proof.
  intros h pushed h'. subst h'. unfold addNotification.
  match goal with
  | |- context [save _ _ _ _ ?d] => destruct (save_frame now d) as (Hn & _)
  end.
  cbv zeta in Hn. rewrite Hn. simpl.
  fold h. fold pushed.
  assert (Hlen : length pushed = S (length h))
    by (subst pushed; rewrite length_app; simpl; lia).
  destruct (Nat.ltb_spec 100 (length pushed)) as [Hgt|Hle].
  - split; [|split].
    + intros _. rewrite slice_last_length; lia.
    + intros _. split; [apply slice_last_length; lia | apply slice_last_suffix].
    + lia.
  - split; [|split].
    + intros _. lia.
    + lia.
    + reflexivity.
Qed.

(** *** Verification *)

(** The first check of [verify] decides alone. *)
Lemma verify_already_verified (now : Z) (tok : option string) (s : Subscription) :
  isVerified (verification s) = true ->
  verify randomHex validate persist now tok s
  = (Thrown (Error "Subscription is already verified"), s).
Proof. intros H. unfold verify. rewrite H. reflexivity. Qed.

(** C6: when [verify] succeeds the document is verified (and, for a stored
    document, its token and token expiry are cleared), and every later
    [verify], with any token and at any time, throws "Subscription is
    already verified" and changes nothing; on a verified document that
    error is thrown whatever the token expiry, the attempt count and the
    token presented are. *)
Theorem verify_once :
  (forall (now : Z) (tok : option string) (s s' : Subscription),
      fst (verify randomHex validate persist now tok s) = Returned s' ->
      let v := snd (verify randomHex validate persist now tok s) in
      s' = v /\
      isVerified (verification v) = true /\
      (isNew (tracking s) = false ->
       verificationToken (verification v) = None /\
       verificationTokenExpires (verification v) = None) /\
      forall (now' : Z) (tok' : option string),
        verify randomHex validate persist now' tok' v
        = (Thrown (Error "Subscription is already verified"), v)) /\
  (forall (now : Z) (tok : option string) (s : Subscription),
      isVerified (verification s) = true ->
      verify randomHex validate persist now tok s
      = (Thrown (Error "Subscription is already verified"), s)).
Proof.
  split; [|apply verify_already_verified].
  intros now tok s s' Hok v. subst v. revert Hok. unfold verify.
  destruct (isVerified (verification s)); [discriminate|].
  destruct (isVerificationExpired now s); [discriminate|].
  destruct (verificationAttempts (verification s) >=? 5); [discriminate|].
  destruct (bool_decide (verificationToken (verification s) = tok)); simpl;
    [|unfold bind; destruct (fst (save _ _ _ _ _)); discriminate].
  match goal with
  | |- context [save _ _ _ _ ?d] =>
    intros Hok;
    destruct (save_frame now d) as (_ & _ & _ & Hver & _);
    pose proof (save_stored_fields now d) as Hstored
  end.
  cbv zeta in Hver.
  assert (Hverified :
            isVerified (verification
                          (snd (save randomHex validate persist now
                                     (with_status ACTIVE (isActive s)
                                        (with_verification
                                           (mkVerification true None None (Some now)
                                              (verificationAttempts (verification s)))
                                           s))))) = true)
    by (rewrite Hver; reflexivity).
  split; [|split; [exact Hverified|split]].
  - exact (save_returned _ _ _ Hok).
  - intros Hnew. destruct (Hstored Hnew) as (Hv & _).
    rewrite Hv. split; reflexivity.
  - intros now' tok'. apply verify_already_verified. exact Hverified.
Qed.

(** *** Consent-bound expiry *)

Lemma pre_save_expiry_set (now : Z) (s : Subscription) (e : Z) :
  expiresAt s = Some e ->
  expiresAt (pre_save randomHex now s) = expiresAt (recompute_expiry s).
Proof.
  intros He. unfold pre_save.
  destruct (isNew (tracking s)); simpl;
    repeat match goal with
           | |- context [negb (truthy ?t)] => destruct (negb (truthy t)); simpl
           end;
    rewrite ?He; simpl; unfold recompute_expiry; simpl; rewrite ?He;
    split_hook; reflexivity.
Qed.

Lemma recompute_expiry_tightens (s : Subscription) (e : Z) :
  expiresAt s = Some e ->
  exists e', expiresAt (recompute_expiry s) = Some e' /\ e' <= e.
Proof.
  intros He. unfold recompute_expiry. rewrite He.
  destruct (_ || _); [|exists e; split; [exact He|lia]].
  destruct (gdprExpiry (gdprCompliance s)) as [g|]; [|exists e; split; [exact He|lia]].
  destruct (Z.ltb_spec g e).
  - exists g. split; [reflexivity|lia].
  - exists e. split; [exact He|lia].
Qed.

(** C7: in the recomputation that a change of the consent date or of the
    retention days triggers, [expiresAt] changes only to
    [consentDate + retentionDays] days, and only when it was unset or that
    date is strictly earlier than it; it is adopted in exactly those cases;
    so a set [expiresAt] never increases, neither in the recomputation nor
    in the whole save hook. *)
Theorem expiry_only_tightens (now : Z) (s : Subscription) :
  (expiresAt (recompute_expiry s) <> expiresAt s ->
   modified_dataRetentionDays (tracking s) || modified_consentDate (tracking s) = true /\
   exists c d : Z,
     consentDate (gdprCompliance s) = Some c /\
     dataRetentionDays (gdprCompliance s) = Some d /\
     expiresAt (recompute_expiry s) = Some (c + d * (24 * 60 * 60 * 1000)) /\
     match expiresAt s with
     | None => True
     | Some e => c + d * (24 * 60 * 60 * 1000) < e
     end) /\
  (forall g : Z,
      modified_dataRetentionDays (tracking s) || modified_consentDate (tracking s) = true ->
      gdprExpiry (gdprCompliance s) = Some g ->
      match expiresAt s with
      | None => True
      | Some e => g < e
      end ->
      expiresAt (recompute_expiry s) = Some g) /\
  (forall e : Z, expiresAt s = Some e ->
                 exists e', expiresAt (recompute_expiry s) = Some e' /\ e' <= e) /\
  (forall e : Z, expiresAt s = Some e ->
                 exists e', expiresAt (pre_save randomHex now s) = Some e' /\ e' <= e).
Proof.
  split; [|split; [|split]].
  - unfold recompute_expiry, gdprExpiry.
    destruct (_ || _); [|congruence].
    destruct (dataRetentionDays (gdprCompliance s)) as [d|]; [|congruence].
    destruct (consentDate (gdprCompliance s)) as [c|]; [|congruence].
    destruct (d =? 0); [congruence|].
    destruct (expiresAt s) as [e|] eqn:He.
    + destruct (Z.ltb_spec (c + d * day_ms) e); [|congruence].
      intros _. split; [reflexivity|]. exists c, d.
      repeat (split; [reflexivity|]). assumption.
    + intros _. split; [reflexivity|]. exists c, d.
      repeat (split; [reflexivity|]). exact I.
  - intros g Hm Hg Hcmp. unfold recompute_expiry. rewrite Hm, Hg.
    destruct (expiresAt s) as [e|]; [|reflexivity].
    destruct (Z.ltb_spec g e); [reflexivity|lia].
  - apply recompute_expiry_tightens.
  - intros e He. rewrite (pre_save_expiry_set now s e He).
    now apply recompute_expiry_tightens.
Qed.

(** *** Unsubscription *)

(** The document as the assignments of [unsubscribeUser] leave it, before
    [save()]. *)
Lemma unsubscribeUser_assigns (now : Z) (reason_arg feedback_arg : option string)
      (s : Subscription) :
  isUnsubscribed (unsubscribe s) = false ->
  unsubscribeUser randomHex validate persist now None reason_arg feedback_arg s
  = save randomHex validate persist now
         (with_status UNSUBSCRIBED false
            (with_unsubscribe
               (mkUnsubscribe (token (unsubscribe s)) true (Some now)
                              (Some (trim (default "user_request" reason_arg)))
                              (Some (trim (default "" feedback_arg)))) s)).
Proof. intros Hnot. unfold unsubscribeUser. rewrite Hnot. reflexivity. Qed.

(** C10 (amended): [unsubscribeUser] called without a token on a
    subscription that is not unsubscribed passes both checks whoever calls
    it (the operation takes no actor): the document gets
    [isUnsubscribed = true], the timestamp, the trimmed reason and feedback
    (or their defaults), status [unsubscribed] and [isActive = false].  The
    call succeeds with that document exactly when [save()] accepts it; it
    rejects with the [ValidationError] when the changed document, [d] below,
    fails the schema validation, and otherwise with the error of the store
    when the write is rejected. *)
Theorem unsubscribeUser_without_token (now : Z) (reason_arg feedback_arg : option string)
        (s : Subscription) :
  isUnsubscribed (unsubscribe s) = false ->
  let r := unsubscribeUser randomHex validate persist now None reason_arg feedback_arg s in
  let d := with_status UNSUBSCRIBED false
             (with_unsubscribe
                (mkUnsubscribe (token (unsubscribe s)) true (Some now)
                               (Some (trim (default "user_request" reason_arg)))
                               (Some (trim (default "" feedback_arg)))) s) in
  isUnsubscribed (unsubscribe (snd r)) = true /\
  unsubscribedAt (unsubscribe (snd r)) = Some now /\
  reason (unsubscribe (snd r)) = Some (trim (default "user_request" reason_arg)) /\
  feedback (unsubscribe (snd r)) = Some (trim (default "" feedback_arg)) /\
  status (snd r) = UNSUBSCRIBED /\
  isActive (snd r) = false /\
  match validate now d with
  | Some m => fst r = Thrown (Error m)
  | None =>
    match persist (pre_save randomHex now d) with
    | Some e => fst r = Thrown e
    | None => fst r = Returned (snd r)
    end
  end.
Proof.
  intros Hnot r d. subst r.
  rewrite (unsubscribeUser_assigns now reason_arg feedback_arg s Hnot). fold d.
  destruct (save_frame now d) as (_ & Hst & Ha & _ & H1 & H2 & H3 & H4).
  cbv zeta in Hst, Ha, H1, H2, H3, H4.
  rewrite Hst, Ha, H1, H2, H3, H4.
  repeat (split; [reflexivity|]).
  exact (save_outcome now d).
Qed.

End SubscriptionLifecycle.

Lemma addNotification_history_bound_witness :
  length (Subscription.notificationHistory
            (Subscription.notificationStats
               (snd (Subscription.addNotification
                       Samples.randomHex Samples.validate_utc Samples.persist_ok 1000
                       "status_changes" "email" "sent" (Some "console-1") None
                       Samples.frequent_flyer)))) = 50%nat.
Proof.
  destruct (addNotification_history_bound
              Samples.randomHex Samples.validate_utc Samples.persist_ok 1000
              "status_changes" "email" "sent" (Some "console-1") None
              Samples.frequent_flyer) as (_ & H & _).
  apply H. vm_compute. lia.
Defined.

(** Scenario 5 of the specification. *)
Lemma verify_once_witness :
  let verified :=
    snd (Subscription.verify Samples.randomHex Samples.validate_utc Samples.persist_ok 1000 (Some "c0ffee")
                             (Samples.passenger Samples.default_prefs)) in
  Subscription.verify Samples.randomHex Samples.validate_utc Samples.persist_ok 2000 (Some "c0ffee") verified
  = (Thrown (Error "Subscription is already verified"), verified).
Proof.
  intros verified.
  destruct (verify_once Samples.randomHex Samples.validate_utc Samples.persist_ok) as [H _].
  destruct (H 1000 (Some "c0ffee") (Samples.passenger Samples.default_prefs) verified)
    as (_ & _ & _ & H2); [reflexivity|].
  apply H2.
Defined.

Lemma expiry_only_tightens_witness :
  exists e', Subscription.expiresAt
               (Subscription.pre_save Samples.randomHex 5000 Samples.retention_raised)
             = Some e' /\ e' <= 259200000.
Proof.
  destruct (expiry_only_tightens Samples.randomHex 5000 Samples.retention_raised)
    as (_ & _ & _ & H).
  apply H. reflexivity.
Defined.

(** C10, as stated, fails: a subscription that is not unsubscribed, whose
    flight was ten days ago; the call without a token passes both checks,
    and [save()] rejects the document, because [validateFutureDate] runs on
    every save.  So does a call on the day of the flight that gives a reason
    outside the enumeration of [unsubscribe.reason]. *)
Lemma unsubscribeUser_without_token_rejected :
  Subscription.isUnsubscribed
    (Subscription.unsubscribe (Samples.passenger Samples.default_prefs)) = false /\
  fst (Subscription.unsubscribeUser
         Samples.randomHex Samples.validate_utc Samples.persist_ok 892800000
         None None None (Samples.passenger Samples.default_prefs))
  = Thrown (Error "Subscription validation failed: flightDate: Flight date must be today or in the future") /\
  fst (Subscription.unsubscribeUser
         Samples.randomHex Samples.validate_utc Samples.persist_ok 1000
         None (Some "moved house") None (Samples.passenger Samples.default_prefs))
  = Thrown (Error "Subscription validation failed: unsubscribe.reason: `moved house` is not a valid enum value for path `unsubscribe.reason`.").
Proof. repeat split; reflexivity. Qed.

(** The call of the repository's test, with a padded feedback. *)
Lemma unsubscribeUser_without_token_witness :
  let r := Subscription.unsubscribeUser
             Samples.randomHex Samples.validate_utc Samples.persist_ok 1000 None
             (Some "admin_action") (Some " Compliance requirement ")
             (Samples.passenger Samples.default_prefs) in
  Subscription.isUnsubscribed (Subscription.unsubscribe (snd r)) = true /\
  Subscription.feedback (Subscription.unsubscribe (snd r))
  = Some "Compliance requirement" /\
  Subscription.status (snd r) = Subscription.UNSUBSCRIBED /\
  Subscription.isActive (snd r) = false /\
  fst r = Returned (snd r).
Proof.
  intros r.
  destruct (unsubscribeUser_without_token
              Samples.randomHex Samples.validate_utc Samples.persist_ok 1000
              (Some "admin_action") (Some " Compliance requirement ")
              (Samples.passenger Samples.default_prefs))
    as (H1 & _ & _ & H4 & H5 & H6 & H7); [reflexivity|].
  repeat split; assumption.
Defined.

(** ** Notification dispatch *)

Section NotificationDispatch.
Import Subscription NotificationService.

(** What [shouldNotifyStatusChange] computes: after its first check every
    disjunction it returns has a true right-hand side. *)
Lemma shouldNotifyStatusChange_eq (s : Subscription) (oldStatus newStatus : string) :
  shouldNotifyStatusChange s oldStatus newStatus
  = enabled status_changes s && negb (String.eqb oldStatus newStatus).
Proof.
  unfold shouldNotifyStatusChange.
  destruct (enabled status_changes s); simpl; [|reflexivity].
  destruct (String.eqb oldStatus newStatus); simpl; [reflexivity|].
  rewrite !orb_true_r.
  repeat match goal with |- context [if ?b then _ else _] => destruct b end; reflexivity.
Qed.

(** C3: the code at the input the claim names.  The subscription has
    [cancellations.enabled = true] and [status_changes.enabled = false]; on
    Scheduled to Cancelled, [shouldNotifyStatusChange] answers false (the
    claim says true), and the dispatch sends nothing and records nothing. *)
Theorem cancellation_preference_ignored :
  enabled cancellations (Samples.passenger Samples.cancellations_only) = true /\
  enabled status_changes (Samples.passenger Samples.cancellations_only) = false /\
  shouldNotifyStatusChange (Samples.passenger Samples.cancellations_only)
                           "Scheduled" "Cancelled" = false /\
  fst (fst (notifyStatusChange
              Samples.randomHex Samples.validate_utc Samples.persist_ok
              (fun _ _ => Returned [Samples.passenger Samples.cancellations_only])
              Samples.console Samples.one_per_hour 1000
              Samples.aa123_cancelled "Scheduled"))
  = Returned (Processed 0 0 []).
Proof. repeat split; vm_compute; reflexivity. Qed.

(** *** Rate limiting *)

Lemma append_cancel (p a b : string) : p +:+ a = p +:+ b -> a = b.
Proof.
  induction p as [|c p IH]; simpl; intros H; [exact H|].
  injection H as H. exact (IH H).
Qed.

Lemma hourlyKey_dailyKey (email : string) (now now' : Z) :
  hourlyKey email now <> dailyKey email now'.
Proof.
  unfold hourlyKey, dailyKey. intros H.
  apply append_cancel in H. discriminate H.
Qed.

(** What a call of [updateRateLimit] would do to the next check: once the
    hourly count reaches [maxPerHour], [checkRateLimit] answers false. *)
Lemma updateRateLimit_then_check (svc : Service) (now : Z) (email : string) :
  maxPerHour (rateLimit (config svc)) <= count svc (hourlyKey email now) + 1 ->
  checkRateLimit (updateRateLimit svc now email) now email = false.
Proof.
  intros H. unfold checkRateLimit, updateRateLimit, count at 1. simpl.
  rewrite lookup_insert_ne by (apply not_eq_sym, hourlyKey_dailyKey).
  rewrite lookup_insert_eq. simpl.
  destruct (Z.geb_spec (count svc (hourlyKey email now) + 1)
                       (maxPerHour (rateLimit (config svc)))); [reflexivity|lia].
Qed.

Section WithCollaborators.

Variable randomHex : nat -> string.
Variable validate : Z -> Subscription -> option string.
Variable persist : Subscription -> option JsError.
Variable findActiveByFlight : string -> option Z -> Outcome (list Subscription).
Variable sendEmail : Subscription -> Outcome EmailResult.

Local Abbreviation process := (process randomHex validate persist sendEmail).
Local Abbreviation notifyStatusChange :=
  (notifyStatusChange randomHex validate persist findActiveByFlight sendEmail).

(** The dispatch never writes to the service object, so it never records a
    send in the rate-limit store. *)
Lemma notifyStatusChange_service_unchanged svc now flight oldStatus :
  snd (fst (notifyStatusChange svc now flight oldStatus)) = svc.
Proof. reflexivity. Qed.

(** The outer handler leaves no exception through. *)
Lemma notifyStatusChange_returns svc now flight oldStatus :
  exists result, fst (fst (notifyStatusChange svc now flight oldStatus)) = Returned result.
Proof.
  unfold NotificationService.notifyStatusChange. simpl.
  destruct (fst (notifyStatusChange_try _ _ _ _ _ _ _ _ _)); simpl; eauto.
Qed.

(** One iteration only appends to [details], never lowers a counter, and
    always accounts for its subscription. *)
Lemma process_keeps svc now oldStatus newStatus (b : Batch) (s : Subscription) :
  let b' := process svc now oldStatus newStatus b s in
  (exists more, details b' = details b ++ more) /\
  sent b <= sent b' /\ failed b <= failed b' /\
  length (documents b') = S (length (documents b)).
Proof.
  unfold NotificationService.process, record_error.
  repeat match goal with
         | |- context [if ?c then _ else _] => destruct c; simpl
         | |- context [match fst ?r with _ => _ end] => destruct (fst r); simpl
         end;
    rewrite ?length_app; simpl;
    (split; [first [ exists []; rewrite app_nil_r; reflexivity
                   | eexists; reflexivity ]
            | repeat split; lia ]).
Qed.

Lemma fold_process_keeps svc now oldStatus newStatus (l : list Subscription) :
  forall b : Batch,
    let b' := fold_left (process svc now oldStatus newStatus) l b in
    (exists more, details b' = details b ++ more) /\
    sent b <= sent b' /\ failed b <= failed b' /\
    length (documents b') = (length (documents b) + length l)%nat.
Proof.
  induction l as [|s l IH]; intros b; simpl.
  - split; [exists []; now rewrite app_nil_r|]. repeat split; lia.
  - destruct (IH (process svc now oldStatus newStatus b s)) as ([m2 E2] & S2 & F2 & D2).
    destruct (process_keeps svc now oldStatus newStatus b s) as ([m1 E1] & S1 & F1 & D1).
    cbv zeta in *. split; [|repeat split; lia].
    exists (m1 ++ m2). rewrite E2, E1, app_assoc. reflexivity.
Qed.

(** One iteration adds its own contribution to the batch, whatever the
    batch holds already. *)
Lemma process_additive svc now oldStatus newStatus (b : Batch) (s : Subscription) :
  let b' := process svc now oldStatus newStatus b s in
  let own := process svc now oldStatus newStatus (mkBatch 0 0 [] []) s in
  sent b' = sent b + sent own /\
  failed b' = failed b + failed own /\
  details b' = details b ++ details own /\
  documents b' = documents b ++ documents own.
Proof.
  unfold NotificationService.process, record_error.
  repeat match goal with
         | |- context [if ?c then _ else _] => destruct c; simpl
         | |- context [match fst ?r with _ => _ end] => destruct (fst r); simpl
         end;
    rewrite ?app_nil_r; repeat split; first [reflexivity | lia].
Qed.

(** So does a run of iterations: the subscriptions of a batch are processed
    as they would be on their own. *)
Lemma fold_process_additive svc now oldStatus newStatus (l : list Subscription) :
  forall b : Batch,
    let b' := fold_left (process svc now oldStatus newStatus) l b in
    let own := fold_left (process svc now oldStatus newStatus) l (mkBatch 0 0 [] []) in
    sent b' = sent b + sent own /\
    failed b' = failed b + failed own /\
    details b' = details b ++ details own /\
    documents b' = documents b ++ documents own.
Proof.
  induction l as [|s l IH]; intros b; simpl.
  - rewrite !app_nil_r. repeat split; lia.
  - destruct (IH (process svc now oldStatus newStatus b s)) as (S1 & F1 & D1 & X1).
    destruct (IH (process svc now oldStatus newStatus (mkBatch 0 0 [] []) s))
      as (S2 & F2 & D2 & X2).
    destruct (process_additive svc now oldStatus newStatus b s) as (S3 & F3 & D3 & X3).
    cbv zeta in *.
    rewrite S1, F1, D1, X1, S2, F2, D2, X2, S3, F3, D3, X3, !app_assoc.
    repeat split; lia.
Qed.

(** A [save()] that rejects while the delivery to one subscription is
    recorded: the handler of that iteration records the error. *)
Lemma process_recording_rejected svc now oldStatus newStatus (b : Batch)
      (s : Subscription) (e : JsError) :
  let result := sendStatusChangeEmail sendEmail s in
  shouldNotifyStatusChange s oldStatus newStatus = true ->
  checkRateLimit svc now (email s) = true ->
  fst (if success result
       then addNotification randomHex validate persist now STATUS_CHANGES EMAIL "sent"
                            (messageId result) None s
       else addNotification randomHex validate persist now STATUS_CHANGES EMAIL "failed"
                            None (error result) s) = Thrown e ->
  let b' := process svc now oldStatus newStatus b s in
  details b' = details b ++ [mkDetail (email s) "error" None (Some (message_of e)) None] /\
  sent b' = sent b + (if success result then 1 else 0) /\
  failed b' = failed b + (if success result then 1 else 2) /\
  length (documents b') = S (length (documents b)).
Proof.
  intros result Hn Hr Hrej. subst result. unfold NotificationService.process.
  rewrite Hn, Hr. simpl. rewrite Hrej. unfold record_error.
  destruct (success (sendStatusChangeEmail sendEmail s)); simpl;
    unfold addNotification; rewrite save_email; simpl; rewrite length_app; simpl;
    repeat split; first [reflexivity | lia].
Qed.

(** C8 (amended): [notifyStatusChange] never throws.  When the subscription
    query throws, it returns the failure object
    [{success: false, error, notificationsSent: 0, notificationsFailed: 0}],
    and no subscription has been processed.  When the [save()] that records
    the delivery to one subscription of the batch rejects, nothing is
    aborted: the call returns the processed result, in which the details and
    counters of the subscriptions before it are kept, the rejection is one
    detail with status ['error'] and is counted as failed, the subscriptions
    after it contribute what they contribute on their own, and every
    subscription of the batch is accounted for. *)
Theorem notifyStatusChange_outage svc now flight oldStatus :
  (exists result, fst (fst (notifyStatusChange svc now flight oldStatus)) = Returned result) /\
  (forall e : JsError,
      isEnabled svc = true ->
      findActiveByFlight (Flight.flightNumber flight)
                         (Flight.scheduled (Flight.departure flight)) = Thrown e ->
      notifyStatusChange svc now flight oldStatus
      = (Returned (Failure (message_of e)), svc, [])) /\
  (forall (l1 l2 : list Subscription) (s : Subscription) (e : JsError),
      let newStatus := Flight.FLIGHT_STATUSES (Flight.status_current flight) in
      let result := sendStatusChangeEmail sendEmail s in
      let before :=
        fold_left (process svc now oldStatus newStatus) l1 (mkBatch 0 0 [] []) in
      let rest :=
        fold_left (process svc now oldStatus newStatus) l2 (mkBatch 0 0 [] []) in
      isEnabled svc = true ->
      findActiveByFlight (Flight.flightNumber flight)
                         (Flight.scheduled (Flight.departure flight))
      = Returned (l1 ++ s :: l2) ->
      shouldNotifyStatusChange s oldStatus newStatus = true ->
      checkRateLimit svc now (email s) = true ->
      fst (if success result
           then addNotification randomHex validate persist now STATUS_CHANGES EMAIL "sent"
                                (messageId result) None s
           else addNotification randomHex validate persist now STATUS_CHANGES EMAIL "failed"
                                None (error result) s) = Thrown e ->
      fst (fst (notifyStatusChange svc now flight oldStatus))
      = Returned
          (Processed
             (sent before + (if success result then 1 else 0) + sent rest)
             (failed before + (if success result then 1 else 2) + failed rest)
             (details before
                ++ [mkDetail (email s) "error" None (Some (message_of e)) None]
                ++ details rest)) /\
      length (snd (notifyStatusChange svc now flight oldStatus))
      = length (l1 ++ s :: l2)).
Proof.
  split; [apply notifyStatusChange_returns|]. split.
  - intros e Hen Hq. unfold NotificationService.notifyStatusChange, notifyStatusChange_try.
    rewrite Hen, Hq. reflexivity.
  - intros l1 l2 s e newStatus result before rest Hen Hq Hn Hr Hrej.
    unfold NotificationService.notifyStatusChange, notifyStatusChange_try.
    rewrite Hen, Hq. simpl negb. cbv iota.
    assert (Hlen : (length (l1 ++ s :: l2) =? 0)%nat = false)
      by (rewrite length_app; simpl; apply Nat.eqb_neq; lia).
    rewrite Hlen. fold newStatus. simpl fst. simpl snd.
    rewrite fold_left_app. simpl fold_left. fold before.
    destruct (fold_process_additive svc now oldStatus newStatus l2
                (process svc now oldStatus newStatus before s)) as (S1 & F1 & D1 & X1).
    destruct (process_recording_rejected svc now oldStatus newStatus before s e Hn Hr Hrej)
      as (D2 & S2 & F2 & X2).
    destruct (fold_process_keeps svc now oldStatus newStatus l1 (mkBatch 0 0 [] []))
      as (_ & _ & _ & X3).
    destruct (fold_process_keeps svc now oldStatus newStatus l2
                (process svc now oldStatus newStatus before s)) as (_ & _ & _ & X4).
    cbv zeta in *. fold rest in S1, F1, D1. fold result in S2, F2.
    split.
    + rewrite S1, F1, D1, D2, S2, F2, <- app_assoc. reflexivity.
    + rewrite X4, X2. fold before in X3. rewrite X3, length_app. simpl. lia.
Qed.

End WithCollaborators.

(** C4: the code at the input the claim names.  With [maxPerHour = 1] and
    one matching recipient whose preferences allow the notification, two
    dispatches in the same clock hour both send: the first leaves the
    rate-limit store as it was, so the second call's detail has status
    ['sent'] (the claim says ['rate_limited']) and its sent count is 1 (the
    claim says it is not incremented). *)
Theorem second_dispatch_not_rate_limited :
  let first :=
    notifyStatusChange Samples.randomHex Samples.validate_utc Samples.persist_ok
                       (fun _ _ => Returned [Samples.passenger Samples.default_prefs])
                       Samples.console Samples.one_per_hour 1000
                       Samples.aa123_boarding "Scheduled" in
  let second :=
    notifyStatusChange Samples.randomHex Samples.validate_utc Samples.persist_ok
                       (fun _ _ => Returned (snd first))
                       Samples.console (snd (fst first)) 2000
                       Samples.aa123_boarding "Scheduled" in
  let sent_detail :=
    mkDetail "passenger@example.com" "sent" (Some "console-1") None None in
  hourlyKey "passenger@example.com" 1000 = hourlyKey "passenger@example.com" 2000 /\
  fst (fst first) = Returned (Processed 1 0 [sent_detail]) /\
  rateLimitStore (snd (fst first)) = rateLimitStore Samples.one_per_hour /\
  fst (fst second) = Returned (Processed 1 0 [sent_detail]) /\
  checkRateLimit
    (updateRateLimit Samples.one_per_hour 1000 "passenger@example.com")
    2000 "passenger@example.com" = false.
Proof. repeat split; vm_compute; reflexivity. Qed.

(** C8, as stated, fails: with the subscription query throwing, the dispatch
    does not throw; it returns a failure object. *)
Lemma query_outage_is_returned :
  let r := notifyStatusChange Samples.randomHex Samples.validate_utc Samples.persist_ok
                              (fun _ _ => Thrown (Error "connection lost"))
                              Samples.console Samples.one_per_hour 1000
                              Samples.aa123_boarding "Scheduled" in
  is_thrown (fst (fst r)) = false /\
  fst (fst r) = Returned (Failure "connection lost").
Proof. split; reflexivity. Qed.

End NotificationDispatch.

(** A batch of three: the subscription in the middle is to yesterday's
    flight, so the [save()] that records its delivery is rejected by the
    validation; the subscriptions around it are delivered and recorded. *)
Lemma notifyStatusChange_outage_witness :
  fst (fst (NotificationService.notifyStatusChange
              Samples.randomHex Samples.validate_utc Samples.persist_ok
              (fun _ _ => Returned [Samples.passenger Samples.default_prefs;
                                    Samples.late_passenger;
                                    Samples.passenger Samples.default_prefs])
              Samples.console Samples.one_per_hour 1000 Samples.aa123_boarding "Scheduled"))
  = Returned
      (NotificationService.Processed 3 1
         [NotificationService.mkDetail "passenger@example.com" "sent" (Some "console-1")
                                       None None;
          NotificationService.mkDetail
            "late@example.com" "error" None
            (Some "Subscription validation failed: flightDate: Flight date must be today or in the future")
            None;
          NotificationService.mkDetail "passenger@example.com" "sent" (Some "console-1")
                                       None None]).
Proof.
  destruct (notifyStatusChange_outage
              Samples.randomHex Samples.validate_utc Samples.persist_ok
              (fun _ _ => Returned [Samples.passenger Samples.default_prefs;
                                    Samples.late_passenger;
                                    Samples.passenger Samples.default_prefs])
              Samples.console Samples.one_per_hour 1000
              Samples.aa123_boarding "Scheduled") as (_ & _ & H).
  destruct (H [Samples.passenger Samples.default_prefs]
              [Samples.passenger Samples.default_prefs]
              Samples.late_passenger
              (Error "Subscription validation failed: flightDate: Flight date must be today or in the future"))
    as (Hr & _); [reflexivity | reflexivity | reflexivity | reflexivity | reflexivity |].
  exact Hr.
Defined.

(** ** Retry policy *)

Section RetryPolicy.
Import NotificationService.

Variable cfg : Config.
Variable sendEmail_at : Z -> Outcome EmailResult.

Lemma backoff_schedule_nil (first : Z) : backoff_schedule cfg first 0 = [].
Proof. reflexivity. Qed.

Lemma backoff_schedule_cons (first n : Z) :
  0 <= n ->
  backoff_schedule cfg first (n + 1)
  = [Wait (retryDelay cfg * first); Send first] ++ backoff_schedule cfg (first + 1) n.
Proof.
  intros Hn. unfold backoff_schedule.
  rewrite seqZ_cons by lia. simpl.
  replace (Z.pred (n + 1)) with n by lia.
  replace (Z.succ first) with (first + 1) by lia.
  reflexivity.
Qed.

Lemma backoff_schedule_one (first : Z) :
  backoff_schedule cfg first 1 = [Wait (retryDelay cfg * first); Send first].
Proof. reflexivity. Qed.

(** The tries of one call: [n] of them, numbered from [attempt], and the
    value the promise resolves with. *)
Lemma retryFailedNotification_schedule (attempt : Z) :
  exists (n : Z) (result : EmailResult),
    retryFailedNotification cfg sendEmail_at attempt
    = (Returned result, backoff_schedule cfg attempt n) /\
    0 <= n <= Z.max 0 (retryAttempts cfg + 1 - attempt) /\
    ((forall k, attempt <= k <= retryAttempts cfg -> send_failed (sendEmail_at k)) ->
     success result = false /\ n = Z.max 0 (retryAttempts cfg + 1 - attempt)).
Proof.
  funelim (retryFailedNotification cfg sendEmail_at attempt).
  - exists 0. eexists. split; [reflexivity|]. split; [lia|].
    intros _. split; [reflexivity|lia].
  - exists 1. exists result. split; [|split; [lia|]].
    + rewrite backoff_schedule_one. reflexivity.
    + intros Hall. specialize (Hall attempt ltac:(lia)).
      match goal with
      | E : sendEmail_at attempt = Returned _ |- _ => rewrite E in Hall
      end.
      simpl in Hall. congruence.
  - match goal with
    | IH : exists _ _, _ |- _ => destruct IH as (m & res & Hrun & Hm & Hall)
    end.
    exists (m + 1), res. split; [|split; [lia|]].
    + rewrite Hrun. unfold after. simpl fst. simpl snd.
      rewrite (backoff_schedule_cons attempt m) by lia. reflexivity.
    + intros Hfail. destruct Hall as [Hs Hcount]; [intros k Hk; apply Hfail; lia|].
      split; [exact Hs|lia].
  - match goal with
    | IH : exists _ _, _ |- _ => destruct IH as (m & res & Hrun & Hm & Hall)
    end.
    exists (m + 1), res. split; [|split; [lia|]].
    + rewrite Hrun. unfold after. simpl fst. simpl snd.
      rewrite (backoff_schedule_cons attempt m) by lia. reflexivity.
    + intros Hfail. destruct Hall as [Hs Hcount]; [intros k Hk; apply Hfail; lia|].
      split; [exact Hs|lia].
  - exists 1. eexists. split; [|split; [lia|]].
    + rewrite backoff_schedule_one. reflexivity.
    + intros _. split; [reflexivity|lia].
Qed.

(** C9: a retry started at [attempt] (1 by default) settles, for every
    transport and configuration, with a returned result after [n] tries,
    [n <= max 0 (retryAttempts + 1 - attempt)] (at most [retryAttempts] from
    attempt 1); the tries are numbered consecutively and each is preceded by
    a wait of [retryDelay * attemptNumber]; and when every send fails, all
    those tries are used and the value returned has [success = false]. *)
Theorem retryFailedNotification_bounded (attempt : Z) :
  exists (n : Z) (result : EmailResult),
    retryFailedNotification cfg sendEmail_at attempt
    = (Returned result, backoff_schedule cfg attempt n) /\
    0 <= n <= Z.max 0 (retryAttempts cfg + 1 - attempt) /\
    (attempt = 1 -> n <= Z.max 0 (retryAttempts cfg)) /\
    ((forall k, attempt <= k <= retryAttempts cfg -> send_failed (sendEmail_at k)) ->
     success result = false /\ n = Z.max 0 (retryAttempts cfg + 1 - attempt)).
Proof.
  destruct (retryFailedNotification_schedule attempt) as (n & result & Hrun & Hn & Hall).
  exists n, result. repeat split; try assumption; try lia; apply Hall; assumption.
Qed.

End RetryPolicy.

(** Three tries against a transport that is down, waits of 5, 10 and 15
    minutes, then a returned failure. *)
Lemma retryFailedNotification_bounded_witness :
  exists result,
    NotificationService.retryFailedNotification
      (NotificationService.config Samples.one_per_hour) Samples.transport_down 1
    = (Returned result,
       [NotificationService.Wait 300000; NotificationService.Send 1;
        NotificationService.Wait 600000; NotificationService.Send 2;
        NotificationService.Wait 900000; NotificationService.Send 3]) /\
    NotificationService.success result = false.
Proof.
  destruct (retryFailedNotification_bounded
              (NotificationService.config Samples.one_per_hour) Samples.transport_down 1)
    as (n & result & Hrun & _ & _ & Hall).
  destruct Hall as [Hs Hcount]; [intros k _; exact I|].
  exists result. split; [|exact Hs].
  rewrite Hrun, Hcount. reflexivity.
Defined.

(** * Further properties *)

(** ** Flight document and status machine *)

Section FlightDocument.
Import Flight FlightService.

Lemma transition_lowers (a b : FlightStatus) :
  validateStatusTransition a (FLIGHT_STATUSES b) = true ->
  (remaining_transitions b < remaining_transitions a)%nat.
Proof. destruct a, b; vm_compute; intros H; first [discriminate H | lia]. Qed.

Lemma valid_path_bound (path : list FlightStatus) :
  forall from : FlightStatus,
    valid_path from path = true ->
    (length path <= remaining_transitions from)%nat /\
    Forall (fun s => (remaining_transitions s < remaining_transitions from)%nat) path.
Proof.
  induction path as [|s rest IH]; intros from H; simpl in *.
  - split; [lia | constructor].
  - apply andb_true_iff in H as [Hstep Hrest].
    apply transition_lowers in Hstep.
    destruct (IH s Hrest) as [Hlen Hall].
    split; [lia|]. constructor; [exact Hstep|].
    eapply Forall_impl; [exact Hall|]. simpl. intros x Hx. lia.
Qed.

(** X1: the transition table has no cycle.  A sequence of allowed
    transitions has at most six steps from any status (at most
    [remaining_transitions] of them), never comes back to the status it
    started from, and is empty from Arrived and from Cancelled. *)
Theorem transitions_acyclic (from : FlightStatus) (path : list FlightStatus) :
  valid_path from path = true ->
  (length path <= remaining_transitions from)%nat /\
  (length path <= 6)%nat /\
  ~ In from path /\
  (from = ARRIVED \/ from = CANCELLED -> path = []).
Proof.
  intros H. destruct (valid_path_bound path from H) as [Hlen Hall].
  split; [exact Hlen|]. split; [destruct from; simpl in Hlen; lia|]. split.
  - intros Hin. rewrite Forall_forall in Hall.
    specialize (Hall from). rewrite <- list_elem_of_In in Hin.
    specialize (Hall Hin). lia.
  - intros [->| ->]; simpl in Hlen; destruct path; [reflexivity|simpl in Hlen; lia
                                                   |reflexivity|simpl in Hlen; lia].
Qed.

Lemma transitions_acyclic_witness :
  valid_path SCHEDULED [DELAYED; BOARDING; DEPARTED; IN_AIR; DIVERTED; ARRIVED] = true /\
  (length [DELAYED; BOARDING; DEPARTED; IN_AIR; DIVERTED; ARRIVED] <= 6)%nat.
Proof.
  split; [reflexivity|].
  apply (transitions_acyclic SCHEDULED
           [DELAYED; BOARDING; DEPARTED; IN_AIR; DIVERTED; ARRIVED]).
  reflexivity.
Defined.

Lemma allowed_transition_name (cur : FlightStatus) (s : string) :
  validateStatusTransition cur s = true ->
  exists st, s = FLIGHT_STATUSES st /\ In st (statusTransitions cur).
Proof.
  unfold validateStatusTransition, allowedTransitions.
  induction (statusTransitions cur) as [|x l IH]; simpl; [discriminate|].
  destruct (String.eqb_spec s (FLIGHT_STATUSES x)) as [->|_]; simpl.
  - intros _. exists x. split; [reflexivity | now left].
  - intros H. destruct (IH H) as (st & Hs & Hin). exists st. split; [exact Hs | now right].
Qed.

Lemma allowed_transition_valid (cur st : FlightStatus) :
  In st (statusTransitions cur) ->
  validateStatusTransition cur (FLIGHT_STATUSES st) = true.
Proof.
  unfold validateStatusTransition, allowedTransitions.
  induction (statusTransitions cur) as [|x l IH]; simpl; [contradiction|].
  intros [->|Hin].
  - rewrite String.eqb_refl. reflexivity.
  - rewrite (IH Hin). apply orb_true_r.
Qed.

Lemma FLIGHT_STATUSES_truthy (st : FlightStatus) : truthy (Some (FLIGHT_STATUSES st)) = true.
Proof. destruct st; reflexivity. Qed.

Lemma apply_updateFields_status now ud f :
  status_current (apply_updateFields now ud f) = status_current f /\
  status_history (apply_updateFields now ud f) = status_history f.
Proof. split; reflexivity. Qed.

(** What one call does to the stored status and history: nothing, or one
    allowed transition with one history entry for the status left. *)
Lemma updateFlightStatus_step validate now f fn ud by_ :
  exists f',
    snd (updateFlightStatus validate now (Some f) fn ud by_) = Some f' /\
    ((status_current f' = status_current f /\ status_history f' = status_history f) \/
     (validateStatusTransition (status_current f) (FLIGHT_STATUSES (status_current f')) = true /\
      exists entry, status_history f' = status_history f ++ [entry] /\
                    sh_status entry = status_current f /\ sh_timestamp entry = now)).
Proof.
  unfold updateFlightStatus, updateFlightStatus_try. simpl.
  destruct (status_changing (status_current f) (ud_status ud)) eqn:Hc; simpl.
  - destruct (validateStatusTransition (status_current f) (default "" (ud_status ud)))
      eqn:Hv; simpl; [|exists f; split; [reflexivity | left; split; reflexivity]].
    destruct (allowed_transition_name _ _ Hv) as (st & Hs & _).
    rewrite Hs in *. unfold updateStatus. rewrite status_of_string_name. simpl.
    destruct (save _ _ _ _) as [saved|e] eqn:Hsave; simpl;
      [|exists f; split; [reflexivity | left; split; reflexivity]].
    unfold save, pre_save in Hsave. simpl in Hsave.
    destruct (validate _); [discriminate|].
    destruct (String.eqb _ _); [discriminate|]. injection Hsave as <-.
    eexists. split; [reflexivity|]. right.
    destruct (has_updateFields ud); simpl;
      (split; [exact Hv | eexists; repeat split; reflexivity]).
  - eexists. split; [reflexivity|]. left.
    destruct (has_updateFields ud); split; reflexivity.
Qed.

Lemma run_requests_cons validate fn store r rs :
  run_requests validate fn store (r :: rs)
  = run_requests validate fn
                 (snd (updateFlightStatus validate (rq_now r) store fn (rq_data r)
                                          (rq_updatedBy r))) rs.
Proof. reflexivity. Qed.

Lemma run_requests_invariant (validate : Flight -> option string) (fn : string)
      (rs : list Request) :
  forall f : Flight,
  exists f' added,
    run_requests validate fn (Some f) rs = Some f' /\
    status_history f' = status_history f ++ added /\
    (length added + remaining_transitions (status_current f')
     <= remaining_transitions (status_current f))%nat /\
    (added = [] -> status_current f' = status_current f).
Proof.
  induction rs as [|r rs IH]; intros f.
  - exists f, []. simpl. rewrite app_nil_r. repeat split; lia.
  - rewrite run_requests_cons.
    destruct (updateFlightStatus_step validate (rq_now r) f fn (rq_data r)
                                      (rq_updatedBy r))
      as (f1 & Hstore & Hstep).
    rewrite Hstore.
    destruct (IH f1) as (f' & added & Hrun & Hhist & Hrank & Hsame).
    destruct Hstep as [[Hst Hh] | (Hv & entry & Hh & _)].
    + exists f', added. rewrite Hrun, Hhist, Hh, <- Hst. repeat split; auto.
    + apply transition_lowers in Hv.
      exists f', (entry :: added). rewrite Hrun, Hhist, Hh, <- app_assoc. simpl.
      repeat split; [lia | discriminate].
Qed.

(** X2: whatever requests are made through [updateFlightStatus], the
    stored history only grows at its end, and the status changes at most
    six times over the life of a flight (at most [remaining_transitions] of
    its current status). *)
Theorem status_changes_bounded (validate : Flight -> option string) (fn : string)
        (f : Flight) (rs : list Request) :
  exists f' added,
    run_requests validate fn (Some f) rs = Some f' /\
    status_history f' = status_history f ++ added /\
    (length added <= remaining_transitions (status_current f))%nat /\
    (length added <= 6)%nat.
Proof.
  destruct (run_requests_invariant validate fn rs f)
    as (f' & added & Hrun & Hh & Hrank & _).
  exists f', added. repeat split; try assumption; [lia|].
  destruct (status_current f); simpl in Hrank; lia.
Qed.

(** X3: Arrived and Cancelled are absorbing.  No series of requests made
    through [updateFlightStatus] changes the status or the history of a
    flight that has arrived or was cancelled. *)
Theorem terminal_status_absorbing (validate : Flight -> option string) (fn : string)
        (f : Flight) (rs : list Request) :
  status_current f = ARRIVED \/ status_current f = CANCELLED ->
  exists f', run_requests validate fn (Some f) rs = Some f' /\
             status_current f' = status_current f /\
             status_history f' = status_history f.
Proof.
  intros Hterm.
  destruct (run_requests_invariant validate fn rs f)
    as (f' & added & Hrun & Hh & Hrank & Hsame).
  assert (Hnil : added = []).
  { destruct added; [reflexivity|].
    destruct Hterm as [E|E]; rewrite E in Hrank; simpl in Hrank; lia. }
  exists f'. subst added. rewrite app_nil_r in Hh. auto.
Qed.

Lemma terminal_status_absorbing_witness :
  exists f',
    run_requests Samples.validate_flight "AA123" (Some Samples.aa123_cancelled)
                 [mkRequest 1000 (status_request "Scheduled") "System";
                  mkRequest 2000 (status_request "Boarding") "System"] = Some f' /\
    status_current f' = CANCELLED /\ status_history f' = [].
Proof.
  apply (terminal_status_absorbing Samples.validate_flight "AA123" Samples.aa123_cancelled).
  right. reflexivity.
Defined.

(** X4: a request for an allowed transition.  [updateStatus] leaves the
    document with the requested status and with one more history entry,
    which records the status left, the time, the trimmed actor and the
    metadata.  When that document passes the schema validation and the save
    hook, the call returns it and it is what is stored.  When the validation
    rejects it, or the hook does (same origin and destination airport), the
    call throws a [FlightDatabaseError] that carries the message of the
    rejection, and the stored flight is unchanged. *)
Theorem updateFlightStatus_allowed_transition (validate : Flight -> option string)
        (now : Z) (f : Flight) (fn : string)
        (ud : UpdateData) (by_ : string) (st : FlightStatus) :
  ud_status ud = Some (FLIGHT_STATUSES st) ->
  In st (statusTransitions (status_current f)) ->
  let changed :=
    snd (updateStatus validate now (FLIGHT_STATUSES st) by_ (default [] (ud_metadata ud)) f) in
  let entry :=
    mkStatusHistory (status_current f) now
      ("Changed from " +:+ FLIGHT_STATUSES (status_current f) +:+ " to "
         +:+ FLIGHT_STATUSES st)
      (trim by_) (default [] (ud_metadata ud)) in
  let failure m :=
    FlightDatabaseError "Failed to update flight status due to database error"
                        "UPDATE_FLIGHT_STATUS" m in
  (status_current changed = st /\ status_history changed = status_history f ++ [entry]) /\
  (validate changed = None ->
   airport (origin f) <> airport (destination f) ->
   exists f',
     updateFlightStatus validate now (Some f) fn ud by_ = (Returned f', Some f') /\
     status_current f' = st /\
     status_history f' = status_history f ++ [entry]) /\
  (forall m : string,
      validate changed = Some m ->
      updateFlightStatus validate now (Some f) fn ud by_ = (Thrown (failure m), Some f)) /\
  (validate changed = None ->
   airport (origin f) = airport (destination f) ->
   updateFlightStatus validate now (Some f) fn ud by_ =
   (Thrown (failure "Origin and destination airports cannot be the same"), Some f)).
Proof.
  intros Hs Hin.
  pose proof (allowed_transition_valid _ _ Hin) as Hv.
  assert (Hc : status_changing (status_current f) (ud_status ud) = true).
  { rewrite Hs. unfold status_changing. rewrite FLIGHT_STATUSES_truthy. simpl.
    apply negb_true_iff. apply String.eqb_neq. intros E.
    apply transition_lowers in Hv.
    assert (st = status_current f)
      by (revert E; destruct st, (status_current f); simpl; intros E;
          first [reflexivity | discriminate E]).
    subst st. lia. }
  unfold updateFlightStatus, updateFlightStatus_try. rewrite Hc, Hs. simpl.
  rewrite Hv. simpl. unfold updateStatus. rewrite status_of_string_name. simpl.
  unfold save, pre_save. simpl.
  split; [split; reflexivity|]. split; [|split].
  - intros Hval Hair. rewrite Hval.
    apply String.eqb_neq in Hair. rewrite Hair. simpl.
    eexists. split; [reflexivity|].
    destruct (has_updateFields ud); split; reflexivity.
  - intros m Hval. rewrite Hval. reflexivity.
  - intros Hval Hair. rewrite Hval.
    apply String.eqb_eq in Hair. rewrite Hair. reflexivity.
Qed.

(** Scheduled to Boarding, by an actor given with blanks around the name;
    and the same request for a flight whose stored [delay.reason] is outside
    the enumeration. *)
Lemma updateFlightStatus_allowed_transition_witness :
  (exists f',
      updateFlightStatus Samples.validate_flight 1000 (Some Samples.aa123) "AA123"
                         (status_request "Boarding") " Ops "
      = (Returned f', Some f') /\
      status_current f' = BOARDING /\
      status_history f' =
      [mkStatusHistory SCHEDULED 1000 "Changed from Scheduled to Boarding" "Ops" []]) /\
  updateFlightStatus Samples.validate_flight 1000 (Some Samples.aa123_fog) "AA123"
                     (status_request "Boarding") " Ops "
  = (Thrown (FlightDatabaseError
               "Failed to update flight status due to database error"
               "UPDATE_FLIGHT_STATUS"
               "Flight validation failed: delay.reason: `Fog` is not a valid enum value for path `reason`."),
     Some Samples.aa123_fog).
Proof.
  split.
  - destruct (updateFlightStatus_allowed_transition
                Samples.validate_flight 1000 Samples.aa123 "AA123"
                (status_request "Boarding") " Ops " BOARDING)
      as (_ & H & _); [reflexivity | right; left; reflexivity |].
    apply H; [reflexivity | discriminate].
  - destruct (updateFlightStatus_allowed_transition
                Samples.validate_flight 1000 Samples.aa123_fog "AA123"
                (status_request "Boarding") " Ops " BOARDING)
      as (_ & _ & H & _); [reflexivity | right; left; reflexivity |].
    apply H. reflexivity.
Defined.

(** X5: a [delay.minutes] given in the update data is what the returned and
    stored flight carries, also when the same call changes the status and
    recomputes the delay, and also when the value given is negative. *)
Theorem explicit_delay_wins (validate : Flight -> option string) (now : Z)
        (f f' : Flight) (fn : string) (ud : UpdateData)
        (by_ : string) (du : DelayUpdate) (m : Z) :
  ud_delay ud = Some du ->
  du_minutes du = Some m ->
  fst (updateFlightStatus validate now (Some f) fn ud by_) = Returned f' ->
  minutes (delay f') = m /\
  snd (updateFlightStatus validate now (Some f) fn ud by_) = Some f'.
Proof.
  intros Hd Hm.
  assert (Hup : has_updateFields ud = true).
  { unfold has_updateFields, has_delay_keys. rewrite Hd, Hm. simpl.
    rewrite !orb_true_r. reflexivity. }
  unfold updateFlightStatus, updateFlightStatus_try. simpl. rewrite Hup.
  destruct (status_changing _ _ && negb _); simpl; [discriminate|].
  destruct (if status_changing _ _ then _ else _) as [stored|e]; simpl.
  - intros H. injection H as <-. split; [|reflexivity].
    simpl. unfold update_delay. rewrite Hd. simpl. rewrite Hm. reflexivity.
  - destruct (instanceof_FlightError e); discriminate.
Qed.

Lemma explicit_delay_wins_witness :
  exists f',
    fst (updateFlightStatus
           Samples.validate_flight 1000 (Some Samples.aa123) "AA123"
           (mkUpdateData (Some "Delayed") None None None None None None
                         (Some (mkDelayUpdate (Some (-5)) None None)))
           "Ops") = Returned f' /\
    minutes (delay f') = -5 /\ status_current f' = DELAYED.
Proof.
  eexists. split; [reflexivity|]. split; [|reflexivity].
  apply (explicit_delay_wins
           Samples.validate_flight 1000 Samples.aa123 _ "AA123"
           (mkUpdateData (Some "Delayed") None None None None None None
                         (Some (mkDelayUpdate (Some (-5)) None None)))
           "Ops" (mkDelayUpdate (Some (-5)) None None) (-5));
    reflexivity.
Defined.

(** *** Delays *)

(** X6: [addDelay] never leaves a negative [delay.minutes], and it moves
    the estimated departure by the minutes given (from the scheduled time
    when there was no estimate).  For a flight that has not departed, a
    later [calculateDelay] therefore yields the clamp of (the whole minutes
    the old estimate was behind schedule, 0 without an estimate) plus the
    minutes added; it agrees with the [delay.minutes] that [addDelay] stored
    when the old [delay.minutes] was that unclamped figure. *)
Theorem addDelay_then_calculateDelay (validate : Flight -> option string)
        (now now' m : Z) (r d : string) (f : Flight) (s sa : Z) :
  scheduled (departure f) = Some s ->
  scheduled (arrival f) = Some sa ->
  actual (departure f) = None ->
  let behind := match estimated (departure f) with
                | Some e => (e - s) / 60000
                | None => 0
                end in
  let f' := snd (addDelay validate now m r d f) in
  minutes (delay f') = Z.max 0 (minutes (delay f) + m) /\
  estimated (departure f') = Some (default s (estimated (departure f)) + m * 60000) /\
  fst (calculateDelay now' f') = Z.max 0 (behind + m) /\
  (minutes (delay f) = behind -> fst (calculateDelay now' f') = minutes (delay f')).
Proof.
  intros Hs Hsa Ha behind f'. subst f' behind.
  unfold addDelay, shift_estimated. rewrite Hs, Hsa.
  assert (Hdiv : forall e, (e + m * 60000 - s) / 60000 = (e - s) / 60000 + m).
  { intros e. replace (e + m * 60000 - s) with (e - s + m * 60000) by lia.
    apply Z.div_add. lia. }
  destruct (estimated (departure f)) as [e|] eqn:He;
    destruct (estimated (arrival f)) as [ea|]; simpl;
    unfold calculateDelay, delayMinutes; simpl; rewrite Ha;
    change (1000 * 60) with 60000; rewrite Hdiv;
    rewrite ?Z.sub_diag; change (0 / 60000) with 0;
    (repeat split; intros ->; reflexivity).
Qed.

Lemma addDelay_then_calculateDelay_witness :
  let f' := snd (addDelay Samples.validate_flight 1000 45 "Weather" "Thunderstorms"
                          Samples.aa123) in
  minutes (delay f') = 45 /\
  estimated (departure f') = Some (28800000 + 45 * 60000) /\
  fst (calculateDelay 2000 f') = 45.
Proof.
  destruct (addDelay_then_calculateDelay
              Samples.validate_flight 1000 2000 45 "Weather" "Thunderstorms"
              Samples.aa123 28800000 50400000)
    as (H1 & H2 & H3 & _); [reflexivity | reflexivity | reflexivity |].
  intros f'. repeat split; assumption.
Defined.

(** X7: the service's [calculateDelay(scheduled, actual)] and the
    document's [calculateDelay()] agree.  For a flight with a scheduled and
    an actual departure the report carries the document's delay and its
    [isDelayed]; called without an actual time, it agrees with the document
    of a flight that has neither an actual nor an estimated departure. *)
Theorem calculateDelay_service_agrees (now : Z) (f : Flight) (s : Z) :
  scheduled (departure f) = Some s ->
  (forall a, actual (departure f) = Some a ->
             FlightServiceUtility.calculateDelay now (Some s) (Some (Some a))
             = FlightServiceUtility.Report
                 (fst (calculateDelay now f)) (isDelayed (snd (calculateDelay now f)))) /\
  (actual (departure f) = None -> estimated (departure f) = None ->
   FlightServiceUtility.calculateDelay now (Some s) None
   = FlightServiceUtility.Report
       (fst (calculateDelay now f)) (isDelayed (snd (calculateDelay now f)))).
Proof.
  intros Hs.
  assert (Hpos : forall x, (Z.max 0 x >? 0) = (x >? 0)).
  { intros x. destruct (Z.gtb_spec x 0), (Z.gtb_spec (Z.max 0 x) 0); lia || reflexivity. }
  split.
  - intros a Ha. unfold FlightServiceUtility.calculateDelay, calculateDelay, isDelayed,
                   delayMinutes. simpl. rewrite Ha, Hs. simpl. rewrite Hpos. reflexivity.
  - intros Ha He. unfold FlightServiceUtility.calculateDelay, calculateDelay, isDelayed,
                    delayMinutes. simpl. rewrite Ha, He, Hs. simpl. rewrite andb_true_r.
    destruct (Z.gtb_spec now s) as [Hgt|Hle]; simpl.
    + rewrite Hpos. reflexivity.
    + assert (Hq : (now - s) / (1000 * 60) <= 0).
      { apply Z.div_le_upper_bound; lia. }
      replace (Z.max 0 ((now - s) / (1000 * 60))) with 0 by lia.
      destruct (Z.gtb_spec ((now - s) / (1000 * 60)) 0); [lia | reflexivity].
Qed.

Lemma calculateDelay_service_agrees_witness :
  FlightServiceUtility.calculateDelay 0 (Some 28800000) (Some (Some 30600000))
  = FlightServiceUtility.Report 30 true.
Proof.
  destruct (calculateDelay_service_agrees 0 Samples.aa123_departed 28800000)
    as [H _]; [reflexivity|].
  rewrite (H 30600000); reflexivity.
Defined.

(** *** Pagination *)

Lemma ceil_div_bounds (a b : Z) :
  0 < b -> (ceil_div a b - 1) * b < a <= ceil_div a b * b.
Proof.
  intros Hb. unfold ceil_div.
  pose proof (Z.div_mod (- a) b ltac:(lia)) as Hdm.
  pose proof (Z.mod_pos_bound (- a) b Hb) as Hr.
  nia.
Qed.

(** X8: in the pagination of [getFlights], with a positive [limit] and a
    non-negative count, [hasNextPage] is true exactly when flights remain
    beyond the page ([skip + limit < totalCount]); [totalPages] pages are
    enough for all flights and one fewer is not; there are no pages exactly
    when there are no flights. *)
Theorem pagination_hasNextPage (page limit totalCount : Z) :
  0 < limit -> 0 <= totalCount ->
  (pg_hasNextPage (pagination page limit totalCount) = true
   <-> skip_of page limit + limit < totalCount) /\
  (pg_totalPages (pagination page limit totalCount) - 1) * limit < totalCount
  <= pg_totalPages (pagination page limit totalCount) * limit /\
  (pg_totalPages (pagination page limit totalCount) = 0 <-> totalCount = 0).
Proof.
  intros Hl Ht. unfold pagination, skip_of. simpl.
  pose proof (ceil_div_bounds totalCount limit Hl) as Hb.
  split; [|split; [exact Hb|]].
  - rewrite Z.ltb_lt. split; intros H; nia.
  - split; intros H; nia.
Qed.

Lemma pagination_hasNextPage_witness :
  pg_hasNextPage (pagination 2 20 41) = true /\ skip_of 2 20 + 20 < 41.
Proof.
  destruct (pagination_hasNextPage 2 20 41) as [H _]; [lia | lia |].
  split; [reflexivity|]. apply H. reflexivity.
Defined.

(** *** Schedule validation *)

(** X9: [validateSchedule] only appends to the error list, at most two
    entries, and appends nothing exactly when both scheduled times are
    present and, if both are dates, the departure is strictly before the
    arrival.  A time that is present but cannot be parsed is not reported. *)
Theorem validateSchedule_accepts (schedule : ScheduleInput) (errors : list Issue) :
  exists added,
    validateSchedule schedule errors = errors ++ added /\
    (length added <= 2)%nat /\
    (added = [] <->
     exists d a, si_departure schedule = Some d /\ si_arrival schedule = Some a /\
                 d <> Missing /\ a <> Missing /\
                 forall x y, d = At x -> a = At y -> x < y).
Proof.
  unfold validateSchedule.
  destruct (si_departure schedule) as [[| |x]|], (si_arrival schedule) as [[| |y]|];
    try destruct (Z.geb_spec x y);
    rewrite <- ?app_assoc; simpl;
    eexists; (split; [first [reflexivity | symmetry; apply app_nil_r]|]);
    (split; [simpl; lia|]);
    (split;
     [ intros Hnil; try discriminate Hnil;
       eexists _, _; repeat split; try discriminate;
       intros ? ? E1 E2; try discriminate E1; try discriminate E2;
       injection E1 as <-; injection E2 as <-; lia
     | intros (d & a & Hd & Ha & Hd' & Ha' & Hlt);
       try discriminate Hd; try discriminate Ha;
       injection Hd as <-; injection Ha as <-;
       try (exfalso; apply Hd'; reflexivity);
       try (exfalso; apply Ha'; reflexivity);
       try reflexivity;
       specialize (Hlt _ _ eq_refl eq_refl); lia ]).
Qed.

Lemma validateSchedule_accepts_witness :
  validateSchedule (mkScheduleInput (Some (At 28800000)) (Some (At 50400000))) [] = [] /\
  validateSchedule (mkScheduleInput (Some Unparsable) (Some (At 50400000))) [] = [] /\
  validateSchedule (mkScheduleInput (Some (At 50400000)) (Some (At 28800000))) []
  = [mkIssue "schedule" "Departure time must be before arrival time"].
Proof.
  destruct (validateSchedule_accepts
              (mkScheduleInput (Some (At 28800000)) (Some (At 50400000))) [])
    as (added & Hrun & _ & Hiff).
  split; [|split; reflexivity].
  rewrite Hrun. simpl. apply Hiff.
  exists (At 28800000), (At 50400000).
  repeat split; try discriminate.
  intros x y E1 E2. injection E1 as <-. injection E2 as <-. lia.
Defined.

(** *** Format validators *)

Lemma span_app (p : ascii -> bool) (l : list ascii) :
  fst (span p l) ++ snd (span p l) = l.
Proof.
  induction l as [|c l IH]; simpl; [reflexivity|].
  destruct (p c); simpl; [now rewrite IH | reflexivity].
Qed.

Lemma span_all (p : ascii -> bool) (l : list ascii) :
  forallb p (fst (span p l)) = true.
Proof.
  induction l as [|c l IH]; simpl; [reflexivity|].
  destruct (p c) eqn:Hc; simpl; [now rewrite Hc, IH | reflexivity].
Qed.

Lemma span_stops (p : ascii -> bool) (l : list ascii) (c : ascii) (r : list ascii) :
  snd (span p l) = c :: r -> p c = false.
Proof.
  induction l as [|x l IH]; simpl; [discriminate|].
  destruct (p x) eqn:Hx; simpl; [exact IH|].
  intros H. injection H as <- _. exact Hx.
Qed.

Lemma upper_not_digit (c : ascii) : is_upper c = true -> is_digit c = false.
Proof.
  unfold is_upper, is_digit. intros H.
  apply andb_true_iff in H as [H1 H2].
  apply Nat.leb_le in H1, H2. apply andb_false_iff. right.
  apply Nat.leb_gt. lia.
Qed.

Lemma upper_alnum (c : ascii) : is_upper c = true -> is_alnum c = true.
Proof. unfold is_alnum. intros ->. reflexivity. Qed.

Lemma forallb_digit_alnum (l : list ascii) :
  forallb is_digit l = true -> forallb is_alnum l = true.
Proof.
  induction l as [|c l IH]; simpl; [reflexivity|].
  intros H. apply andb_true_iff in H as [Hc Hl].
  unfold is_alnum at 1. rewrite Hc, orb_true_r. simpl. exact (IH Hl).
Qed.

Lemma list_ascii_length (s : string) :
  length (String.list_ascii_of_string s) = String.length s.
Proof. induction s as [|c s IH]; simpl; [reflexivity | now rewrite IH]. Qed.

(** X10: a flight number that [validateIATAFlightNumber] accepts has
    three to seven characters, all of them capital letters or digits; its
    first two characters are accepted by [validateAirlineCode]; and it is
    never accepted by [validateIATAAirportCode].  Every airport code that
    [validateIATAAirportCode] accepts is accepted as an airline code too. *)
Theorem flight_number_shape (s : string) :
  (validateIATAFlightNumber s = Returned true ->
   (3 <= String.length s <= 7)%nat /\
   forallb is_alnum (String.list_ascii_of_string s) = true /\
   validateAirlineCode (String.substring 0 2 s) = Returned true /\
   validateIATAAirportCode s <> Returned true) /\
  (validateIATAAirportCode s = Returned true ->
   validateAirlineCode s = Returned true).
Proof.
  split.
  - unfold validateIATAFlightNumber, iataFlightNumber_test.
    rewrite <- list_ascii_length.
    destruct s as [|a [|b rest]]; simpl; try discriminate.
    destruct (is_upper a) eqn:Ha; simpl; [|discriminate].
    destruct (is_upper b) eqn:Hb; simpl; [|discriminate].
    pose proof (span_app is_digit (String.list_ascii_of_string rest)) as Happ.
    pose proof (span_all is_digit (String.list_ascii_of_string rest)) as Hall.
    destruct (span is_digit (String.list_ascii_of_string rest)) as [ds tl] eqn:Hspan.
    simpl in *.
    destruct (between 1 4 (length ds)) eqn:Hlen; simpl; [|discriminate].
    unfold between in Hlen. apply andb_true_iff in Hlen as [H1 H4].
    apply Nat.leb_le in H1, H4.
    assert (Htl : match tl with [] => true | [c] => is_upper c | _ => false end = true ->
                  (length tl <= 1)%nat /\ forallb is_alnum tl = true).
    { destruct tl as [|c [|c' tl']]; simpl; try discriminate.
      - intros _. split; [lia | reflexivity].
      - intros Hc. rewrite (upper_alnum c Hc). split; [lia | reflexivity]. }
    destruct (match tl with [] => true | [c] => is_upper c | _ => false end);
      [|discriminate].
    intros _. destruct (Htl eq_refl) as [Hl1 Hal].
    rewrite <- Happ, length_app, forallb_app, (forallb_digit_alnum ds Hall), Hal.
    rewrite (upper_alnum a Ha), (upper_alnum b Hb). simpl.
    split; [lia|]. split; [reflexivity|]. split.
    + unfold validateAirlineCode, airlineCode_test.
      destruct rest; simpl; rewrite (upper_alnum a Ha), (upper_alnum b Hb); reflexivity.
    + unfold validateIATAAirportCode, iataAirportCode_test. simpl.
      destruct (String.list_ascii_of_string rest) as [|c [|c' r]] eqn:Hr;
        try discriminate.
      simpl in Hspan. rewrite Ha, Hb. simpl.
      destruct (is_upper c) eqn:Hc; [|discriminate].
      rewrite (upper_not_digit c Hc) in Hspan. injection Hspan as <- <-.
      simpl in H1. lia.
  - unfold validateIATAAirportCode, iataAirportCode_test,
      validateAirlineCode, airlineCode_test.
    destruct (String.list_ascii_of_string s) as [|a [|b [|c [|x r]]]]; try discriminate.
    destruct (is_upper a) eqn:Ha; simpl; [|discriminate].
    destruct (is_upper b) eqn:Hb; simpl; [|discriminate].
    destruct (is_upper c) eqn:Hc; simpl; [|discriminate].
    rewrite (upper_alnum a Ha), (upper_alnum b Hb), (upper_alnum c Hc). reflexivity.
Qed.

Lemma flight_number_shape_witness :
  validateIATAFlightNumber "UA1234A" = Returned true /\
  validateAirlineCode (String.substring 0 2 "UA1234A") = Returned true /\
  is_thrown (validateIATAFlightNumber "ua1234") = true.
Proof.
  destruct (flight_number_shape "UA1234A") as [H _].
  destruct (H eq_refl) as (_ & _ & Hair & _).
  split; [reflexivity|]. split; [exact Hair | reflexivity].
Defined.

(** X11: an aircraft registration that [validateAircraftRegistration]
    accepts is empty, or is one or two capital letters, a hyphen, and three
    to five capital letters or digits; so every accepted non-empty
    registration contains a hyphen and has five to eight characters. *)
Theorem registration_shape (s : string) :
  validateAircraftRegistration (Some s) = Returned true ->
  s = "" \/
  exists letters rest,
    String.list_ascii_of_string s = letters ++ "-"%char :: rest /\
    (1 <= length letters <= 2)%nat /\ forallb is_upper letters = true /\
    (3 <= length rest <= 5)%nat /\ forallb is_alnum rest = true /\
    (5 <= String.length s <= 8)%nat.
Proof.
  unfold validateAircraftRegistration, truthy. simpl.
  destruct (String.eqb_spec s "") as [->|Hne]; simpl; [intros _; now left|].
  unfold aircraftRegistration_test. rewrite <- list_ascii_length.
  pose proof (span_app is_upper (String.list_ascii_of_string s)) as Happ.
  pose proof (span_all is_upper (String.list_ascii_of_string s)) as Hall.
  destruct (span is_upper (String.list_ascii_of_string s)) as [ls tl]. simpl in *.
  destruct (between 1 2 (length ls)) eqn:Hlen; simpl; [|discriminate].
  destruct tl as [|c r]; [discriminate|].
  destruct (Ascii.eqb_spec c "-"%char) as [->|Hc];
    [|destruct c as [[] [] [] [] [] [] [] []]; try discriminate; exfalso; now apply Hc].
  destruct (between 3 5 (length r)) eqn:Hr; simpl; [|discriminate].
  destruct (forallb is_alnum r) eqn:Hal; [|discriminate].
  intros _. right. exists ls, r.
  unfold between in Hlen, Hr.
  apply andb_true_iff in Hlen as [L1 L2]. apply andb_true_iff in Hr as [R1 R2].
  apply Nat.leb_le in L1, L2, R1, R2.
  rewrite <- Happ, length_app. simpl.
  repeat split; auto; lia.
Qed.

Lemma registration_shape_witness :
  validateAircraftRegistration (Some "PK-ABC") = Returned true /\
  is_thrown (validateAircraftRegistration (Some "N123AB")) = true /\
  exists letters rest,
    String.list_ascii_of_string "PK-ABC" = letters ++ "-"%char :: rest /\
    (1 <= length letters <= 2)%nat.
Proof.
  split; [reflexivity|]. split; [reflexivity|].
  destruct (registration_shape "PK-ABC" eq_refl) as [H | (l & r & H1 & H2 & _)];
    [discriminate H|].
  exists l, r. split; assumption.
Defined.

End FlightDocument.

(** ** Subscription documents *)

Section SubscriptionDocument.
Import Subscription.

Variable randomHex : nat -> string.
Variable validate : Z -> Subscription -> option string.
Variable persist : Subscription -> option JsError.

Local Abbreviation save := (save randomHex validate persist).
Local Abbreviation verify := (verify randomHex validate persist).
Local Abbreviation unsubscribeUser := (unsubscribeUser randomHex validate persist).
Local Abbreviation reactivate := (reactivate randomHex validate persist).
Local Abbreviation addNotification := (addNotification randomHex validate persist).

Lemma recompute_expiry_tracking (s : Subscription) :
  tracking (recompute_expiry s) = tracking s.
Proof.
  unfold recompute_expiry.
  repeat match goal with
         | |- context [if ?b then _ else _] => destruct b
         | |- context [match ?x with _ => _ end] => destruct x
         end; reflexivity.
Qed.

(** [save()] of a stored document changes [expiresAt] at most, and that
    only when the validation lets the hook run. *)
Lemma save_stored (now : Z) (s : Subscription) :
  isNew (tracking s) = false ->
  let s' := snd (save now s) in
  verification s' = verification s /\
  unsubscribe s' = unsubscribe s /\
  notificationStats s' = notificationStats s /\
  status s' = status s /\
  isActive s' = isActive s /\
  isNew (tracking s') = false /\
  (expiresAt s' = expiresAt s \/ expiresAt s' = expiresAt (recompute_expiry s)).
Proof.
  intros Hnew. unfold Subscription.save.
  destruct (validate now s); [repeat split; first [assumption | now left]|].
  rewrite (pre_save_stored randomHex now s Hnew).
  destruct (recompute_expiry_frame s) as (Hv & Hu & Hn & Hst & Ha).
  pose proof (recompute_expiry_tracking s) as Ht.
  destruct (persist _); simpl; rewrite ?Ht, Hv, Hu, Hn, Hst, Ha;
    repeat split; first [assumption | now right].
Qed.

(** *** Verification *)

(** X12: a subscription that is not verified becomes verified by
    [verify] exactly when the token has not expired, fewer than five attempts
    were made and the token presented is the stored one; in every other case
    the document stays unverified. *)
Theorem verify_succeeds_iff (now : Z) (tok : option string) (s : Subscription) :
  isVerified (verification s) = false ->
  (isVerified (verification (snd (verify now tok s))) = true <->
   isVerificationExpired now s = false /\
   verificationAttempts (verification s) < 5 /\
   verificationToken (verification s) = tok).
Proof.
  intros Hv. unfold Subscription.verify. rewrite Hv.
  destruct (isVerificationExpired now s); simpl.
  { rewrite Hv. split; [discriminate | intros (H & _); discriminate H]. }
  destruct (Z.geb_spec (verificationAttempts (verification s)) 5) as [Hge|Hlt]; simpl.
  { rewrite Hv. split; [discriminate | lia]. }
  case_bool_decide as Htok; simpl.
  - match goal with
    | |- context [Subscription.save _ _ _ _ ?d] =>
      destruct (save_frame randomHex validate persist now d) as (_ & _ & _ & Hf & _)
    end.
    cbv zeta in Hf. rewrite Hf. simpl.
    split; [intros _; repeat split; [lia | exact Htok] | reflexivity].
  - match goal with
    | |- context [Subscription.save _ _ _ _ ?d] =>
      destruct (save_frame randomHex validate persist now d) as (_ & _ & _ & Hf & _)
    end.
    cbv zeta in Hf. rewrite Hf. simpl. rewrite ?Hv.
    split; [discriminate | intros (_ & _ & H); contradiction].
Qed.

(** One rejected token on a stored, unverified document: one more attempt
    is counted and nothing else of the verification state changes. *)
Lemma wrong_token_counts (now : Z) (wrong : option string) (s : Subscription) :
  isNew (tracking s) = false ->
  isVerified (verification s) = false ->
  isVerificationExpired now s = false ->
  verificationAttempts (verification s) < 5 ->
  verificationToken (verification s) <> wrong ->
  let s' := snd (verify now wrong s) in
  isNew (tracking s') = false /\
  isVerified (verification s') = false /\
  isVerificationExpired now s' = false /\
  verificationToken (verification s') = verificationToken (verification s) /\
  verificationAttempts (verification s') = verificationAttempts (verification s) + 1.
Proof.
  intros Hnew Hv Hex Hlt Htok. unfold Subscription.verify. rewrite Hv, Hex.
  destruct (Z.geb_spec (verificationAttempts (verification s)) 5); [lia|].
  rewrite bool_decide_eq_false_2 by exact Htok. simpl.
  match goal with
  | |- context [Subscription.save _ _ _ _ ?d] =>
    destruct (save_stored now d Hnew) as (Hd & _ & _ & _ & _ & Hn & _)
  end.
  cbv zeta in Hd, Hn. unfold isVerificationExpired in *. rewrite Hd, Hn. simpl.
  rewrite ?Hv. repeat split; first [reflexivity | assumption].
Qed.

Lemma wrong_tokens_count (now : Z) (wrong : option string) (s : Subscription) (n : nat) :
  isNew (tracking s) = false ->
  isVerified (verification s) = false ->
  isVerificationExpired now s = false ->
  verificationAttempts (verification s) = 0 ->
  verificationToken (verification s) <> wrong ->
  (n <= 5)%nat ->
  let s' := Nat.iter n (fun d => snd (verify now wrong d)) s in
  isNew (tracking s') = false /\
  isVerified (verification s') = false /\
  isVerificationExpired now s' = false /\
  verificationToken (verification s') = verificationToken (verification s) /\
  verificationAttempts (verification s') = Z.of_nat n.
Proof.
  intros Hnew Hv Hex Ha Htok. induction n as [|n IH]; intros Hn.
  - simpl. repeat split; assumption.
  - destruct (IH ltac:(lia)) as (I1 & I2 & I3 & I4 & I5). cbv zeta in *.
    simpl Nat.iter.
    destruct (wrong_token_counts now wrong _ I1 I2 I3 ltac:(lia) ltac:(congruence))
      as (J1 & J2 & J3 & J4 & J5).
    cbv zeta in *. repeat split; try assumption; [congruence | lia].
Qed.

(** X13: five rejected tokens lock verification.  On a stored, unverified
    subscription with no attempt counted and an unexpired token, after five
    calls of [verify] with a wrong token the attempt count is 5, and [verify]
    with the right token throws "Maximum verification attempts exceeded" and
    leaves the document unverified. *)
Theorem verify_lockout (now : Z) (wrong : option string) (s : Subscription) :
  isNew (tracking s) = false ->
  isVerified (verification s) = false ->
  isVerificationExpired now s = false ->
  verificationAttempts (verification s) = 0 ->
  verificationToken (verification s) <> wrong ->
  let locked := Nat.iter 5 (fun d => snd (verify now wrong d)) s in
  verificationAttempts (verification locked) = 5 /\
  verify now (verificationToken (verification s)) locked
  = (Thrown (Error "Maximum verification attempts exceeded"), locked).
Proof.
  intros Hnew Hv Hex Ha Htok locked.
  destruct (wrong_tokens_count now wrong s 5 Hnew Hv Hex Ha Htok ltac:(lia))
    as (_ & I2 & I3 & _ & I5).
  fold locked in I2, I3, I5. split; [exact I5|].
  unfold Subscription.verify. rewrite I2, I3, I5. reflexivity.
Qed.

(** *** Unsubscription and reactivation *)

(** X14: the token gate of [unsubscribeUser].  On a subscription that is
    not unsubscribed, a non-empty token that differs from the stored one
    makes the call throw "Invalid unsubscribe token" and changes nothing; an
    absent token, an empty-string token or the stored token unsubscribes it:
    [isUnsubscribed = true], status [unsubscribed], [isActive = false]. *)
Theorem unsubscribe_token_gate (now : Z) (tok r fb : option string) (s : Subscription) :
  isUnsubscribed (unsubscribe s) = false ->
  (truthy tok = true -> token (unsubscribe s) <> tok ->
   unsubscribeUser now tok r fb s = (Thrown (Error "Invalid unsubscribe token"), s)) /\
  (truthy tok = false \/ token (unsubscribe s) = tok ->
   isUnsubscribed (unsubscribe (snd (unsubscribeUser now tok r fb s))) = true /\
   status (snd (unsubscribeUser now tok r fb s)) = UNSUBSCRIBED /\
   isActive (snd (unsubscribeUser now tok r fb s)) = false).
Proof.
  intros Hu. unfold Subscription.unsubscribeUser. rewrite Hu. split.
  - intros Ht Hne. rewrite Ht, bool_decide_eq_false_2 by exact Hne. reflexivity.
  - intros Hpass.
    assert (Hgate : truthy tok && negb (bool_decide (token (unsubscribe s) = tok)) = false).
    { destruct Hpass as [->|E]; [reflexivity|].
      rewrite bool_decide_eq_true_2 by exact E. apply andb_false_r. }
    rewrite Hgate.
    match goal with
    | |- context [Subscription.save _ _ _ _ ?d] =>
      destruct (save_frame randomHex validate persist now d) as (_ & Hst & Ha & _ & Hf & _)
    end.
    cbv zeta in Hst, Ha, Hf.
    rewrite Hst, Ha, Hf. repeat split; reflexivity.
Qed.

(** X15: [reactivate] after [unsubscribeUser] on a stored subscription.
    While the subscription has expired the call throws "Cannot reactivate
    expired subscription" and the document stays unsubscribed; otherwise it
    clears the unsubscribe date, reason and feedback, keeps the unsubscribe
    token, the verification state and the statistics, sets [isActive], and
    sets the status from [isVerified] alone (active or pending), whatever
    the status was before.  On a subscription that is not unsubscribed,
    [reactivate] throws and changes nothing. *)
Theorem unsubscribe_then_reactivate (now1 now2 : Z) (tok r fb : option string)
        (s : Subscription) :
  isNew (tracking s) = false ->
  isUnsubscribed (unsubscribe s) = false ->
  truthy tok = false \/ token (unsubscribe s) = tok ->
  let u := snd (unsubscribeUser now1 tok r fb s) in
  reactivate now2 s = (Thrown (Error "Subscription is not unsubscribed"), s) /\
  (isExpired now2 u = true ->
   reactivate now2 u = (Thrown (Error "Cannot reactivate expired subscription"), u) /\
   isUnsubscribed (unsubscribe u) = true) /\
  (isExpired now2 u = false ->
   let a := snd (reactivate now2 u) in
   unsubscribe a = mkUnsubscribe (token (unsubscribe s)) false None None None /\
   isActive a = true /\
   status a = (if isVerified (verification s) then ACTIVE else PENDING) /\
   verification a = verification s /\
   notificationStats a = notificationStats s).
Proof.
  intros Hnew Hu Hpass u.
  assert (Hgate : truthy tok && negb (bool_decide (token (unsubscribe s) = tok)) = false).
  { destruct Hpass as [->|E]; [reflexivity|].
    rewrite bool_decide_eq_true_2 by exact E. apply andb_false_r. }
  assert (Hshape :
            unsubscribe u = mkUnsubscribe (token (unsubscribe s)) true (Some now1)
                                          (Some (trim (default "user_request" r)))
                                          (Some (trim (default "" fb))) /\
            verification u = verification s /\
            notificationStats u = notificationStats s /\
            isNew (tracking u) = false).
  { subst u. unfold Subscription.unsubscribeUser. rewrite Hu, Hgate.
    match goal with
    | |- context [Subscription.save _ _ _ _ ?d] =>
      destruct (save_stored now1 d Hnew) as (Hv & Hd & Hn & _ & _ & Ht & _)
    end.
    cbv zeta in Hv, Hd, Hn, Ht. rewrite Hv, Hd, Hn, Ht. repeat split; reflexivity. }
  destruct Hshape as (Hun & Hver & Hstats & Hnew').
  split; [unfold Subscription.reactivate; rewrite Hu; reflexivity|].
  split.
  - intros Hexp. unfold Subscription.reactivate. rewrite Hun, Hexp. simpl.
    split; reflexivity.
  - intros Hexp a. subst a. unfold Subscription.reactivate. rewrite Hun, Hexp. simpl.
    match goal with
    | |- context [Subscription.save _ _ _ _ ?d] =>
      destruct (save_stored now2 d Hnew') as (Hv & Hd & Hn & Hst & Ha & _)
    end.
    cbv zeta in Hv, Hd, Hn, Hst, Ha. rewrite Hv, Hd, Hn, Hst, Ha. simpl.
    rewrite Hver, Hstats. repeat split; reflexivity.
Qed.

(** *** Statistics *)

(** X16: every [addNotification] adds exactly one to [totalSent],
    whatever the delivery status (a failed delivery counts too), adds one to
    at most one of the per-method counters and lowers none, and stamps
    [lastNotificationSent]; so a document whose per-method counters sum to at
    most [totalSent] keeps that property. *)
Theorem addNotification_counters (now : Z) (type method st : string)
        (mid err : option string) (s : Subscription) :
  let n := notificationStats s in
  let n' := notificationStats (snd (addNotification now type method st mid err s)) in
  totalSent n' = totalSent n + 1 /\
  lastNotificationSent n' = Some now /\
  emailsSent n <= emailsSent n' /\ smsSent n <= smsSent n' /\ pushSent n <= pushSent n' /\
  emailsSent n' + smsSent n' + pushSent n'
  <= emailsSent n + smsSent n + pushSent n + 1 /\
  (emailsSent n + smsSent n + pushSent n <= totalSent n ->
   emailsSent n' + smsSent n' + pushSent n' <= totalSent n').
Proof.
  intros n n'. subst n'. unfold Subscription.addNotification.
  match goal with
  | |- context [Subscription.save _ _ _ _ ?d] =>
    destruct (save_frame randomHex validate persist now d) as (Hn & _)
  end.
  cbv zeta in Hn. rewrite Hn. simpl. fold n.
  unfold EMAIL, SMS, PUSH.
  destruct (String.eqb_spec method "email") as [E1|_];
    destruct (String.eqb_spec method "sms") as [E2|_];
    destruct (String.eqb_spec method "push") as [E3|_];
    try (rewrite E1 in *; discriminate); try (rewrite E2 in *; discriminate);
    repeat split; lia.
Qed.

(** *** Expiry *)

(** X17: the first save of a new subscription without an expiry sets
    [expiresAt] to seven days after the flight date, or to the consent date
    plus the retention days when the retention inputs are marked modified
    and that date is earlier: the earlier of the two. *)
Theorem new_subscription_expiry (now : Z) (s : Subscription) :
  isNew (tracking s) = true ->
  expiresAt s = None ->
  let flight_expiry := flightDate s + 7 * 24 * 60 * 60 * 1000 in
  expiresAt (pre_save randomHex now s) =
  Some (if modified_dataRetentionDays (tracking s) || modified_consentDate (tracking s)
        then match gdprExpiry (gdprCompliance s) with
             | Some g => Z.min flight_expiry g
             | None => flight_expiry
             end
        else flight_expiry).
Proof.
  intros Hnew He. unfold pre_save. rewrite Hnew. simpl.
  repeat match goal with
         | |- context [negb (truthy ?t)] => destruct (negb (truthy t)); simpl
         end;
    rewrite ?He; simpl; unfold recompute_expiry; simpl;
    destruct (_ || _); try reflexivity;
    destruct (gdprExpiry (gdprCompliance s)) as [g|]; try reflexivity;
    destruct (Z.ltb_spec g (flightDate s + 7 * 24 * 60 * 60 * 1000)); simpl;
    f_equal; lia.
Qed.

(** X18: [daysUntilExpiry] rounds the remaining time up to whole days:
    with [d] days reported, the time left is more than [d - 1] days and at
    most [d]; [d] is positive exactly while the expiry lies ahead, so an
    expired subscription never reports a positive number of days. *)
Theorem daysUntilExpiry_rounds_up (now : Z) (s : Subscription) (e : Z) :
  expiresAt s = Some e ->
  exists d,
    daysUntilExpiry now s = Some d /\
    (d - 1) * 86400000 < e - now <= d * 86400000 /\
    (0 < d <-> now < e) /\
    (isExpired now s = true -> d <= 0).
Proof.
  intros He. unfold daysUntilExpiry, isExpired. rewrite He.
  eexists. split; [reflexivity|].
  change (1000 * 60 * 60 * 24) with 86400000.
  pose proof (Z.div_mod (- (e - now)) 86400000 ltac:(lia)) as Hdm.
  pose proof (Z.mod_pos_bound (- (e - now)) 86400000 ltac:(lia)) as Hr.
  split; [nia|]. split; [split; intros H; nia|].
  rewrite Z.gtb_lt. intros H. nia.
Qed.

End SubscriptionDocument.

Lemma verify_succeeds_iff_witness :
  Subscription.isVerified
    (Subscription.verification
       (snd (Subscription.verify Samples.randomHex Samples.validate_utc Samples.persist_ok 1000 (Some "c0ffee")
                                 (Samples.passenger Samples.default_prefs)))) = true.
Proof.
  apply (verify_succeeds_iff Samples.randomHex Samples.validate_utc Samples.persist_ok 1000 (Some "c0ffee")
                             (Samples.passenger Samples.default_prefs));
    [reflexivity|].
  repeat split; reflexivity.
Defined.

Lemma verify_lockout_witness :
  let locked :=
    Nat.iter 5 (fun d => snd (Subscription.verify Samples.randomHex Samples.validate_utc Samples.persist_ok
                                                  1000 (Some "guess") d))
             (Samples.passenger Samples.default_prefs) in
  fst (Subscription.verify Samples.randomHex Samples.validate_utc Samples.persist_ok 1000 (Some "c0ffee") locked)
  = Thrown (Error "Maximum verification attempts exceeded").
Proof.
  intros locked.
  destruct (verify_lockout Samples.randomHex Samples.validate_utc Samples.persist_ok 1000 (Some "guess")
                           (Samples.passenger Samples.default_prefs))
    as (_ & H); [reflexivity | reflexivity | reflexivity | reflexivity | discriminate |].
  fold locked in H. simpl Subscription.verificationToken in H.
  rewrite H. reflexivity.
Defined.

Lemma unsubscribe_token_gate_witness :
  let s := Samples.passenger Samples.default_prefs in
  Subscription.unsubscribeUser Samples.randomHex Samples.validate_utc Samples.persist_ok 1000
                               (Some "forged") None None s
  = (Thrown (Error "Invalid unsubscribe token"), s) /\
  Subscription.isUnsubscribed
    (Subscription.unsubscribe
       (snd (Subscription.unsubscribeUser Samples.randomHex Samples.validate_utc Samples.persist_ok 1000
                                          (Some "") None None s))) = true.
Proof.
  intros s.
  destruct (unsubscribe_token_gate Samples.randomHex Samples.validate_utc Samples.persist_ok 1000
                                   (Some "forged") None None s eq_refl) as [H1 _].
  destruct (unsubscribe_token_gate Samples.randomHex Samples.validate_utc Samples.persist_ok 1000
                                   (Some "") None None s eq_refl) as [_ H2].
  split; [apply H1; [reflexivity | discriminate]|].
  apply H2. left. reflexivity.
Defined.

Lemma unsubscribe_then_reactivate_witness :
  let u := snd (Subscription.unsubscribeUser
                  Samples.randomHex Samples.validate_utc Samples.persist_ok 1000 (Some "deadbeef") None None
                  (Samples.passenger Samples.default_prefs)) in
  Subscription.status (snd (Subscription.reactivate Samples.randomHex Samples.validate_utc Samples.persist_ok
                                                   2000 u)) = Subscription.PENDING /\
  fst (Subscription.reactivate Samples.randomHex Samples.validate_utc Samples.persist_ok 700000000 u)
  = Thrown (Error "Cannot reactivate expired subscription").
Proof.
  intros u.
  destruct (unsubscribe_then_reactivate
              Samples.randomHex Samples.validate_utc Samples.persist_ok 1000 2000 (Some "deadbeef") None None
              (Samples.passenger Samples.default_prefs))
    as (_ & _ & Hok); [reflexivity | reflexivity | right; reflexivity |].
  destruct (unsubscribe_then_reactivate
              Samples.randomHex Samples.validate_utc Samples.persist_ok 1000 700000000 (Some "deadbeef")
              None None (Samples.passenger Samples.default_prefs))
    as (_ & Hexp & _); [reflexivity | reflexivity | right; reflexivity |].
  split.
  - destruct (Hok eq_refl) as (_ & _ & Hst & _). exact Hst.
  - destruct (Hexp eq_refl) as (Hthrow & _). fold u in Hthrow. rewrite Hthrow. reflexivity.
Defined.

Lemma addNotification_counters_witness :
  let n' := Subscription.notificationStats
              (snd (Subscription.addNotification
                      Samples.randomHex Samples.validate_utc Samples.persist_ok 1000
                      "status_changes" "email" "failed" None (Some "Temporary failure")
                      (Samples.passenger Samples.default_prefs))) in
  Subscription.emailsSent n' + Subscription.smsSent n' + Subscription.pushSent n'
  <= Subscription.totalSent n' /\
  Subscription.totalSent n' = 1.
Proof.
  intros n'.
  destruct (addNotification_counters
              Samples.randomHex Samples.validate_utc Samples.persist_ok 1000
              "status_changes" "email" "failed" None (Some "Temporary failure")
              (Samples.passenger Samples.default_prefs))
    as (Ht & _ & _ & _ & _ & _ & Hinv).
  split; [apply Hinv; vm_compute; discriminate | exact Ht].
Defined.

Lemma new_subscription_expiry_witness :
  Subscription.expiresAt
    (Subscription.pre_save
       Samples.randomHex 1000
       (Subscription.mkSubscription
          "passenger@example.com" "AA123" 28800000 Subscription.PENDING
          (Subscription.mkVerification false None None None 0)
          (Subscription.mkUnsubscribe None false None None None)
          (Some Samples.default_prefs) Samples.no_notifications
          (Subscription.mkGDPR (Some 0) (Some 3))
          None true
          (Subscription.mkTracking true true true)))
  = Some 259200000.
Proof.
  rewrite new_subscription_expiry; reflexivity.
Defined.

Lemma daysUntilExpiry_rounds_up_witness :
  exists d, Subscription.daysUntilExpiry 1000 (Samples.passenger Samples.default_prefs)
            = Some d /\ 0 < d.
Proof.
  destruct (daysUntilExpiry_rounds_up 1000 (Samples.passenger Samples.default_prefs)
                                      633600000 eq_refl)
    as (d & Hd & _ & Hpos & _).
  exists d. split; [exact Hd|]. apply Hpos. lia.
Defined.

(** ** Rate limiter and data deletion *)

Section RateLimiter.
Import Subscription NotificationService.

Lemma hourlyKey_same (email : string) (t now : Z) :
  t / 3600000 = now / 3600000 -> hourlyKey email t = hourlyKey email now.
Proof.
  intros H. unfold hourlyKey. change (60 * 60 * 1000) with 3600000. now rewrite H.
Qed.

Lemma dailyKey_same (email : string) (t now : Z) :
  t / 3600000 = now / 3600000 -> dailyKey email t = dailyKey email now.
Proof.
  intros H. unfold dailyKey. change (24 * 60 * 60 * 1000) with (3600000 * 24).
  rewrite <- !Zdiv_Zdiv by lia. now rewrite H.
Qed.

Lemma hourlyKey_other (email : string) (t now : Z) :
  t / 3600000 <> now / 3600000 -> hourlyKey email t <> hourlyKey email now.
Proof.
  intros H E. unfold hourlyKey in E. change (60 * 60 * 1000) with 3600000 in E.
  apply append_cancel in E. apply (append_cancel ":hour:") in E.
  apply (inj pretty) in E. contradiction.
Qed.

Lemma dailyKey_other (email : string) (t now : Z) :
  t / 86400000 <> now / 86400000 -> dailyKey email t <> dailyKey email now.
Proof.
  intros H E. unfold dailyKey in E. change (24 * 60 * 60 * 1000) with 86400000 in E.
  apply append_cancel in E. apply (append_cancel ":day:") in E.
  apply (inj pretty) in E. contradiction.
Qed.

Lemma updateRateLimit_counts (svc : Service) (t now : Z) (email : string) :
  t / 3600000 = now / 3600000 ->
  count (updateRateLimit svc t email) (hourlyKey email now)
  = count svc (hourlyKey email now) + 1 /\
  count (updateRateLimit svc t email) (dailyKey email now)
  = count svc (dailyKey email now) + 1 /\
  config (updateRateLimit svc t email) = config svc.
Proof.
  intros H. unfold updateRateLimit, count. simpl.
  rewrite (hourlyKey_same email t now H), (dailyKey_same email t now H).
  rewrite lookup_insert_ne by (apply not_eq_sym, hourlyKey_dailyKey).
  rewrite !lookup_insert_eq. repeat split; reflexivity.
Qed.

Lemma record_sends_counts (email : string) (now : Z) (times : list Z) :
  Forall (fun t => t / 3600000 = now / 3600000) times ->
  forall svc : Service,
    let svc' := fold_left (fun s t => updateRateLimit s t email) times svc in
    count svc' (hourlyKey email now) = count svc (hourlyKey email now) + Z.of_nat (length times) /\
    count svc' (dailyKey email now) = count svc (dailyKey email now) + Z.of_nat (length times) /\
    config svc' = config svc.
Proof.
  induction 1 as [|t times Ht _ IH]; intros svc.
  - simpl. repeat split; lia.
  - destruct (IH (updateRateLimit svc t email)) as (H1 & H2 & H3).
    destruct (updateRateLimit_counts svc t now email Ht) as (U1 & U2 & U3).
    cbv zeta in *. simpl fold_left. rewrite H1, H2, H3, U1, U2, U3.
    simpl length. repeat split; lia.
Qed.

(** X19: sends recorded with [updateRateLimit] inside one clock hour add up
    in the hourly and in the daily counter of the recipient, and afterwards
    [checkRateLimit] passes in that hour exactly while both counters are
    below their limits; from an empty store, exactly while the number of
    recorded sends is below [maxPerHour] and [maxPerDay]. *)
Theorem rate_limit_window (svc : Service) (email : string) (now : Z) (times : list Z) :
  Forall (fun t => t / 3600000 = now / 3600000) times ->
  let svc' := fold_left (fun s t => updateRateLimit s t email) times svc in
  let n := Z.of_nat (length times) in
  count svc' (hourlyKey email now) = count svc (hourlyKey email now) + n /\
  count svc' (dailyKey email now) = count svc (dailyKey email now) + n /\
  (checkRateLimit svc' now email = true <->
   count svc (hourlyKey email now) + n < maxPerHour (rateLimit (config svc)) /\
   count svc (dailyKey email now) + n < maxPerDay (rateLimit (config svc))) /\
  (rateLimitStore svc = ∅ ->
   (checkRateLimit svc' now email = true <->
    n < maxPerHour (rateLimit (config svc)) /\ n < maxPerDay (rateLimit (config svc)))).
Proof.
  intros Hall svc' n.
  destruct (record_sends_counts email now times Hall svc) as (H1 & H2 & H3).
  fold svc' in H1, H2, H3. fold n in H1, H2.
  assert (Hcheck : checkRateLimit svc' now email = true <->
                   count svc (hourlyKey email now) + n < maxPerHour (rateLimit (config svc)) /\
                   count svc (dailyKey email now) + n < maxPerDay (rateLimit (config svc))).
  { unfold checkRateLimit. rewrite H1, H2, H3.
    destruct (Z.geb_spec (count svc (hourlyKey email now) + n)
                         (maxPerHour (rateLimit (config svc))));
      [split; [discriminate | lia]|].
    destruct (Z.geb_spec (count svc (dailyKey email now) + n)
                         (maxPerDay (rateLimit (config svc))));
      [split; [discriminate | lia]|].
    split; [lia | reflexivity]. }
  split; [exact H1|]. split; [exact H2|]. split; [exact Hcheck|].
  intros Hempty. rewrite Hcheck. unfold count. rewrite Hempty, !lookup_empty. simpl.
  split; intros; lia.
Qed.

(** X20: the buckets expire by their keys.  A send recorded in another
    clock hour does not count in this hour's counter, and one recorded on
    another day changes neither counter of today, so it leaves
    [checkRateLimit] as it was; a send recorded in another hour of the same
    day still counts against the daily limit. *)
Theorem rate_limit_buckets (svc : Service) (email : string) (t now : Z) :
  (t / 3600000 <> now / 3600000 ->
   count (updateRateLimit svc t email) (hourlyKey email now)
   = count svc (hourlyKey email now)) /\
  (t / 86400000 <> now / 86400000 ->
   checkRateLimit (updateRateLimit svc t email) now email = checkRateLimit svc now email) /\
  (t / 86400000 = now / 86400000 ->
   count (updateRateLimit svc t email) (dailyKey email now)
   = count svc (dailyKey email now) + 1).
Proof.
  assert (Hhour : t / 3600000 <> now / 3600000 ->
                  count (updateRateLimit svc t email) (hourlyKey email now)
                  = count svc (hourlyKey email now)).
  { intros H. unfold updateRateLimit, count. simpl.
    rewrite lookup_insert_ne by (apply not_eq_sym, hourlyKey_dailyKey).
    rewrite lookup_insert_ne by (apply hourlyKey_other; exact H). reflexivity. }
  split; [exact Hhour|]. split.
  - intros Hday.
    assert (Hh : t / 3600000 <> now / 3600000).
    { intros E. apply Hday.
      change 86400000 with (3600000 * 24). rewrite <- !Zdiv_Zdiv by lia. now rewrite E. }
    unfold checkRateLimit. rewrite (Hhour Hh).
    replace (count (updateRateLimit svc t email) (dailyKey email now))
      with (count svc (dailyKey email now)); [reflexivity|].
    unfold updateRateLimit, count. simpl.
    rewrite lookup_insert_ne by (apply dailyKey_other; exact Hday).
    rewrite lookup_insert_ne by (apply hourlyKey_dailyKey). reflexivity.
  - intros Hday. unfold updateRateLimit, count. simpl.
    assert (E : dailyKey email t = dailyKey email now).
    { unfold dailyKey. change (24 * 60 * 60 * 1000) with 86400000. now rewrite Hday. }
    rewrite E, lookup_insert_eq. reflexivity.
Qed.

(** X21: [resetRateLimit] clears both counters of the current window:
    right after it, whatever was recorded before, [checkRateLimit] passes
    exactly when both limits are positive. *)
Theorem resetRateLimit_clears (svc : Service) (email : string) (now : Z) :
  count (resetRateLimit svc now email) (hourlyKey email now) = 0 /\
  count (resetRateLimit svc now email) (dailyKey email now) = 0 /\
  (checkRateLimit (resetRateLimit svc now email) now email = true <->
   0 < maxPerHour (rateLimit (config svc)) /\ 0 < maxPerDay (rateLimit (config svc))).
Proof.
  assert (Hh : count (resetRateLimit svc now email) (hourlyKey email now) = 0).
  { unfold resetRateLimit, count. simpl.
    rewrite lookup_delete_ne by (apply not_eq_sym, hourlyKey_dailyKey).
    rewrite lookup_delete_eq. reflexivity. }
  assert (Hd : count (resetRateLimit svc now email) (dailyKey email now) = 0).
  { unfold resetRateLimit, count. simpl. rewrite lookup_delete_eq. reflexivity. }
  split; [exact Hh|]. split; [exact Hd|].
  unfold checkRateLimit. rewrite Hh, Hd. simpl.
  destruct (Z.geb_spec 0 (maxPerHour (rateLimit (config svc))));
    [split; [discriminate | lia]|].
  destruct (Z.geb_spec 0 (maxPerDay (rateLimit (config svc))));
    [split; [discriminate | lia]|].
  split; [lia | reflexivity].
Qed.

End RateLimiter.

Lemma rate_limit_window_witness :
  NotificationService.checkRateLimit
    (fold_left (fun s t => NotificationService.updateRateLimit s t "passenger@example.com")
               [1000; 2000] Samples.one_per_hour)
    3000 "passenger@example.com" = false.
Proof.
  destruct (rate_limit_window Samples.one_per_hour "passenger@example.com" 3000
                              [1000; 2000]) as (_ & _ & _ & H).
  { repeat constructor. }
  apply not_true_is_false. intros Hc. apply (H eq_refl) in Hc.
  simpl in Hc. lia.
Defined.

Lemma rate_limit_buckets_witness :
  NotificationService.checkRateLimit
    (NotificationService.updateRateLimit Samples.one_per_hour 1000 "passenger@example.com")
    86400000 "passenger@example.com"
  = NotificationService.checkRateLimit Samples.one_per_hour 86400000
                                       "passenger@example.com".
Proof.
  destruct (rate_limit_buckets Samples.one_per_hour "passenger@example.com" 1000 86400000)
    as (_ & H & _).
  apply H. vm_compute. discriminate.
Defined.

Section DataDeletion.
Import Subscription NotificationService.

Variable randomHex : nat -> string.
Variable validate : Z -> Subscription -> option string.
Variable persist : Subscription -> option JsError.
Variable find : string -> Outcome (list Subscription).

Lemma prefix_append (e r : string) : String.prefix e (e +:+ r) = true.
Proof.
  induction e as [|c e IH]; simpl; [destruct r; reflexivity|].
  destruct (ascii_dec c c) as [_|Hne]; [exact IH | contradiction].
Qed.

Lemma includes_prefix (e h : string) : String.prefix e h = true -> includes e h = true.
Proof. destruct h; simpl; intros ->; reflexivity. Qed.

Lemma includes_own_key (e r : string) : includes e (e +:+ r) = true.
Proof. apply includes_prefix, prefix_append. Qed.

(** X22: a data deletion request that marks subscriptions removes every
    rate-limit counter whose key contains the address: afterwards both
    counters of the address are 0 in every window, so [checkRateLimit]
    passes whenever the limits are positive, and the counters of keys that
    do not contain the address are untouched.  A request that finds no
    subscription, or whose query or save fails, leaves the store as it
    was. *)
Theorem deletion_purges_counters (svc : Service) (now : Z) (email : string) :
  let r := processDataDeletionRequest randomHex validate persist find svc now email in
  let svc' := snd (fst r) in
  config svc' = config svc /\
  match fst (fst r) with
  | Marked n =>
    (forall t, count svc' (hourlyKey email t) = 0 /\ count svc' (dailyKey email t) = 0) /\
    (forall t, 0 < maxPerHour (rateLimit (config svc)) ->
               0 < maxPerDay (rateLimit (config svc)) ->
               checkRateLimit svc' t email = true) /\
    (forall key, includes email key = false ->
                 rateLimitStore svc' !! key = rateLimitStore svc !! key) /\
    (forall key, includes email key = true -> rateLimitStore svc' !! key = None)
  | NoData | DeletionFailed _ => svc' = svc
  end.
Proof.
  intros r svc'. subst svc' r. unfold processDataDeletionRequest.
  destruct (find email) as [subscriptions|e]; simpl; [|split; reflexivity].
  destruct (length subscriptions =? 0)%nat; simpl; [split; reflexivity|].
  destruct (fst (mark_for_deletion _ _ _ _ _)); simpl; [|split; reflexivity].
  split; [reflexivity|].
  assert (Hgone : forall key, includes email key = true ->
                              filter (fun kv => includes email (fst kv) = false)
                                     (rateLimitStore svc) !! key = None).
  { intros key Hk. apply map_lookup_filter_None. right.
    intros x _. simpl. rewrite Hk. discriminate. }
  assert (Hcount : forall t,
             default 0 (filter (fun kv => includes email (fst kv) = false)
                               (rateLimitStore svc) !! hourlyKey email t) = 0 /\
             default 0 (filter (fun kv => includes email (fst kv) = false)
                               (rateLimitStore svc) !! dailyKey email t) = 0).
  { intros t. unfold hourlyKey, dailyKey.
    rewrite !Hgone by apply includes_own_key. split; reflexivity. }
  split; [exact Hcount|]. split; [|split; [|exact Hgone]].
  - intros t Hh Hd. unfold checkRateLimit, count. simpl.
    destruct (Hcount t) as [-> ->].
    destruct (Z.geb_spec 0 (maxPerHour (rateLimit (config svc)))); [lia|].
    destruct (Z.geb_spec 0 (maxPerDay (rateLimit (config svc)))); [lia|].
    reflexivity.
  - intros key Hk.
    destruct (rateLimitStore svc !! key) as [x|] eqn:Hx.
    + apply map_lookup_filter_Some. split; [exact Hx | exact Hk].
    + apply map_lookup_filter_None. left. exact Hx.
Qed.

End DataDeletion.

Lemma deletion_purges_counters_witness :
  let limited :=
    NotificationService.updateRateLimit Samples.one_per_hour 1000 "passenger@example.com" in
  let r := NotificationService.processDataDeletionRequest
             Samples.randomHex Samples.validate_utc Samples.persist_ok
             (fun _ => Returned [Samples.passenger Samples.default_prefs])
             limited 2000 "passenger@example.com" in
  NotificationService.checkRateLimit limited 2000 "passenger@example.com" = false /\
  fst (fst r) = NotificationService.Marked 1 /\
  NotificationService.checkRateLimit (snd (fst r)) 2000 "passenger@example.com" = true.
Proof.
  intros limited r.
  pose proof (deletion_purges_counters
                Samples.randomHex Samples.validate_utc Samples.persist_ok
                (fun _ => Returned [Samples.passenger Samples.default_prefs])
                limited 2000 "passenger@example.com") as H.
  cbv zeta in H. fold r in H. destruct H as [_ H].
  assert (Hr : fst (fst r) = NotificationService.Marked 1) by reflexivity.
  rewrite Hr in H. destruct H as (_ & Hcheck & _).
  split; [vm_compute; reflexivity|]. split; [exact Hr|].
  apply Hcheck; reflexivity.
Defined.

(** ** Dispatch, preferences and retries *)

Section Dispatcher.
Import Subscription NotificationService.

(** X23: what [shouldNotifyStatusChange] decides on.  It answers true
    exactly when [status_changes.enabled] is set and the two statuses
    differ; two subscriptions that agree on [status_changes.enabled] get the
    same answer whatever their [delays], [cancellations] and
    [boarding_calls] preferences are. *)
Theorem status_changes_alone_decides (s s' : Subscription) (oldStatus newStatus : string) :
  (shouldNotifyStatusChange s oldStatus newStatus = true <->
   enabled status_changes s = true /\ oldStatus <> newStatus) /\
  (enabled status_changes s = enabled status_changes s' ->
   shouldNotifyStatusChange s oldStatus newStatus
   = shouldNotifyStatusChange s' oldStatus newStatus).
Proof.
  rewrite !shouldNotifyStatusChange_eq. split.
  - rewrite andb_true_iff, negb_true_iff, String.eqb_neq. reflexivity.
  - intros ->. reflexivity.
Qed.

Section WithCollaborators.

Variable randomHex : nat -> string.
Variable validate : Z -> Subscription -> option string.
Variable persist : Subscription -> option JsError.
Variable findActiveByFlight : string -> option Z -> Outcome (list Subscription).
Variable sendEmail : Subscription -> Outcome EmailResult.

Local Abbreviation process := (process randomHex validate persist sendEmail).
Local Abbreviation notifyStatusChange :=
  (notifyStatusChange randomHex validate persist findActiveByFlight sendEmail).

Lemma fold_process_skips svc now oldStatus newStatus (l : list Subscription) :
  Forall (fun s => shouldNotifyStatusChange s oldStatus newStatus = false) l ->
  forall b : Batch,
    fold_left (process svc now oldStatus newStatus) l b
    = mkBatch (sent b) (failed b) (details b) (documents b ++ l).
Proof.
  induction 1 as [|s l Hs _ IH]; intros b; simpl.
  - rewrite app_nil_r. destruct b; reflexivity.
  - unfold NotificationService.process at 2. rewrite Hs. simpl.
    rewrite IH. simpl. rewrite <- app_assoc. reflexivity.
Qed.

(** X24: a dispatch in which no subscription is to be notified (the old
    status equals the flight's current status, or [status_changes] is
    switched off in every subscription found) sends nothing, records no
    detail, leaves every subscription document as it was, and does so
    whatever the transport and the store would have answered. *)
Theorem dispatch_without_recipients svc now flight oldStatus
        (subscriptions : list Subscription) :
  isEnabled svc = true ->
  findActiveByFlight (Flight.flightNumber flight)
                     (Flight.scheduled (Flight.departure flight))
  = Returned subscriptions ->
  subscriptions <> [] ->
  oldStatus = Flight.FLIGHT_STATUSES (Flight.status_current flight) \/
  Forall (fun s => enabled status_changes s = false) subscriptions ->
  notifyStatusChange svc now flight oldStatus
  = (Returned (Processed 0 0 []), svc, subscriptions).
Proof.
  intros Hen Hq Hne Hskip.
  unfold NotificationService.notifyStatusChange, notifyStatusChange_try.
  rewrite Hen, Hq. simpl.
  destruct subscriptions as [|s0 rest]; [contradiction|]. simpl length. simpl Nat.eqb.
  cbv iota.
  rewrite fold_process_skips; [reflexivity|].
  apply Forall_forall. intros s Hin. rewrite shouldNotifyStatusChange_eq.
  destruct Hskip as [->|Hall].
  - rewrite String.eqb_refl. apply andb_false_r.
  - rewrite Forall_forall in Hall. rewrite (Hall s Hin). reflexivity.
Qed.

Lemma addNotification_email now type method st mid err (s : Subscription) :
  email (snd (addNotification randomHex validate persist now type method st mid err s)) = email s.
Proof. unfold addNotification. rewrite save_email. reflexivity. Qed.

Lemma tally_snoc (st : string) (ds : list Detail) (d : Detail) :
  tally st (ds ++ [d]) = tally st ds + (if String.eqb (d_status d) st then 1 else 0).
Proof.
  unfold tally. rewrite List.filter_app, length_app. simpl.
  destruct (String.eqb (d_status d) st); simpl; lia.
Qed.

(** What one iteration adds: nothing, or one detail for its subscription,
    with the counters moving as the status of the detail says. *)
Lemma process_step svc now oldStatus newStatus (b : Batch) (s : Subscription) :
  let b' := process svc now oldStatus newStatus b s in
  map email (documents b') = map email (documents b) ++ [email s] /\
  ((details b' = details b /\ sent b' = sent b /\ failed b' = failed b) \/
   exists d,
     details b' = details b ++ [d] /\ d_email d = email s /\
     ((d_status d = "rate_limited" /\ sent b' = sent b /\ failed b' = failed b) \/
      (d_status d = "sent" /\ sent b' = sent b + 1 /\ failed b' = failed b) \/
      (d_status d = "failed" /\ sent b' = sent b /\ failed b' = failed b + 1) \/
      (d_status d = "error" /\
       ((sent b' = sent b + 1 /\ failed b' = failed b + 1) \/
        (sent b' = sent b /\ failed b' = failed b + 2))))).
Proof.
  unfold NotificationService.process, record_error.
  destruct (negb (shouldNotifyStatusChange s oldStatus newStatus)); simpl.
  { rewrite map_app. split; [reflexivity|]. left. repeat split; reflexivity. }
  destruct (negb (checkRateLimit svc now (email s))); simpl.
  { rewrite map_app. split; [reflexivity|]. right. eexists.
    split; [reflexivity|]. split; [reflexivity|]. left. repeat split; reflexivity. }
  destruct (success (sendStatusChangeEmail sendEmail s)); simpl;
    match goal with
    | |- context [fst ?r] => destruct (fst r) as [a|e]
    end; simpl; rewrite map_app; simpl; rewrite ?addNotification_email;
    (split; [reflexivity|]); right; eexists;
    (split; [reflexivity|]); simpl; (split; [reflexivity|]).
  - right. left. repeat split; reflexivity.
  - right. right. right. split; [reflexivity|]. left. split; reflexivity.
  - right. right. left. repeat split; reflexivity.
  - right. right. right. split; [reflexivity|]. right. split; [reflexivity|lia].
Qed.

(** The invariant of the loop behind the accounts below. *)
Lemma fold_process_accounts svc now oldStatus newStatus (l : list Subscription) :
  forall b : Batch,
    let b' := fold_left (process svc now oldStatus newStatus) l b in
    map email (documents b') = map email (documents b) ++ map email l /\
    (map d_email (details b) `sublist_of` map email (documents b) ->
     map d_email (details b') `sublist_of` map email (documents b')) /\
    (sent b' - tally "sent" (details b')) + (failed b' - tally "failed" (details b'))
    - 2 * tally "error" (details b')
    = (sent b - tally "sent" (details b)) + (failed b - tally "failed" (details b))
      - 2 * tally "error" (details b) /\
    0 <= (sent b' - tally "sent" (details b')) - (sent b - tally "sent" (details b))
      <= tally "error" (details b') - tally "error" (details b) /\
    Z.of_nat (length (details b'))
    - (tally "sent" (details b') + tally "failed" (details b')
       + tally "error" (details b') + tally "rate_limited" (details b'))
    = Z.of_nat (length (details b))
      - (tally "sent" (details b) + tally "failed" (details b)
         + tally "error" (details b) + tally "rate_limited" (details b)).
Proof.
  induction l as [|s l IH]; intros b; simpl.
  - rewrite app_nil_r. repeat split; [auto | lia | lia].
  - destruct (IH (process svc now oldStatus newStatus b s)) as (I1 & I2 & I3 & I4 & I5).
    destruct (process_step svc now oldStatus newStatus b s) as (P1 & P2).
    cbv zeta in *.
    split; [rewrite I1, P1, <- app_assoc; reflexivity|].
    assert (Hstep :
              (map d_email (details b) `sublist_of` map email (documents b) ->
               map d_email (details (process svc now oldStatus newStatus b s))
               `sublist_of` map email (documents b) ++ [email s]) /\
              (sent (process svc now oldStatus newStatus b s)
               - tally "sent" (details (process svc now oldStatus newStatus b s)))
              + (failed (process svc now oldStatus newStatus b s)
                 - tally "failed" (details (process svc now oldStatus newStatus b s)))
              - 2 * tally "error" (details (process svc now oldStatus newStatus b s))
              = (sent b - tally "sent" (details b)) + (failed b - tally "failed" (details b))
                - 2 * tally "error" (details b) /\
              0 <= (sent (process svc now oldStatus newStatus b s)
                    - tally "sent" (details (process svc now oldStatus newStatus b s)))
                   - (sent b - tally "sent" (details b))
                <= tally "error" (details (process svc now oldStatus newStatus b s))
                   - tally "error" (details b) /\
              Z.of_nat (length (details (process svc now oldStatus newStatus b s)))
              - (tally "sent" (details (process svc now oldStatus newStatus b s))
                 + tally "failed" (details (process svc now oldStatus newStatus b s))
                 + tally "error" (details (process svc now oldStatus newStatus b s))
                 + tally "rate_limited" (details (process svc now oldStatus newStatus b s)))
              = Z.of_nat (length (details b))
                - (tally "sent" (details b) + tally "failed" (details b)
                   + tally "error" (details b) + tally "rate_limited" (details b))).
    { destruct P2 as [(-> & -> & ->) | (d & -> & Hmail & Hcase)].
      - split; [intros H; now apply sublist_inserts_r|]. repeat split; lia.
      - split.
        + intros H. rewrite map_app. simpl. rewrite Hmail.
          apply sublist_app; [exact H | reflexivity].
        + rewrite !tally_snoc, length_app. simpl.
          destruct Hcase as [(-> & -> & ->) | [(-> & -> & ->) | [(-> & -> & ->) | (-> & Hc)]]];
            simpl; [| | |destruct Hc as [(-> & ->) | (-> & ->)]];
            repeat split; lia. }
    destruct Hstep as (H1 & H2 & H3 & H4).
    split; [intros H; apply I2; rewrite P1; exact (H1 H)|].
    repeat split; lia.
Qed.

(** X25: the accounts of a processed dispatch.  The details follow the
    order of the subscriptions found, at most one for each and with its
    address; every detail has one of the four statuses; [notificationsSent]
    is the number of ['sent'] details plus at most one for each ['error']
    detail; and sent plus failed is the number of ['sent'] and ['failed']
    details plus two for each ['error'] detail, whose delivery was counted
    once and whose rejected [save()] once more.  So neither counter is
    negative, sent is at most the number of subscriptions and failed at most
    twice that number. *)
Theorem dispatch_counters svc now flight oldStatus (subscriptions : list Subscription)
        (nSent nFailed : Z) (ds : list Detail) :
  findActiveByFlight (Flight.flightNumber flight)
                     (Flight.scheduled (Flight.departure flight))
  = Returned subscriptions ->
  fst (fst (notifyStatusChange svc now flight oldStatus))
  = Returned (Processed nSent nFailed ds) ->
  map d_email ds `sublist_of` map email subscriptions /\
  Z.of_nat (length ds)
  = tally "sent" ds + tally "failed" ds + tally "error" ds + tally "rate_limited" ds /\
  tally "sent" ds <= nSent <= tally "sent" ds + tally "error" ds /\
  nSent + nFailed = tally "sent" ds + tally "failed" ds + 2 * tally "error" ds /\
  0 <= nSent <= Z.of_nat (length subscriptions) /\
  0 <= nFailed <= 2 * Z.of_nat (length subscriptions).
Proof.
  intros Hq. unfold NotificationService.notifyStatusChange, notifyStatusChange_try. simpl.
  destruct (isEnabled svc); simpl; [|discriminate].
  rewrite Hq. simpl.
  destruct (length subscriptions =? 0)%nat; simpl; [discriminate|].
  intros H. injection H as <- <- <-.
  match goal with
  | |- context [fold_left ?f subscriptions ?b] =>
    destruct (fold_process_accounts svc now oldStatus
                (Flight.FLIGHT_STATUSES (Flight.status_current flight))
                subscriptions b) as (A1 & A2 & A3 & A4 & A5);
    set (final := fold_left f subscriptions b) in *
  end.
  cbv zeta in *. simpl in A1, A2, A3, A4, A5.
  change (tally "sent" []) with 0 in *. change (tally "failed" []) with 0 in *.
  change (tally "error" []) with 0 in *. change (tally "rate_limited" []) with 0 in *.
  assert (Hsub : map d_email (details final) `sublist_of` map email subscriptions)
    by (rewrite <- A1; apply A2; reflexivity).
  assert (Hlen : (length (details final) <= length subscriptions)%nat).
  { apply sublist_length in Hsub. rewrite !length_map in Hsub. exact Hsub. }
  assert (Hpos : forall st, 0 <= tally st (details final)) by (intros st; unfold tally; lia).
  pose proof (Hpos "sent"). pose proof (Hpos "failed"). pose proof (Hpos "error").
  pose proof (Hpos "rate_limited").
  split; [exact Hsub|]. repeat split; lia.
Qed.

End WithCollaborators.

End Dispatcher.

Lemma dispatch_without_recipients_witness :
  NotificationService.notifyStatusChange
    Samples.randomHex Samples.validate_utc Samples.persist_ok
    (fun _ _ => Returned [Samples.passenger Samples.default_prefs])
    Samples.console Samples.one_per_hour 1000 Samples.aa123_boarding "Boarding"
  = (Returned (NotificationService.Processed 0 0 []), Samples.one_per_hour,
     [Samples.passenger Samples.default_prefs]).
Proof.
  apply dispatch_without_recipients;
    [reflexivity | reflexivity | discriminate | left; reflexivity].
Defined.

(** The batch of three whose second [save()] is rejected: two ['sent']
    details and one ['error'] detail, three sent, one failed. *)
Lemma dispatch_counters_witness :
  let ds :=
    [NotificationService.mkDetail "passenger@example.com" "sent" (Some "console-1")
                                  None None;
     NotificationService.mkDetail
       "late@example.com" "error" None
       (Some "Subscription validation failed: flightDate: Flight date must be today or in the future")
       None;
     NotificationService.mkDetail "passenger@example.com" "sent" (Some "console-1")
                                  None None] in
  3 + 1 = NotificationService.tally "sent" ds + NotificationService.tally "failed" ds
          + 2 * NotificationService.tally "error" ds /\
  NotificationService.tally "sent" ds <= 3.
Proof.
  intros ds.
  destruct (dispatch_counters
              Samples.randomHex Samples.validate_utc Samples.persist_ok
              (fun _ _ => Returned [Samples.passenger Samples.default_prefs;
                                    Samples.late_passenger;
                                    Samples.passenger Samples.default_prefs])
              Samples.console Samples.one_per_hour 1000 Samples.aa123_boarding "Scheduled"
              [Samples.passenger Samples.default_prefs; Samples.late_passenger;
               Samples.passenger Samples.default_prefs]
              3 1 ds eq_refl eq_refl)
    as (_ & _ & (H1 & _) & H2 & _).
  split; [exact H2 | exact H1].
Defined.

Section RetrySchedule.
Import NotificationService.

Variable cfg : Config.
Variable sendEmail_at : Z -> Outcome EmailResult.

Lemma total_wait_schedule (n : nat) :
  forall first : Z,
    2 * total_wait (backoff_schedule cfg first (Z.of_nat n))
    = retryDelay cfg * Z.of_nat n * (2 * first + Z.of_nat n - 1).
Proof.
  induction n as [|n IH]; intros first.
  - simpl. lia.
  - replace (Z.of_nat (S n)) with (Z.of_nat n + 1) by lia.
    rewrite backoff_schedule_cons by lia. simpl.
    specialize (IH (first + 1)). nia.
Qed.

(** X26: when every send fails, a retry started at attempt 1 waits
    [retryDelay * N * (N + 1) / 2] in total before it returns its failure,
    [N] being [retryAttempts] (0 when that is negative): the sum of the
    linear backoff. *)
Theorem retry_total_wait :
  (forall k, 1 <= k <= retryAttempts cfg -> send_failed (sendEmail_at k)) ->
  let N := Z.max 0 (retryAttempts cfg) in
  2 * total_wait (snd (retryFailedNotification cfg sendEmail_at 1))
  = retryDelay cfg * N * (N + 1) /\
  exists result,
    fst (retryFailedNotification cfg sendEmail_at 1) = Returned result /\
    success result = false.
Proof.
  intros Hall N.
  destruct (retryFailedNotification_schedule cfg sendEmail_at 1)
    as (n & result & Hrun & Hn & Hex).
  destruct (Hex Hall) as [Hs Hcount].
  rewrite Hrun. simpl. split; [|exists result; split; [reflexivity | exact Hs]].
  replace n with (Z.of_nat (Z.to_nat N)) by (subst N; lia).
  rewrite total_wait_schedule. subst N. lia.
Qed.

Section FirstSuccess.

Variable k : Z.
Variable result : EmailResult.
Hypothesis k_in_range : k <= retryAttempts cfg.
Hypothesis k_sent : sendEmail_at k = Returned result.
Hypothesis k_succeeded : success result = true.

Lemma retry_reaches (attempt : Z) :
  attempt <= k ->
  (forall j, attempt <= j < k -> send_failed (sendEmail_at j)) ->
  retryFailedNotification cfg sendEmail_at attempt
  = (Returned result, backoff_schedule cfg attempt (k - attempt + 1)).
Proof.
  funelim (retryFailedNotification cfg sendEmail_at attempt); intros Hle Hfail.
  - lia.
  - destruct (Z.eq_dec attempt k) as [->|Hne].
    + match goal with
      | E : sendEmail_at k = Returned _ |- _ => rewrite k_sent in E; injection E as <-
      end.
      replace (k - k + 1) with 1 by lia. rewrite backoff_schedule_one. reflexivity.
    + specialize (Hfail attempt ltac:(lia)).
      match goal with
      | E : sendEmail_at attempt = Returned _ |- _ => rewrite E in Hfail
      end.
      simpl in Hfail. congruence.
  - assert (attempt <> k).
    { intros ->.
      match goal with
      | E : sendEmail_at k = Returned _ |- _ => rewrite k_sent in E; injection E as <-
      end.
      congruence. }
    match goal with
    | IH : _ -> _ -> retryFailedNotification _ _ _ = _ |- _ =>
      rewrite IH by (try lia; intros j Hj; apply Hfail; lia)
    end.
    unfold after. simpl.
    replace (k - attempt + 1) with ((k - (attempt + 1) + 1) + 1) by lia.
    rewrite (backoff_schedule_cons cfg attempt (k - (attempt + 1) + 1)) by lia.
    reflexivity.
  - assert (attempt <> k).
    { intros ->.
      match goal with
      | E : sendEmail_at k = Thrown _ |- _ => rewrite k_sent in E; discriminate E
      end. }
    match goal with
    | IH : _ -> _ -> retryFailedNotification _ _ _ = _ |- _ =>
      rewrite IH by (try lia; intros j Hj; apply Hfail; lia)
    end.
    unfold after. simpl.
    replace (k - attempt + 1) with ((k - (attempt + 1) + 1) + 1) by lia.
    rewrite (backoff_schedule_cons cfg attempt (k - (attempt + 1) + 1)) by lia.
    reflexivity.
  - assert (attempt = k) by lia. subst attempt.
    match goal with
    | E : sendEmail_at k = Thrown _ |- _ => rewrite k_sent in E; discriminate E
    end.
Qed.

End FirstSuccess.

(** X27: a retry stops at the first send that succeeds.  When the sends of
    attempts 1 to [k - 1] fail and the send of attempt [k] (within
    [retryAttempts]) succeeds, the retry returns that send's result after
    exactly [k] tries, each preceded by its wait, and performs no further
    send. *)
Theorem retry_stops_at_first_success (k : Z) (result : EmailResult) :
  1 <= k <= retryAttempts cfg ->
  (forall j, 1 <= j < k -> send_failed (sendEmail_at j)) ->
  sendEmail_at k = Returned result ->
  success result = true ->
  retryFailedNotification cfg sendEmail_at 1
  = (Returned result, backoff_schedule cfg 1 k).
Proof.
  intros [H1 Hk] Hfail Hsent Hok.
  rewrite (retry_reaches k result Hk Hsent Hok 1 H1 Hfail).
  replace (k - 1 + 1) with k by lia. reflexivity.
Qed.

End RetrySchedule.

(** The default configuration: three tries, half an hour of waiting. *)
Lemma retry_total_wait_witness :
  NotificationService.total_wait
    (snd (NotificationService.retryFailedNotification
            (NotificationService.config Samples.one_per_hour) Samples.transport_down 1))
  = 1800000.
Proof.
  destruct (retry_total_wait (NotificationService.config Samples.one_per_hour)
                             Samples.transport_down) as [H _];
    [intros k _; exact I|].
  cbv zeta in H.
  match type of H with
  | _ = ?r => assert (E : r = 3600000) by reflexivity; rewrite E in H
  end.
  lia.
Defined.

Lemma retry_stops_at_first_success_witness :
  NotificationService.retryFailedNotification
    (NotificationService.config Samples.one_per_hour) Samples.second_try 1
  = (Returned (NotificationService.mkEmailResult true (Some "sendgrid-1") None),
     [NotificationService.Wait 300000; NotificationService.Send 1;
      NotificationService.Wait 600000; NotificationService.Send 2]).
Proof.
  rewrite (retry_stops_at_first_success
             (NotificationService.config Samples.one_per_hour) Samples.second_try 2
             (NotificationService.mkEmailResult true (Some "sendgrid-1") None));
    try reflexivity.
  - simpl. lia.
  - intros j Hj. assert (j = 1) by lia. subst j. exact I.
Defined.

Lemma resetRateLimit_clears_witness :
  NotificationService.checkRateLimit
    (NotificationService.resetRateLimit
       (NotificationService.updateRateLimit Samples.one_per_hour 1000
                                            "passenger@example.com")
       2000 "passenger@example.com")
    2000 "passenger@example.com" = true.
Proof.
  apply (resetRateLimit_clears
           (NotificationService.updateRateLimit Samples.one_per_hour 1000
                                                "passenger@example.com")
           "passenger@example.com" 2000).
  split; reflexivity.
Defined.

Lemma status_changes_alone_decides_witness :
  NotificationService.shouldNotifyStatusChange
    (Samples.passenger Samples.cancellations_only) "Scheduled" "Cancelled"
  = NotificationService.shouldNotifyStatusChange
      (Samples.passenger
         (Subscription.mkPreferences (Some false) (Some true) (Some false) (Some true)))
      "Scheduled" "Cancelled".
Proof.
  apply (status_changes_alone_decides
           (Samples.passenger Samples.cancellations_only)
           (Samples.passenger
              (Subscription.mkPreferences (Some false) (Some true) (Some false) (Some true)))
           "Scheduled" "Cancelled").
  reflexivity.
Defined.
